(** * Analytics rollups of the salon backend (main.py)

    A shallow embedding of the two read-only endpoints of [main.py] that
    derive metrics from the document store, [analytics_summary]
    (GET /analytics/summary) and [admin_metrics] (GET /admin/metrics),
    together with the parts of their environment they rely on: Python's
    [datetime] arithmetic, the conversions [float()] and [int()], and the
    query operations of the document store ([find], [count_documents],
    [distinct], [aggregate]).

    Amounts are IEEE 754 binary64 numbers (Python's [float]), modelled by
    Rocq's primitive floats; every sum is taken in the order in which the
    code adds. *)

From Stdlib Require Import ZArith Floats Lia Ascii String.
From stdpp Require Import gmap strings list.

Local Open Scope Z_scope.

(** ** Python: exceptions and results *)

Module Py.

(** The exceptions that the modelled code can raise.  All of them derive
    from Python's [Exception].  [RequestValidationError] is FastAPI's
    rejection of a query parameter, [PyMongoError] any failure of the
    store. *)
Inductive exn :=
  | TypeError
  | ValueError
  | OverflowError
  | RequestValidationError
  | PyMongoError.

Inductive result (A : Type) :=
  | Ok (a : A)
  | Raise (e : exn).
Arguments Ok {A} a.
Arguments Raise {A} e.

#[export] Instance result_ret : MRet result := fun A a => Ok a.
#[export] Instance result_bind : MBind result := fun A B f m =>
  match m with
  | Ok a => f a
  | Raise e => Raise e
  end.
#[export] Instance result_fmap : FMap result := fun A B f m =>
  match m with
  | Ok a => Ok (f a)
  | Raise e => Raise e
  end.

(** [try: body / except Exception: handler] *)
Definition try_except {A} (body : result A) (handler : A) : result A :=
  match body with
  | Ok a => Ok a
  | Raise _ => Ok handler
  end.

(** [for x in xs: acc = body(acc, x)], stopping at the first exception. *)
Fixpoint for_each {A S} (xs : list A) (body : S -> A -> result S) (acc : S)
  : result S :=
  match xs with
  | [] => Ok acc
  | x :: xs' =>
      match body acc x with
      | Ok acc' => for_each xs' body acc'
      | Raise e => Raise e
      end
  end.

(** [s.replace(c, "")] for a one-character [c]. *)
Fixpoint remove_char (c : ascii) (s : string) : string :=
  match s with
  | EmptyString => EmptyString
  | String a s' =>
      if Ascii.eqb a c then remove_char c s' else String a (remove_char c s')
  end.

Definition digit_value (a : ascii) : option Z :=
  let n := Z.of_N (Ascii.N_of_ascii a) in
  if (48 <=? n) && (n <=? 57) then Some (n - 48) else None.

(** Whitespace as [str.strip()] sees it in the ASCII range: tab, line feed,
    vertical tab, form feed, carriage return, the separators 28 to 31 and
    the space. *)
Definition is_space (a : ascii) : bool :=
  let n := Z.of_N (Ascii.N_of_ascii a) in
  ((9 <=? n) && (n <=? 13)) || ((28 <=? n) && (n <=? 32)).

Fixpoint lstrip (s : string) : string :=
  match s with
  | String a s' => if is_space a then lstrip s' else s
  | EmptyString => EmptyString
  end.

Definition strip (s : string) : string :=
  String.rev (lstrip (String.rev (lstrip s))).

(** Digits of a decimal literal, a single underscore being allowed between
    two digits.  [after_digit] tells whether the previous character was a
    digit; [acc] is the value read so far. *)
Fixpoint int_digits (s : string) (after_digit : bool) (acc : Z) : option Z :=
  match s with
  | EmptyString => if after_digit then Some acc else None
  | String a s' =>
      match digit_value a with
      | Some d => int_digits s' true (10 * acc + d)
      | None =>
          if Ascii.eqb a "_" && after_digit
          then match s' with
               | String b _ =>
                   match digit_value b with
                   | Some _ => int_digits s' false acc
                   | None => None
                   end
               | EmptyString => None
               end
          else None
      end
  end.

(** [int(s)] for a [str] of ASCII characters, base 10. *)
Definition int_of_str (s : string) : result Z :=
  let parsed :=
    match strip s with
    | String "-" s' => Z.opp <$> int_digits s' false 0
    | String "+" s' => int_digits s' false 0
    | s' => int_digits s' false 0
    end in
  match parsed with
  | Some z => Ok z
  | None => Raise ValueError
  end.

(** [float(n)] for an [int] in the 64-bit range of the store: the nearest
    binary64 number, ties to even. *)
Definition float_of_int (z : Z) : float :=
  SF2Prim (binary_normalize prec emax z 0 false).

(** [int(x)] for a [float]: truncation towards zero. *)
Definition int_of_float (x : float) : result Z :=
  match Prim2SF x with
  | S754_zero _ => Ok 0
  | S754_finite s m e =>
      let a := if 0 <=? e then Z.pos m * 2 ^ e else Z.pos m / 2 ^ (- e) in
      Ok (if s then - a else a)
  | S754_infinity _ => Raise OverflowError
  | S754_nan => Raise ValueError
  end.

End Py.
Export Py.

(** ** Python: the [datetime] module

    Aware datetimes in UTC, the only ones the code builds ([_now()] is
    [datetime.now(timezone.utc)]).  The calendar functions follow the
    reference implementation of the module (proleptic Gregorian calendar,
    day 1 being 0001-01-01). *)

Module Datetime.

Record datetime := mk_datetime {
  year : Z;
  month : Z;
  day : Z;
  hour : Z;
  minute : Z;
  second : Z;
  microsecond : Z
}.

Definition MINYEAR : Z := 1.
Definition MAXYEAR : Z := 9999.
Definition _MAXORDINAL : Z := 3652059.

Definition _DAYS_IN_MONTH : list Z :=
  [-1; 31; 28; 31; 30; 31; 30; 31; 31; 30; 31; 30; 31].
Definition _DAYS_BEFORE_MONTH : list Z :=
  [-1; 0; 31; 59; 90; 120; 151; 181; 212; 243; 273; 304; 334].

Definition table (t : list Z) (i : Z) : Z := nth (Z.to_nat i) t (-1).

Definition _is_leap (y : Z) : bool :=
  (y mod 4 =? 0) && (negb (y mod 100 =? 0) || (y mod 400 =? 0)).

Definition _days_before_year (y : Z) : Z :=
  let y := y - 1 in
  y * 365 + y / 4 - y / 100 + y / 400.

Definition _days_in_month (y m : Z) : Z :=
  if (m =? 2) && _is_leap y then 29 else table _DAYS_IN_MONTH m.

Definition _days_before_month (y m : Z) : Z :=
  table _DAYS_BEFORE_MONTH m + (if (2 <? m) && _is_leap y then 1 else 0).

Definition _ymd2ord (y m d : Z) : Z :=
  _days_before_year y + _days_before_month y m + d.

Definition _DI400Y : Z := Eval cbv in _days_before_year 401.
Definition _DI100Y : Z := Eval cbv in _days_before_year 101.
Definition _DI4Y : Z := Eval cbv in _days_before_year 5.

Definition _ord2ymd (n : Z) : Z * Z * Z :=
  let n := n - 1 in
  let n400 := n / _DI400Y in
  let n := n mod _DI400Y in
  let y := n400 * 400 + 1 in
  let n100 := n / _DI100Y in
  let n := n mod _DI100Y in
  let n4 := n / _DI4Y in
  let n := n mod _DI4Y in
  let n1 := n / 365 in
  let n := n mod 365 in
  let y := y + (n100 * 100 + n4 * 4 + n1) in
  if (n1 =? 4) || (n100 =? 4) then (y - 1, 12, 31)
  else
    let leapyear := (n1 =? 3) && (negb (n4 =? 24) || (n100 =? 3)) in
    let m := Z.shiftr (n + 50) 5 in
    let preceding :=
      table _DAYS_BEFORE_MONTH m + (if (2 <? m) && leapyear then 1 else 0) in
    if n <? preceding
    then
      let m := m - 1 in
      let preceding :=
        preceding
        - (table _DAYS_IN_MONTH m + (if (m =? 2) && leapyear then 1 else 0)) in
      (y, m, n - preceding + 1)
    else (y, m, n - preceding + 1).

(** The field checks of the constructors of [date] and [time]. *)
Definition check_fields (dt : datetime) : bool :=
  (MINYEAR <=? year dt) && (year dt <=? MAXYEAR)
  && (1 <=? month dt) && (month dt <=? 12)
  && (1 <=? day dt) && (day dt <=? _days_in_month (year dt) (month dt))
  && (0 <=? hour dt) && (hour dt <=? 23)
  && (0 <=? minute dt) && (minute dt <=? 59)
  && (0 <=? second dt) && (second dt <=? 59)
  && (0 <=? microsecond dt) && (microsecond dt <=? 999999).

(** [datetime(year, month, day, hour, minute, second, microsecond,
    tzinfo=timezone.utc)] *)
Definition new (y m d h mi s us : Z) : result datetime :=
  let dt := mk_datetime y m d h mi s us in
  if check_fields dt then Ok dt else Raise ValueError.

Definition toordinal (dt : datetime) : Z :=
  _ymd2ord (year dt) (month dt) (day dt).

(** A [timedelta] in normal form: any number of days, seconds in
    [0, 86400), microseconds in [0, 1000000). *)
Record timedelta := mk_timedelta {
  td_days : Z;
  td_seconds : Z;
  td_microseconds : Z
}.

(** [timedelta(days, seconds, microseconds, minutes=.., hours=..)] on
    integers: the constructor carries the excess of each unit over to the
    next one and refuses more than 999999999 days. *)
Definition timedelta_new (days seconds microseconds minutes hours : Z)
  : result timedelta :=
  let s := seconds + 60 * minutes + 3600 * hours in
  let s := s + microseconds / 1000000 in
  let us := microseconds mod 1000000 in
  let d := days + s / 86400 in
  let s := s mod 86400 in
  if (Z.abs d <=? 999999999) then Ok (mk_timedelta d s us)
  else Raise OverflowError.

(** [-td] *)
Definition timedelta_neg (td : timedelta) : result timedelta :=
  timedelta_new (- td_days td) (- td_seconds td) (- td_microseconds td) 0 0.

(** [a + b] on timedeltas *)
Definition timedelta_add (a b : timedelta) : result timedelta :=
  timedelta_new (td_days a + td_days b) (td_seconds a + td_seconds b)
    (td_microseconds a + td_microseconds b) 0 0.

(** [dt + td]: through the ordinal of the date, as [datetime.__add__]. *)
Definition add (dt : datetime) (td : timedelta) : result datetime :=
  delta ← timedelta_new (toordinal dt) (second dt) (microsecond dt)
             (minute dt) (hour dt);
  delta ← timedelta_add delta td;
  let h := td_seconds delta / 3600 in
  let rem := td_seconds delta mod 3600 in
  let mi := rem / 60 in
  let s := rem mod 60 in
  if (0 <? td_days delta) && (td_days delta <=? _MAXORDINAL)
  then
    let '(y, m, d) := _ord2ymd (td_days delta) in
    new y m d h mi s (td_microseconds delta)
  else Raise OverflowError.

(** [dt - td] is [dt + (-td)]. *)
Definition sub (dt : datetime) (td : timedelta) : result datetime :=
  ntd ← timedelta_neg td;
  add dt ntd.

(** The instant of a datetime, in microseconds since 0001-01-01 00:00 UTC
    (day 1 starts at 86400000000). *)
Definition to_micros (dt : datetime) : Z :=
  ((toordinal dt * 86400
    + hour dt * 3600 + minute dt * 60 + second dt) * 1000000)
  + microsecond dt.

End Datetime.

(** ** Documents of the store

    A document maps field names to BSON values.  The values are the scalar
    types that [schemas.py] gives to the fields the analytics read:
    [Optional[...]] fields hold null, [str] a string, [float] a double,
    [datetime] a UTC date in milliseconds since 1970-01-01, and integers
    and booleans are there for the counters that the store produces. *)

Module Bson.

Inductive value :=
  | VNull
  | VBool (b : bool)
  | VInt (z : Z)
  | VDouble (x : float)
  | VStr (s : string)
  | VDate (ms : Z).

Abbreviation doc := (gmap string value).

Definition _EPOCH_ORD : Z := 719163.

(** The driver's encoding of an aware UTC datetime: whole milliseconds
    since the epoch, the microseconds below a millisecond being dropped. *)
Definition _datetime_to_millis (dt : Datetime.datetime) : Z :=
  let days :=
    Datetime._ymd2ord (Datetime.year dt) (Datetime.month dt) 1
    - _EPOCH_ORD + Datetime.day dt - 1 in
  let hours := days * 24 + Datetime.hour dt in
  let minutes := hours * 60 + Datetime.minute dt in
  let seconds := minutes * 60 + Datetime.second dt in
  seconds * 1000 + Datetime.microsecond dt / 1000.

Definition of_datetime (dt : Datetime.datetime) : value :=
  VDate (_datetime_to_millis dt).

(** [d.get(k)]: a missing field and a null field both read as [None]. *)
Definition get (d : doc) (k : string) : value := default VNull (d !! k).

(** [d.get(k, v)]: the default replaces a missing field only. *)
Definition get_default (d : doc) (k : string) (v : value) : value :=
  default v (d !! k).

(** [v == s] for a string literal [s]. *)
Definition eq_str (v : value) (s : string) : bool :=
  match v with
  | VStr s' => String.eqb s' s
  | _ => false
  end.

(** [int(v)] *)
Definition py_int (v : value) : result Z :=
  match v with
  | VInt z => Ok z
  | VBool b => Ok (if b then 1 else 0)
  | VDouble x => int_of_float x
  | VStr s => int_of_str s
  | VNull | VDate _ => Raise TypeError
  end.

End Bson.

(** ** The document store

    [main.py] imports its database handle [db] from the module [database],
    which is not among the sources.  The handle is modelled from the
    specification's description of the store (a filter query returning the
    matching documents of a named collection, a count of the matching
    documents, the distinct values of a field, and a grouped aggregation
    with group-by-key, count-per-group, threshold on the count and final
    count of groups), with the meaning that a MongoDB server gives to the
    filters and stages that [main.py] writes. *)

Module Mongo.
Import Bson.

(** [{"$gte": v}], [{"$gt": v}], [{"$in": [..]}] and the plain value [v]
    (equality) of a filter document. *)
Inductive cond :=
  | CEq (v : value)
  | CGt (v : value)
  | CGte (v : value)
  | CIn (vs : list value).

(** A filter document: every listed field must satisfy its condition. *)
Definition query := list (string * cond).

(** The stages that [main.py] uses:
    [{"$match": q}],
    [{"$group": {"_id": "$<by>", <into>: {"$sum": 1}}}] and
    [{"$count": <into>}]. *)
Inductive stage :=
  | Match (q : query)
  | GroupCount (by_field into : string)
  | Count (into : string).

(** Exact comparison of an integer with a double. *)
Definition compare_int_double (z : Z) (x : float) : option comparison :=
  match Prim2SF x with
  | S754_nan => None
  | S754_infinity s => Some (if s then Gt else Lt)
  | S754_zero _ => Some (z ?= 0)
  | S754_finite s m e =>
      let v := if s then Z.neg m else Z.pos m in
      Some (if 0 <=? e then z ?= v * 2 ^ e else z * 2 ^ (- e) ?= v)
  end.

Definition compare_double (x y : float) : option comparison :=
  match PrimFloat.compare x y with
  | FEq => Some Eq
  | FLt => Some Lt
  | FGt => Some Gt
  | FNotComparable => None
  end.

(** Values are comparable inside one type bracket (numbers, strings,
    booleans, dates, null) and not across brackets. *)
Definition compare_value (a b : value) : option comparison :=
  match a, b with
  | VNull, VNull => Some Eq
  | VBool x, VBool y => Some (Bool.compare x y)
  | VInt x, VInt y => Some (x ?= y)
  | VInt x, VDouble y => compare_int_double x y
  | VDouble x, VInt y => CompOpp <$> compare_int_double y x
  | VDouble x, VDouble y => compare_double x y
  | VStr x, VStr y => Some (String.compare x y)
  | VDate x, VDate y => Some (x ?= y)
  | _, _ => None
  end.

Definition is_nan_value (a : value) : bool :=
  match a with
  | VDouble x => PrimFloat.is_nan x
  | _ => false
  end.

(** Equality of values as the store sees it: numbers by their value
    whatever their type, NaN equal to itself. *)
Definition value_eqb (a b : value) : bool :=
  match compare_value a b with
  | Some Eq => true
  | _ => is_nan_value a && is_nan_value b
  end.

Definition is_null (v : value) : bool :=
  match v with
  | VNull => true
  | _ => false
  end.

(** Whether a field (absent when [None]) satisfies a condition.  A missing
    field equals null and nothing else. *)
Definition cond_holds (c : cond) (field : option value) : bool :=
  match c, field with
  | CEq v, Some x => value_eqb x v
  | CEq v, None => is_null v
  | CGt v, Some x =>
      match compare_value x v with Some Gt => true | _ => false end
  | CGt v, None => false
  | CGte v, Some x =>
      match compare_value x v with Some Gt => true | _ => value_eqb x v end
  | CGte v, None => is_null v
  | CIn vs, Some x => existsb (value_eqb x) vs
  | CIn vs, None => existsb is_null vs
  end.

Definition matches (q : query) (d : doc) : bool :=
  forallb (fun kc => cond_holds (snd kc) (d !! fst kc)) q.

(** One more document for the group of key [k]: the count of its group
    grows, or a new group is opened after the existing ones. *)
Fixpoint bump (k : value) (groups : list (value * Z)) : list (value * Z) :=
  match groups with
  | [] => [(k, 1)]
  | (k', n) :: groups' =>
      if value_eqb k k' then (k', n + 1) :: groups'
      else (k', n) :: bump k groups'
  end.

(** The group key [$field] of a document: null when the field is
    missing. *)
Definition group_key (by_field : string) (d : doc) : value :=
  default VNull (d !! by_field).

Definition group_count (by_field : string) (docs : list doc)
  : list (value * Z) :=
  fold_left (fun groups d => bump (group_key by_field d) groups) docs [].

(** Modelled from the spec: one stage of the grouped aggregation. *)
Definition run_stage (docs : list doc) (s : stage) : list doc :=
  match s with
  | Match q => filter (fun d => matches q d = true) docs
  | GroupCount by_field into =>
      (fun g : value * Z => {[ "_id" := fst g; into := VInt (snd g) ]})
        <$> group_count by_field docs
  | Count into =>
      match docs with
      | [] => []
      | _ :: _ => [ {[ into := VInt (Z.of_nat (length docs)) ]} ]
      end
  end.

Definition run_pipeline (pipeline : list stage) (docs : list doc) : list doc :=
  fold_left run_stage pipeline docs.

(** The distinct values of a field among documents; a document without the
    field contributes none. *)
Fixpoint distinct_values (vs : list value) : list value :=
  match vs with
  | [] => []
  | v :: vs' =>
      let rest := distinct_values vs' in
      if existsb (value_eqb v) rest then rest else v :: rest
  end.

(** Modelled from the spec: the database handle [db] of the missing
    module [database].  [db[name]] offers a filter query, a count, the
    distinct values of a field and a grouped aggregation; each may fail. *)
Record Db := {
  find : string -> query -> result (list doc);
  count_documents : string -> query -> result Z;
  distinct : string -> string -> query -> result (list value);
  aggregate : string -> list stage -> result (list doc)
}.

(** The contents of a database: its collections by name, each a sequence
    of documents in the order in which a scan returns them. *)
Abbreviation store := (gmap string (list doc)).

Definition collection (st : store) (name : string) : list doc :=
  default [] (st !! name).

Definition select (st : store) (name : string) (q : query) : list doc :=
  filter (fun d => matches q d = true) (collection st name).

(** Modelled from the spec: the handle of a reachable store holding [st],
    every operation of which succeeds and answers from the current
    contents. *)
Definition connect (st : store) : Db := {|
  find name q := Ok (select st name q);
  count_documents name q := Ok (Z.of_nat (length (select st name q)));
  distinct name field q :=
    Ok (distinct_values (omap (fun d : doc => d !! field) (select st name q)));
  aggregate name pipeline := Ok (run_pipeline pipeline (collection st name))
|}.

(** Modelled from the spec: the same handle with an aggregation engine
    that fails (the degraded mode of the returning-clients count). *)
Definition failing_aggregate (db : Db) (e : exn) : Db := {|
  find := find db;
  count_documents := count_documents db;
  distinct := distinct db;
  aggregate _ _ := Raise e
|}.

End Mongo.

Import Datetime Bson Mongo.

(** ** main.py: the analytics endpoints *)

(** The response of GET /analytics/summary. *)
Record summary := mk_summary {
  period : string;
  total_revenue : float;
  total_bookings : Z;
  new_clients : Z;
  returning_clients : Z
}.

(** The response of GET /admin/metrics. *)
Record metrics := mk_metrics {
  total_salons : Z;
  active_paid_salons : Z;
  trial_salons : Z;
  mrr : float;
  arr : float;
  revenue_30d : float;
  daily_active_salons : Z
}.

(** [Query("30d", pattern="^(7d|30d|90d|mtd)$")]: the tokens that the
    boundary lets through. *)
Definition valid_period (p : string) : bool :=
  bool_decide (p ∈ ["7d"; "30d"; "90d"; "mtd"]).

(** [if salon_id:] holds for a non-empty string only: [None] and the empty
    string both count as no tenant. *)
Definition truthy (salon_id : option string) : option string :=
  match salon_id with
  | Some "" => None
  | Some s => Some s
  | None => None
  end.

(** The filters of [analytics_summary]: [{time_field: {"$gte": start}}],
    with ["salon_id": salon_id] added when a tenant is given. *)
Definition scoped_filter (time_field : string) (start : datetime)
    (salon_id : option string) : query :=
  let q := [(time_field, CGte (of_datetime start))] in
  match truthy salon_id with
  | Some s => q ++ [("salon_id", CEq (VStr s))]
  | None => q
  end.

(** The window start of [analytics_summary] (its first lines). *)
Definition window_start (now : datetime) (p : string) : result datetime :=
  if String.eqb p "mtd"
  then Datetime.new (year now) (month now) 1 0 0 0 0
  else
    days ← int_of_str (remove_char "d" p);
    td ← timedelta_new days 0 0 0 0;
    Datetime.sub now td.

(** The aggregation pipeline of the returning-clients count. *)
Definition pipeline (start : datetime) (salon_id : option string)
  : list stage :=
  [ Match (scoped_filter "start_time" start salon_id);
    GroupCount "client_id" "cnt";
    Match [("cnt", CGt (VInt 1))];
    Count "rc" ].

Section Endpoints.

(** Python's [float()] on a [str]: the interpreter's parsing of a decimal
    literal into a double, which may raise [ValueError].  It is not code of
    the repository and nothing below depends on what it returns. *)
Variable float_of_str : string -> result float.

(** [float(v)] *)
Definition py_float (v : value) : result float :=
  match v with
  | VDouble x => Ok x
  | VInt z => Ok (float_of_int z)
  | VBool b => Ok (if b then 1%float else 0%float)
  | VStr s => float_of_str s
  | VNull | VDate _ => Raise TypeError
  end.

(** [acc += float(d.get(field, 0))] *)
Definition add_field (field : string) (acc : float) (d : doc) : result float :=
  x ← py_float (get_default d field (VInt 0));
  Ok (acc + x)%float.

(** The revenue loop of [analytics_summary]: the amounts of the scanned
    transactions whose status is "succeeded", added to 0.0 in the order
    of the scan. *)
Definition revenue_loop (txs : list doc) : result float :=
  for_each txs
    (fun revenue t =>
       if eq_str (get t "status") "succeeded"
       then add_field "amount" revenue t
       else Ok revenue)
    0%float.

(** GET /analytics/summary.  [now] is what [_now()] returns. *)
Definition analytics_summary (db : Db) (now : datetime)
    (salon_id : option string) (p : string) : result summary :=
  if negb (valid_period p) then Raise RequestValidationError
  else
    start ← window_start now p;
    (* Revenue from transactions *)
    txs ← find db "transaction" (scoped_filter "timestamp" start salon_id);
    revenue ← revenue_loop txs;
    (* Bookings *)
    total_bookings ←
      count_documents db "booking" (scoped_filter "created_at" start salon_id);
    (* Clients *)
    new_clients ←
      count_documents db "client" (scoped_filter "created_at" start salon_id);
    (* Returning clients approx: clients with >1 booking in window *)
    returning_clients ←
      try_except
        (agg ← aggregate db "booking" (pipeline start salon_id);
         match agg with
         | first :: _ => Ok (get_default first "rc" (VInt 0))
         | [] => Ok (VInt 0)
         end)
        (VInt 0);
    returning_clients ← py_int returning_clients;
    Ok (mk_summary p revenue total_bookings new_clients returning_clients).

Definition active_statuses : cond := CIn [VStr "active"; VStr "past_due"].

(** GET /admin/metrics.  [now1] and [now2] are what the two calls of
    [_now()] return. *)
Definition admin_metrics (db : Db) (now1 now2 : datetime) : result metrics :=
  total_salons ← count_documents db "salon" [];
  active_paid ← count_documents db "subscription" [("status", active_statuses)];
  on_trial ← count_documents db "subscription" [("status", CEq (VStr "trial"))];
  (* MRR from active subscriptions *)
  subs ← find db "subscription" [("status", active_statuses)];
  mrr ← for_each subs (add_field "mrr") 0%float;
  (* Last 30d revenue *)
  td ← timedelta_new 30 0 0 0 0;
  last30 ← Datetime.sub now1 td;
  txs ← find db "transaction"
          [("timestamp", CGte (of_datetime last30));
           ("status", CEq (VStr "succeeded"))];
  revenue_30d ← for_each txs (add_field "amount") 0%float;
  (* Daily actives proxy = salons with any booking in last 24h *)
  td ← timedelta_new 1 0 0 0 0;
  last1d ← Datetime.sub now2 td;
  salon_ids ← distinct db "booking" "salon_id"
                [("created_at", CGte (of_datetime last1d))];
  Ok (mk_metrics total_salons active_paid on_trial mrr (mrr * 12)%float
        revenue_30d (Z.of_nat (length salon_ids))).

End Endpoints.

(** ** main.py: the other endpoints and utilities *)

(** The body of POST /billing/transactions ([TransactionCreate]) as the
    handler receives it, the defaults "subscription" and "succeeded"
    filled in. *)
Record TransactionCreate := {
  tc_salon_id : string;
  tc_amount : float;
  tc_purpose : string;
  tc_status : string
}.

(** The body of POST /services ([ServiceCreate]). *)
Record ServiceCreate := {
  sc_salon_id : string;
  sc_name : string;
  sc_category : option string;
  sc_duration_min : Z;
  sc_price : float
}.

(** [schemas.Transaction(salon_id=.., amount=.., purpose=.., status=..,
    timestamp=..)]: the literals of [purpose] and [status] are checked, the
    currency takes its default, the amount is any float.  A model is
    represented by the document of its fields; a rejected value raises
    pydantic's [ValidationError], which is a [ValueError]. *)
Definition Transaction (salon_id : string) (amount : float)
    (purpose status : string) (timestamp : datetime) : result doc :=
  if bool_decide (purpose ∈ ["subscription"; "addon"; "pos"])
     && bool_decide (status ∈ ["pending"; "succeeded"; "failed"; "refunded"])
  then Ok {[ "salon_id" := VStr salon_id; "amount" := VDouble amount;
             "currency" := VStr "INR"; "purpose" := VStr purpose;
             "status" := VStr status; "timestamp" := of_datetime timestamp ]}
  else Raise ValueError.

(** [schemas.Service(salon_id=.., name=.., category=.., duration_min=..,
    price=..)], with [duration_min] in 5..600 and [price >= 0]. *)
Definition Service (salon_id name : string) (category : option string)
    (duration_min : Z) (price : float) : result doc :=
  if (5 <=? duration_min) && (duration_min <=? 600) && (0 <=? price)%float
  then Ok {[ "salon_id" := VStr salon_id; "name" := VStr name;
             "category" := match category with
                           | Some c => VStr c
                           | None => VNull
                           end;
             "duration_min" := VInt duration_min;
             "price" := VDouble price ]}
  else Raise ValueError.

(** What [_oid_str] tells apart in a value: an ObjectId, a datetime, a
    string (what it produces), or anything else. *)
Inductive pyval (oid other : Type) :=
  | PyObjectId (o : oid)
  | PyDatetime (dt : datetime)
  | PyStr (s : string)
  | PyOther (x : other).
Arguments PyObjectId {oid other} o.
Arguments PyDatetime {oid other} dt.
Arguments PyStr {oid other} s.
Arguments PyOther {oid other} x.

(** The argument of [_oid_str]: a dict with string keys, or not a dict. *)
Inductive pyobj (oid other : Type) :=
  | Dict (d : gmap string (pyval oid other))
  | NotDict (v : pyval oid other).
Arguments Dict {oid other} d.
Arguments NotDict {oid other} v.

Section Handlers.

(** [create_document] and [get_documents] of the module [database], which
    is not among the sources: the first is handed a collection name and a
    model and returns the id of the stored document, the second a
    collection name and a filter and returns the documents read. *)
Variable create_document : string -> doc -> result string.

(** ObjectIds, values that are neither ObjectId, datetime nor string, and
    the library functions [str] on an ObjectId and [datetime.isoformat]. *)
Variables oid other : Type.
Variable str_of_oid : oid -> string.
Variable isoformat : datetime -> string.

(** Whether [from bson import ObjectId] succeeds. *)
Variable bson_importable : bool.

Variable get_documents :
  string -> query -> result (list (pyobj oid other)).

(** POST /billing/transactions.  [now] is what [_now()] returns; the
    response is [{"id": tid}]. *)
Definition create_transaction (now : datetime) (body : TransactionCreate)
  : result string :=
  tx ← Transaction (tc_salon_id body) (tc_amount body) (tc_purpose body)
         (tc_status body) now;
  tid ← create_document "transaction" tx;
  Ok tid.

(** POST /services. *)
Definition create_service (body : ServiceCreate) : result string :=
  service ← Service (sc_salon_id body) (sc_name body) (sc_category body)
              (sc_duration_min body) (sc_price body);
  sid ← create_document "service" service;
  Ok sid.

(** One value of [_oid_str]'s loop. *)
Definition oid_str_value (v : pyval oid other) : pyval oid other :=
  match v with
  | PyObjectId o => if bson_importable then PyStr (str_of_oid o) else v
  | PyDatetime dt => PyStr (isoformat dt)
  | _ => v
  end.

(** [_oid_str(doc)]: convert Mongo ObjectId/datetime to string/iso for
    JSON responses. *)
Definition _oid_str (doc : pyobj oid other) : pyobj oid other :=
  match doc with
  | NotDict _ => doc
  | Dict d =>
      Dict (map_fold (fun k v out => <[ k := oid_str_value v ]> out) ∅ d)
  end.

(** GET /bookings: the filter is the tenant, and the status when one is
    given ([if status:]). *)
Definition list_bookings (salon_id : string) (status : option string)
  : result (list (pyobj oid other)) :=
  let q := [("salon_id", CEq (VStr salon_id))] in
  let q := match truthy status with
           | Some s => q ++ [("status", CEq (VStr s))]
           | None => q
           end in
  match get_documents "booking" q with
  | Ok docs => Ok (_oid_str <$> docs)
  | Raise e => Raise e
  end.

(** GET /crm/clients *)
Definition list_clients (salon_id : string)
  : result (list (pyobj oid other)) :=
  match get_documents "client" [("salon_id", CEq (VStr salon_id))] with
  | Ok docs => Ok (_oid_str <$> docs)
  | Raise e => Raise e
  end.

(** GET /services *)
Definition list_services (salon_id : string)
  : result (list (pyobj oid other)) :=
  match get_documents "service" [("salon_id", CEq (VStr salon_id))] with
  | Ok docs => Ok (_oid_str <$> docs)
  | Raise e => Raise e
  end.

(** GET /billing/transactions *)
Definition list_transactions (salon_id : string)
  : result (list (pyobj oid other)) :=
  match get_documents "transaction" [("salon_id", CEq (VStr salon_id))] with
  | Ok docs => Ok (_oid_str <$> docs)
  | Raise e => Raise e
  end.

(** GET /inventory *)
Definition list_inventory (salon_id : string)
  : result (list (pyobj oid other)) :=
  match get_documents "inventoryitem" [("salon_id", CEq (VStr salon_id))] with
  | Ok docs => Ok (_oid_str <$> docs)
  | Raise e => Raise e
  end.

(** GET /staff *)
Definition list_staff (salon_id : string)
  : result (list (pyobj oid other)) :=
  match get_documents "staff" [("salon_id", CEq (VStr salon_id))] with
  | Ok docs => Ok (_oid_str <$> docs)
  | Raise e => Raise e
  end.

(** GET /payroll *)
Definition list_payroll (salon_id : string) (month : option string)
  : result (list (pyobj oid other)) :=
  let q := [("salon_id", CEq (VStr salon_id))] in
  let q := match truthy month with
           | Some m => q ++ [("month", CEq (VStr m))]
           | None => q
           end in
  match get_documents "payrollentry" q with
  | Ok docs => Ok (_oid_str <$> docs)
  | Raise e => Raise e
  end.

End Handlers.

(** ** Vocabulary of the statements *)

(** A document is in the window of [time_field] when that field holds a
    date at or after the window start, as the store compares it (in whole
    milliseconds). *)
Definition in_window (time_field : string) (start : datetime) (d : doc)
  : bool :=
  match d !! time_field with
  | Some (VDate t) => _datetime_to_millis start <=? t
  | _ => false
  end.

(** The window as the specification words it, the half-open interval from
    the window start to [now]: the time field holds a date at or after the
    start and before [now]. *)
Definition in_half_open_window (time_field : string) (start now : datetime)
    (d : doc) : bool :=
  match d !! time_field with
  | Some (VDate t) =>
      (_datetime_to_millis start <=? t) && (t <? _datetime_to_millis now)
  | _ => false
  end.

(** A document is of the tenant when no tenant is asked for, or when its
    [salon_id] is the tenant asked for. *)
Definition of_tenant (salon_id : option string) (d : doc) : bool :=
  match truthy salon_id with
  | Some s => eq_str (get d "salon_id") s
  | None => true
  end.

Definition in_scope (time_field : string) (start : datetime)
    (salon_id : option string) (d : doc) : bool :=
  in_window time_field start d && of_tenant salon_id d.

Definition succeeded (t : doc) : bool := eq_str (get t "status") "succeeded".

Definition active_or_past_due (s : doc) : bool :=
  eq_str (get s "status") "active" || eq_str (get s "status") "past_due".

(** The number held by a field: a double, or an integer or boolean that
    [float()] converts; a missing field counts as the integer 0. *)
Definition field_number (field : string) (d : doc) : option float :=
  match get_default d field (VInt 0) with
  | VDouble x => Some x
  | VInt z => Some (float_of_int z)
  | VBool b => Some (if b then 1%float else 0%float)
  | _ => None
  end.

Definition numeric (field : string) (d : doc) : Prop :=
  is_Some (field_number field d).

Definition number (field : string) (d : doc) : float :=
  default 0%float (field_number field d).

(** The sum of floats as the code accumulates it: from 0.0, left to
    right. *)
Definition fsum (xs : list float) : float := fold_left PrimFloat.add xs 0%float.

(** The documents of a collection that are in scope. *)
Definition scoped (st : store) (name time_field : string) (start : datetime)
    (salon_id : option string) : list doc :=
  filter (fun d => in_scope time_field start salon_id d = true)
    (collection st name).

(** The groups of bookings by client key that hold more than one booking. *)
Definition returning_groups (bookings : list doc) : list (value * Z) :=
  filter (fun g => 1 < snd g) (group_count "client_id" bookings).

(** The client reference of a booking; [None] when the booking has none
    (the field is missing or null). *)
Definition client_ref (b : doc) : option string :=
  match b !! "client_id" with
  | Some (VStr c) => Some c
  | _ => None
  end.

(** [client_id] as [schemas.Booking] declares it: a string, null, or not
    there at all. *)
Definition client_typed (b : doc) : Prop :=
  match b !! "client_id" with
  | Some (VStr _) | Some VNull | None => True
  | _ => False
  end.

(** A booking without a client: [client_id] is null or not there. *)
Definition clientless (b : doc) : Prop :=
  match b !! "client_id" with
  | Some VNull | None => True
  | _ => False
  end.

(** The group key that the store derives from a client reference. *)
Definition key_of_ref (c : option string) : value :=
  match c with
  | Some s => VStr s
  | None => VNull
  end.

(** How many times [c] occurs in [refs]. *)
Definition occurrences (c : option string) (refs : list (option string))
  : nat :=
  length (filter (fun x => x = c) refs).

(** Two bookings that differ in their status at most. *)
Definition same_but_status (b b' : doc) : Prop :=
  forall k : string, k <> "status" -> b !! k = b' !! k.

(** A float that is not negative: zero of either sign, a positive number
    or positive infinity (never NaN). *)
Definition nonneg (x : float) : Prop := (0 <=? x)%float = true.

(** A field that holds a non-negative number, or is missing. *)
Definition nonneg_field (field : string) (d : doc) : Prop :=
  exists x, field_number field d = Some x /\ nonneg x.

(** *** Auxiliary notions of the proofs *)

(** [f] holds on the [2 ^ bits] integers from [lo] on. *)
Fixpoint forall_range (bits : nat) (lo : Z) (f : Z -> bool) : bool :=
  match bits with
  | O => f lo
  | S b => forall_range b lo f && forall_range b (lo + 2 ^ Z.of_nat b) f
  end.

(** What [_ord2ymd] must deliver on one cycle of 400 years. *)
Definition cycle_ok (n : Z) : bool :=
  (_DI400Y <? n) ||
  let '(y, m, d) := _ord2ymd n in
  (_ymd2ord y m d =? n)
  && (1 <=? y) && (y <=? 400)
  && ((y <=? 399) || (_DI400Y - 366 <? n))
  && (1 <=? m) && (m <=? 12)
  && (1 <=? d) && (d <=? _days_in_month y m).

(** The fields of a datetime are those of a date and a time of day. *)
Definition in_range (dt : datetime) : Prop :=
  (MINYEAR <= year dt <= MAXYEAR)
  /\ (1 <= month dt <= 12)
  /\ (1 <= day dt <= _days_in_month (year dt) (month dt))
  /\ (0 <= hour dt <= 23) /\ (0 <= minute dt <= 59)
  /\ (0 <= second dt <= 59) /\ (0 <= microsecond dt <= 999999).


(** The sign bit of a number is clear. *)
Definition positive_sign (f : spec_float) : Prop :=
  match f with
  | S754_zero s | S754_infinity s | S754_finite s _ _ => s = false
  | S754_nan => False
  end.


(** Counting over client references, the image of [bump] and
    [group_count] under [key_of_ref]. *)
Fixpoint bump_ref (c : option string) (gs : list (option string * Z))
  : list (option string * Z) :=
  match gs with
  | [] => [(c, 1)]
  | (c', n) :: gs' =>
      if decide (c = c') then (c', n + 1) :: gs'
      else (c', n) :: bump_ref c gs'
  end.

Definition count_refs (refs : list (option string))
  : list (option string * Z) :=
  fold_left (fun gs c => bump_ref c gs) refs [].

Definition lift (g : option string * Z) : value * Z :=
  (key_of_ref (fst g), snd g).


(** The count that the groups hold for a reference (0 when it has no
    group). *)
Fixpoint assoc (c : option string) (gs : list (option string * Z)) : Z :=
  match gs with
  | [] => 0
  | (c', n) :: gs' => if decide (c = c') then n else assoc c gs'
  end.


(** The groups [gs] count the references seen so far. *)
Definition counted (gs : list (option string * Z))
    (seen : list (option string)) : Prop :=
  NoDup gs.*1
  /\ (forall c, c ∈ gs.*1 <-> c ∈ seen)
  /\ (forall c, assoc c gs = Z.of_nat (occurrences c seen)).


(** The documents of a tenant. *)
Definition tenant_docs (salon_id : string) (docs : list doc) : list doc :=
  filter (fun d => eq_str (get d "salon_id") salon_id = true) docs.

(** Two stores hold the same transactions, bookings and clients for a
    tenant. *)
Definition same_for_tenant (salon_id : string) (st1 st2 : store) : Prop :=
  forall name, name ∈ ["transaction"; "booking"; "client"] ->
    tenant_docs salon_id (collection st1 name)
    = tenant_docs salon_id (collection st2 name).

(** ** Example data *)

(** A transaction as [create_transaction] stores it (the fields that the
    analytics read). *)
Definition transaction_doc (salon_id : string) (amount : float)
    (status : string) (timestamp : Z) : doc :=
  {[ "salon_id" := VStr salon_id; "amount" := VDouble amount;
     "status" := VStr status; "timestamp" := VDate timestamp ]}.

(** A booking as [create_booking] stores it; a booking without a client
    holds a null [client_id]. *)
Definition booking_doc (salon_id : string) (client_id : option string)
    (status : string) (start_time created_at : Z) : doc :=
  {[ "salon_id" := VStr salon_id; "client_id" := key_of_ref client_id;
     "status" := VStr status; "start_time" := VDate start_time;
     "created_at" := VDate created_at ]}.

Definition client_doc (salon_id : string) (created_at : Z) : doc :=
  {[ "salon_id" := VStr salon_id; "created_at" := VDate created_at ]}.

Definition subscription_doc (salon_id status : string) (mrr : float) : doc :=
  {[ "salon_id" := VStr salon_id; "status" := VStr status;
     "mrr" := VDouble mrr ]}.

(** 2024-03-15 10:30:00.123456 UTC, which the store sees as
    1710498600123 ms. *)
Definition now0 : datetime := mk_datetime 2024 3 15 10 30 0 123456.
Definition now0_ms : Z := 1710498600123.
Definition yesterday_ms : Z := now0_ms - 86400000.
Definition tomorrow_ms : Z := now0_ms + 86400000.
Definition last_year_ms : Z := now0_ms - 365 * 86400000.

(** An interpreter whose [float()] refuses every string; the example
    documents hold no string where a number is read. *)
Definition no_str : string -> result float := fun _ => Raise ValueError.

(** One succeeded transaction of 100 and one failed transaction of 50,
    both of the day before [now0]. *)
Definition revenue_store : store :=
  {[ "transaction" :=
       [ transaction_doc "s1" 100 "succeeded" yesterday_ms;
         transaction_doc "s1" 50 "failed" yesterday_ms ] ]}.

(** Client A with two bookings that started in the last 7 days. *)
Definition returning_store : store :=
  {[ "booking" :=
       [ booking_doc "s1" (Some "A") "completed" (yesterday_ms - 86400000)
           last_year_ms;
         booking_doc "s1" (Some "A") "completed" yesterday_ms yesterday_ms ] ]}.

(** Client A with one booking that started the day before [now0] and one
    that starts the day after. *)
Definition upcoming_bookings : list doc :=
  [ booking_doc "s1" (Some "A") "completed" yesterday_ms yesterday_ms;
    booking_doc "s1" (Some "A") "confirmed" tomorrow_ms yesterday_ms ].

Definition upcoming_store : store := {[ "booking" := upcoming_bookings ]}.

(** Client A with one booking that starts in the window and one that
    started a year before. *)
Definition single_store : store :=
  {[ "booking" :=
       [ booking_doc "s1" (Some "A") "confirmed" yesterday_ms yesterday_ms;
         booking_doc "s1" (Some "A") "completed" last_year_ms last_year_ms ] ]}.

(** Two bookings without a client and nothing else: one holds a null
    [client_id], the other has no such field. *)
Definition clientless_bookings : list doc :=
  [ booking_doc "s1" None "confirmed" yesterday_ms yesterday_ms;
    {[ "salon_id" := VStr "s1"; "status" := VStr "confirmed";
       "start_time" := VDate yesterday_ms;
       "created_at" := VDate yesterday_ms ]} ].

Definition clientless_store : store := {[ "booking" := clientless_bookings ]}.

(** Client A with two cancelled bookings, and the same two bookings
    confirmed. *)
Definition cancelled_store : store :=
  {[ "booking" :=
       [ booking_doc "s1" (Some "A") "cancelled" yesterday_ms yesterday_ms;
         booking_doc "s1" (Some "A") "cancelled" yesterday_ms yesterday_ms ] ]}.

Definition confirmed_store : store :=
  {[ "booking" :=
       [ booking_doc "s1" (Some "A") "confirmed" yesterday_ms yesterday_ms;
         booking_doc "s1" (Some "A") "confirmed" yesterday_ms yesterday_ms ] ]}.

(** Documents dated one day after [now0]: a succeeded transaction of 100,
    two bookings of client A created and starting then, and a client
    created then. *)
Definition future_store : store :=
  {[ "transaction" := [ transaction_doc "s1" 100 "succeeded" tomorrow_ms ];
     "booking" :=
       [ booking_doc "s1" (Some "A") "confirmed" tomorrow_ms tomorrow_ms;
         booking_doc "s1" (Some "A") "confirmed" tomorrow_ms tomorrow_ms ];
     "client" := [ client_doc "s1" tomorrow_ms ] ]}.

(** A store with one transaction of tenant s1, and the empty store. *)
Definition one_tenant_store : store :=
  {[ "transaction" := [ transaction_doc "s1" 100 "succeeded" yesterday_ms ] ]}.

Definition empty_store : store := ∅.

(** The same store with the documents of another tenant added. *)
Definition two_tenant_store : store :=
  {[ "transaction" :=
       [ transaction_doc "s2" 40 "succeeded" yesterday_ms;
         transaction_doc "s1" 100 "succeeded" yesterday_ms ];
     "booking" :=
       [ booking_doc "s2" (Some "B") "confirmed" yesterday_ms yesterday_ms ] ]}.

(** A succeeded transaction with a negative amount, as
    POST /billing/transactions stores it for [amount = -5]. *)
Definition negative_store : store :=
  {[ "transaction" := [ transaction_doc "s1" (-5) "succeeded" yesterday_ms ] ]}.

(** A transaction without an amount between two transactions with one. *)
Definition partial_store : store :=
  {[ "transaction" :=
       [ transaction_doc "s1" 100 "succeeded" yesterday_ms;
         {[ "salon_id" := VStr "s1"; "status" := VStr "succeeded";
            "timestamp" := VDate yesterday_ms ]};
         transaction_doc "s1" 20 "succeeded" yesterday_ms ] ]}.

(** Subscriptions: active with 1000, trial with 500, canceled with 2000. *)
Definition fleet_store : store :=
  {[ "subscription" :=
       [ subscription_doc "s1" "active" 1000;
         subscription_doc "s2" "trial" 500;
         subscription_doc "s3" "canceled" 2000 ] ]}.

(** Tenant T: transactions succeeded 200, succeeded 300 and pending 100 of
    the last 7 days, four bookings created and starting in that week (two
    of client A, two of client B), and three clients created in it. *)
Definition scenario_store : store :=
  {[ "transaction" :=
       [ transaction_doc "T" 200 "succeeded" yesterday_ms;
         transaction_doc "T" 300 "succeeded" yesterday_ms;
         transaction_doc "T" 100 "pending" yesterday_ms ];
     "booking" :=
       [ booking_doc "T" (Some "A") "completed" yesterday_ms yesterday_ms;
         booking_doc "T" (Some "B") "completed" yesterday_ms yesterday_ms;
         booking_doc "T" (Some "A") "confirmed" yesterday_ms yesterday_ms;
         booking_doc "T" (Some "B") "confirmed" yesterday_ms yesterday_ms ];
     "client" :=
       [ client_doc "T" yesterday_ms; client_doc "T" yesterday_ms;
         client_doc "T" yesterday_ms ] ]}.

(** ** Further vocabulary *)

(** The bookings that all the groups hold together. *)
Definition total_count (groups : list (value * Z)) : Z :=
  foldr (fun g acc => snd g + acc) 0 groups.

(** The store after one more document has been written at the end of a
    collection. *)
Definition append_doc (st : store) (name : string) (d : doc) : store :=
  <[ name := collection st name ++ [d] ]> st.

(** The tenant of a document, when its [salon_id] is a string. *)
Definition tenant_of (d : doc) : option string :=
  match d !! "salon_id" with
  | Some (VStr s) => Some s
  | _ => None
  end.

(** [salon_id] as the schemas declare it: a string, when it is there. *)
Definition tenant_typed (d : doc) : Prop :=
  match d !! "salon_id" with
  | Some (VStr _) | None => True
  | _ => False
  end.

(** A transaction with a null amount. *)
Definition null_amount_store : store :=
  {[ "transaction" :=
       [ transaction_doc "s1" 100 "succeeded" yesterday_ms;
         <[ "amount" := VNull ]>
           (transaction_doc "s1" 0 "succeeded" yesterday_ms) ] ]}.

(** Bookings of the last day: three of tenant s1 and one of tenant s2. *)
Definition busy_store : store :=
  {[ "booking" :=
       [ booking_doc "s1" (Some "A") "confirmed" tomorrow_ms
           (now0_ms - 3600000);
         booking_doc "s1" (Some "B") "confirmed" tomorrow_ms
           (now0_ms - 7200000);
         booking_doc "s2" None "confirmed" tomorrow_ms (now0_ms - 60000);
         booking_doc "s1" (Some "A") "confirmed" tomorrow_ms
           (now0_ms - 1000) ];
     "subscription" :=
       [ subscription_doc "s1" "active" 1000;
         subscription_doc "s2" "trial" 0;
         subscription_doc "s3" "past_due" 500 ];
     "salon" := [ {[ "name" := VStr "one" ]}; {[ "name" := VStr "two" ]};
                  {[ "name" := VStr "three" ]} ];
     "transaction" :=
       [ transaction_doc "s1" 100 "succeeded" yesterday_ms;
         transaction_doc "s2" 40 "succeeded" yesterday_ms;
         transaction_doc "s1" 7 "succeeded" last_year_ms ] ]}.

(** The documents created at or after a given millisecond. *)
Definition created_since (ms : Z) (d : doc) : bool :=
  match d !! "created_at" with
  | Some (VDate t) => ms <=? t
  | _ => false
  end.

Definition on_trial (s : doc) : bool := eq_str (get s "status") "trial".

(** The document of a transaction model. *)
Definition transaction_doc_of (salon_id : string) (amount : float)
    (purpose status : string) (timestamp : datetime) : doc :=
  {[ "salon_id" := VStr salon_id; "amount" := VDouble amount;
     "currency" := VStr "INR"; "purpose" := VStr purpose;
     "status" := VStr status; "timestamp" := of_datetime timestamp ]}.

(** * Properties *)

(** ** The calendar: ordinals and dates *)

Module Calendar.
Import Datetime.

Lemma forall_range_spec bits : forall lo f,
  forall_range bits lo f = true ->
  forall n, lo <= n < lo + 2 ^ Z.of_nat bits -> f n = true.
Proof.
  induction bits as [|b IH]; intros lo f H n Hn.
  - change (2 ^ Z.of_nat 0) with 1 in Hn.
    assert (n = lo) as -> by lia. exact H.
  - cbn [forall_range] in H. apply andb_prop in H as [H1 H2].
    rewrite Nat2Z.inj_succ, Z.pow_succ_r in Hn by lia.
    destruct (Z_lt_le_dec n (lo + 2 ^ Z.of_nat b)).
    + apply (IH lo f H1). lia.
    + apply (IH _ f H2). lia.
Qed.

Lemma cycle_checked : forall_range 18 1 cycle_ok = true.
Proof. vm_cast_no_check (eq_refl true). Qed.

Lemma cycle_ok_spec n :
  1 <= n <= _DI400Y ->
  let '(y, m, d) := _ord2ymd n in
  _ymd2ord y m d = n /\ 1 <= y <= 400 /\ (y <= 399 \/ _DI400Y - 366 < n)
  /\ 1 <= m <= 12 /\ 1 <= d <= _days_in_month y m.
Proof.
  intros Hn.
  assert (cycle_ok n = true) as H.
  { apply (forall_range_spec 18 1 _ cycle_checked).
    unfold _DI400Y in Hn. change (2 ^ Z.of_nat 18) with 262144. lia. }
  unfold cycle_ok in H. apply orb_prop in H as [H|H]; [lia|].
  destruct (_ord2ymd n) as [[y m] d].
  repeat (apply andb_prop in H as [H ?]).
  repeat split; lia.
Qed.

End Calendar.

Module CalendarFacts.
Import Datetime Calendar.

Lemma is_leap_shift y q : _is_leap (y + 400 * q) = _is_leap y.
Proof.
  unfold _is_leap.
  replace ((y + 400 * q) mod 4) with (y mod 4)
    by (replace (400 * q) with (100 * q * 4) by ring; now rewrite Z.mod_add).
  replace ((y + 400 * q) mod 100) with (y mod 100)
    by (replace (400 * q) with (4 * q * 100) by ring; now rewrite Z.mod_add).
  replace ((y + 400 * q) mod 400) with (y mod 400)
    by (replace (400 * q) with (q * 400) by ring; now rewrite Z.mod_add).
  reflexivity.
Qed.

Lemma days_before_year_shift y q :
  _days_before_year (y + 400 * q) = _days_before_year y + _DI400Y * q.
Proof.
  unfold _days_before_year, _DI400Y.
  replace (y + 400 * q - 1) with (y - 1 + 400 * q) by ring.
  replace ((y - 1 + 400 * q) / 4) with ((y - 1) / 4 + 100 * q)
    by (replace (400 * q) with (100 * q * 4) by ring; now rewrite Z.div_add).
  replace ((y - 1 + 400 * q) / 100) with ((y - 1) / 100 + 4 * q)
    by (replace (400 * q) with (4 * q * 100) by ring; now rewrite Z.div_add).
  replace ((y - 1 + 400 * q) / 400) with ((y - 1) / 400 + q)
    by (replace (400 * q) with (q * 400) by ring; now rewrite Z.div_add).
  ring.
Qed.

Lemma days_in_month_shift y q m :
  _days_in_month (y + 400 * q) m = _days_in_month y m.
Proof. unfold _days_in_month. now rewrite is_leap_shift. Qed.

Lemma ymd2ord_shift y q m d :
  _ymd2ord (y + 400 * q) m d = _ymd2ord y m d + _DI400Y * q.
Proof.
  unfold _ymd2ord, _days_before_month.
  rewrite days_before_year_shift, is_leap_shift. ring.
Qed.

(** [_ord2ymd] repeats every 400 years. *)
Lemma ord2ymd_shift n :
  let q := (n - 1) / _DI400Y in
  let r := (n - 1) mod _DI400Y in
  _ord2ymd n =
  let '(y, m, d) := _ord2ymd (r + 1) in (y + 400 * q, m, d).
Proof.
  intros q r. unfold _ord2ymd.
  replace (r + 1 - 1) with r by ring.
  assert (0 <= r < _DI400Y) as Hr by (apply Z.mod_pos_bound; reflexivity).
  rewrite (Z.div_small r _DI400Y), (Z.mod_small r _DI400Y) by exact Hr.
  fold q. fold r.
  repeat match goal with
  | |- context [if ?c then _ else _] => destruct c
  end; f_equal; try f_equal; ring.
Qed.

(** Every ordinal of the supported range is the ordinal of the date that
    [_ord2ymd] gives for it, and that date is a valid one. *)
Lemma ord2ymd_correct n :
  1 <= n <= _MAXORDINAL ->
  let '(y, m, d) := _ord2ymd n in
  _ymd2ord y m d = n
  /\ MINYEAR <= y <= MAXYEAR
  /\ 1 <= m <= 12 /\ 1 <= d <= _days_in_month y m.
Proof.
  intros Hn. rewrite ord2ymd_shift.
  set (q := (n - 1) / _DI400Y). set (r := (n - 1) mod _DI400Y).
  assert (0 <= r < _DI400Y) as Hr by (apply Z.mod_pos_bound; reflexivity).
  assert (n - 1 = _DI400Y * q + r) as Hq
    by (apply Z.div_mod; discriminate).
  pose proof (cycle_ok_spec (r + 1) ltac:(lia)) as H.
  destruct (_ord2ymd (r + 1)) as [[y m] d].
  destruct H as (Ho & Hy & Hlast & Hm & Hd).
  unfold _MAXORDINAL, MINYEAR, MAXYEAR, _DI400Y in *.
  rewrite ymd2ord_shift, days_in_month_shift. unfold _DI400Y.
  repeat split; try lia.
Qed.

End CalendarFacts.

(** ** Datetime arithmetic *)

Module DatetimeFacts.
Import Datetime Calendar CalendarFacts.

Lemma check_fields_iff dt : check_fields dt = true <-> in_range dt.
Proof.
  unfold check_fields, in_range.
  rewrite !andb_true_iff, !Z.leb_le. tauto.
Qed.

Lemma month_cases m :
  1 <= m <= 12 ->
  m = 1 \/ m = 2 \/ m = 3 \/ m = 4 \/ m = 5 \/ m = 6 \/ m = 7 \/ m = 8
  \/ m = 9 \/ m = 10 \/ m = 11 \/ m = 12.
Proof. lia. Qed.

Lemma days_before_year_bounds y :
  MINYEAR <= y <= MAXYEAR -> 0 <= _days_before_year y <= 3651694.
Proof.
  unfold MINYEAR, MAXYEAR, _days_before_year. intros H.
  Z.div_mod_to_equations. lia.
Qed.

Lemma toordinal_bounds dt :
  in_range dt -> 1 <= toordinal dt <= _MAXORDINAL + 1.
Proof.
  intros (Hy & Hm & Hd & _).
  pose proof (days_before_year_bounds _ Hy) as Hb.
  unfold toordinal, _ymd2ord, _MAXORDINAL.
  unfold _days_in_month in Hd. unfold _days_before_month.
  destruct (_is_leap (year dt));
    destruct (month_cases _ Hm) as
      [E|[E|[E|[E|[E|[E|[E|[E|[E|[E|[E|E]]]]]]]]]]];
    rewrite E in *;
    cbv [table nth Z.to_nat Pos.to_nat Pos.iter_op Nat.add Z.eqb Z.ltb
         Z.compare Pos.compare Pos.compare_cont Pos.eqb andb
         _DAYS_IN_MONTH _DAYS_BEFORE_MONTH] in *; lia.
Qed.

Lemma timedelta_new_fields d s us mi h :
  0 <= s + 60 * mi + 3600 * h < 86400 ->
  0 <= us < 1000000 ->
  Z.abs d <= 999999999 ->
  timedelta_new d s us mi h
  = Ok (mk_timedelta d (s + 60 * mi + 3600 * h) us).
Proof.
  intros Hs Hus Hd. unfold timedelta_new.
  rewrite (Z.div_small us), (Z.mod_small us), Z.add_0_r by lia.
  rewrite (Z.div_small _ 86400), (Z.mod_small _ 86400), Z.add_0_r by lia.
  destruct (Z.leb_spec (Z.abs d) 999999999); [reflexivity | lia].
Qed.

(** Subtracting whole days: the date moves back by that many ordinals, the
    time of day stays, and a date before 0001-01-01 is an overflow. *)
Lemma sub_days_eq now n :
  check_fields now = true ->
  1 <= n <= 999999999 ->
  Datetime.sub now (mk_timedelta n 0 0)
  = if 0 <? toordinal now - n
    then let '(y, m, d) := _ord2ymd (toordinal now - n) in
         Datetime.new y m d (hour now) (minute now) (second now)
           (microsecond now)
    else Raise OverflowError.
Proof.
  intros Hnow Hn. apply check_fields_iff in Hnow.
  pose proof (toordinal_bounds _ Hnow) as Hb. unfold _MAXORDINAL in Hb.
  destruct Hnow as (Hy & Hm & Hd & Hh & Hmi & Hs & Hus).
  unfold Datetime.sub, timedelta_neg. cbn [td_days td_seconds td_microseconds].
  rewrite (timedelta_new_fields (- n) (- 0) (- 0) 0 0) by lia.
  cbn [mbind result_bind]. unfold Datetime.add.
  rewrite (timedelta_new_fields (toordinal now)) by lia.
  cbn [mbind result_bind]. unfold timedelta_add.
  cbn [td_days td_seconds td_microseconds].
  rewrite timedelta_new_fields by lia.
  cbn [mbind result_bind td_days td_seconds td_microseconds].
  replace (toordinal now + - n) with (toordinal now - n) by ring.
  assert ((toordinal now - n <=? _MAXORDINAL) = true) as ->
    by (apply Z.leb_le; unfold _MAXORDINAL; lia).
  rewrite andb_true_r.
  destruct (0 <? toordinal now - n); [|reflexivity].
  match goal with |- context [?x / 3600] => set (S := x) end.
  assert (S / 3600 = hour now) as Eh
    by (subst S; Z.div_mod_to_equations; lia).
  assert (S mod 3600 / 60 = minute now) as Emi
    by (subst S; Z.div_mod_to_equations; lia).
  assert (S mod 3600 mod 60 = second now) as Es
    by (subst S; Z.div_mod_to_equations; lia).
  rewrite Eh, Emi, Es.
  replace (microsecond now + - 0) with (microsecond now) by ring.
  reflexivity.
Qed.

Lemma sub_days now n :
  check_fields now = true ->
  1 <= n <= 999999999 ->
  n < toordinal now ->
  exists start,
    Datetime.sub now (mk_timedelta n 0 0) = Ok start
    /\ check_fields start = true
    /\ toordinal start = toordinal now - n
    /\ hour start = hour now /\ minute start = minute now
    /\ second start = second now /\ microsecond start = microsecond now.
Proof.
  intros Hnow Hn Hord. rewrite (sub_days_eq now n Hnow Hn).
  assert ((0 <? toordinal now - n) = true) as -> by (apply Z.ltb_lt; lia).
  apply check_fields_iff in Hnow.
  pose proof (toordinal_bounds _ Hnow) as Hb. unfold _MAXORDINAL in Hb.
  destruct Hnow as (Hy & Hm & Hd & Hh & Hmi & Hs & Hus).
  pose proof (ord2ymd_correct (toordinal now - n)
                ltac:(unfold _MAXORDINAL; lia)) as Hc.
  destruct (_ord2ymd (toordinal now - n)) as [[y m] d].
  destruct Hc as (Ho & Hy' & Hm' & Hd').
  set (start := mk_datetime y m d (hour now) (minute now) (second now)
                  (microsecond now)).
  assert (check_fields start = true) as Hstart
    by (apply check_fields_iff; unfold in_range, start; cbn; lia).
  exists start. unfold Datetime.new. fold start. rewrite Hstart.
  repeat split; try reflexivity. exact Ho.
Qed.

Lemma sub_days_overflow now n :
  check_fields now = true ->
  1 <= n <= 999999999 ->
  toordinal now <= n ->
  Datetime.sub now (mk_timedelta n 0 0) = Raise OverflowError.
Proof.
  intros Hnow Hn Hord. rewrite (sub_days_eq now n Hnow Hn).
  assert ((0 <? toordinal now - n) = false) as -> by (apply Z.ltb_ge; lia).
  reflexivity.
Qed.

Lemma to_micros_days a b n :
  toordinal a = toordinal b - n ->
  hour a = hour b -> minute a = minute b ->
  second a = second b -> microsecond a = microsecond b ->
  to_micros a = to_micros b - n * 86400000000.
Proof. unfold to_micros. intros -> -> -> -> ->. ring. Qed.

(** The store's milliseconds follow the ordinal of the date. *)
Lemma datetime_to_millis_ordinal dt :
  Bson._datetime_to_millis dt
  = ((toordinal dt - Bson._EPOCH_ORD) * 86400
     + hour dt * 3600 + minute dt * 60 + second dt) * 1000
    + microsecond dt / 1000.
Proof. unfold Bson._datetime_to_millis, toordinal, _ymd2ord. ring. Qed.

Lemma millis_days a b n :
  toordinal a = toordinal b - n ->
  hour a = hour b -> minute a = minute b ->
  second a = second b -> microsecond a = microsecond b ->
  Bson._datetime_to_millis a = Bson._datetime_to_millis b - n * 86400000.
Proof.
  rewrite !datetime_to_millis_ordinal. intros -> -> -> -> ->. ring.
Qed.

End DatetimeFacts.

(** ** Filters *)

Section Filters.

Lemma cond_gte_date s field :
  cond_holds (CGte (VDate s)) field
  = match field with Some (VDate t) => s <=? t | _ => false end.
Proof.
  destruct field as [[|b|z|x|s0|t]|]; try reflexivity.
  - unfold cond_holds, value_eqb. cbn. apply andb_false_r.
  - unfold cond_holds, value_eqb. cbn.
    destruct (Z.compare_spec t s), (Z.leb_spec s t); (reflexivity || lia).
Qed.

Lemma string_compare_eq a b : (String.compare a b = Eq) <-> a = b.
Proof.
  split; [apply String.compare_eq_iff | intros ->].
  pose proof (String.compare_antisym b b) as H.
  destruct (String.compare b b); (reflexivity || discriminate).
Qed.

Lemma value_eqb_str v s : value_eqb v (VStr s) = eq_str v s.
Proof.
  destruct v as [|b|z|x|s'|t]; try reflexivity.
  { unfold value_eqb. cbn. apply andb_false_r. }
  unfold value_eqb. cbn.
  destruct (String.eqb_spec s' s) as [->|Hne].
  - now rewrite (proj2 (string_compare_eq s s) eq_refl).
  - destruct (String.compare s' s) eqn:E; try reflexivity.
    now apply string_compare_eq in E.
Qed.

Lemma cond_eq_str s field :
  cond_holds (CEq (VStr s)) field = eq_str (default VNull field) s.
Proof. destruct field; [apply value_eqb_str | reflexivity]. Qed.

Lemma matches_scoped_filter f start sid d :
  matches (scoped_filter f start sid) d = in_scope f start sid d.
Proof.
  unfold scoped_filter, in_scope, of_tenant, in_window, matches, of_datetime.
  destruct (truthy sid) as [s|]; cbn [forallb app fst snd].
  - rewrite cond_gte_date, cond_eq_str, andb_true_r. reflexivity.
  - rewrite cond_gte_date, !andb_true_r. reflexivity.
Qed.

Lemma select_scoped st name f start sid :
  select st name (scoped_filter f start sid) = scoped st name f start sid.
Proof.
  unfold select, scoped. apply list_filter_iff. intros d.
  now rewrite matches_scoped_filter.
Qed.

Lemma cond_in_active field :
  cond_holds active_statuses field
  = (eq_str (default VNull field) "active"
     || eq_str (default VNull field) "past_due").
Proof.
  destruct field as [v|]; [|reflexivity].
  unfold active_statuses. cbn [cond_holds existsb default].
  now rewrite !value_eqb_str, orb_false_r.
Qed.

End Filters.

(** ** The aggregation pipeline *)

Section Pipeline.

Lemma group_doc_cnt (k : value) (n : Z) :
  matches [("cnt", CGt (VInt 1))] {[ "_id" := k; "cnt" := VInt n ]}
  = (1 <? n).
Proof.
  unfold matches. cbn [forallb fst snd].
  rewrite lookup_insert_ne by discriminate.
  rewrite lookup_singleton_eq, andb_true_r. cbn.
  destruct (Z.compare_spec n 1), (Z.ltb_spec 1 n); (reflexivity || lia).
Qed.

Lemma filter_group_docs (gs : list (value * Z)) :
  filter (fun d => matches [("cnt", CGt (VInt 1))] d = true)
    ((fun g : value * Z => {[ "_id" := fst g; "cnt" := VInt (snd g) ]}) <$> gs)
  = (fun g : value * Z => {[ "_id" := fst g; "cnt" := VInt (snd g) ]})
      <$> filter (fun g => 1 < snd g) gs.
Proof.
  induction gs as [|g gs IH]; [reflexivity|].
  rewrite fmap_cons, !filter_cons, IH, group_doc_cnt.
  destruct (Z.ltb_spec 1 (snd g)); repeat case_decide;
    (reflexivity || lia || congruence).
Qed.

Lemma run_pipeline_returning start sid (docs : list doc) :
  run_pipeline (pipeline start sid) docs
  = match returning_groups
            (filter (fun d => in_scope "start_time" start sid d = true) docs)
    with
    | [] => []
    | g :: gs => [ {[ "rc" := VInt (Z.of_nat (length (g :: gs))) ]} ]
    end.
Proof.
  unfold run_pipeline, pipeline, returning_groups.
  cbn [fold_left run_stage].
  rewrite filter_group_docs.
  rewrite (list_filter_iff (fun d => matches _ d = true)
             (fun d => in_scope "start_time" start sid d = true))
    by (intros d; now rewrite matches_scoped_filter).
  destruct (filter _ (group_count _ _)) as [|g gs]; [reflexivity|].
  rewrite fmap_cons. cbn [length]. now rewrite length_fmap.
Qed.

End Pipeline.

(** ** The summary over a reachable store *)

Section Summary.
Variable float_of_str : string -> result float.

Lemma py_float_number field d x :
  field_number field d = Some x ->
  py_float float_of_str (get_default d field (VInt 0)) = Ok x.
Proof.
  unfold field_number.
  destruct (get_default d field (VInt 0)); cbn; congruence.
Qed.

Lemma add_field_number field acc d :
  numeric field d ->
  add_field float_of_str field acc d = Ok (acc + number field d)%float.
Proof.
  intros [x Hx]. unfold add_field, number.
  now rewrite (py_float_number _ _ _ Hx), Hx.
Qed.

(** The revenue loop: the amounts of the succeeded transactions, added in
    the order of the scan. *)
Lemma revenue_fold txs : forall acc,
  Forall (numeric "amount") (filter (fun t => succeeded t = true) txs) ->
  for_each txs
    (fun revenue t =>
       if eq_str (get t "status") "succeeded"
       then add_field float_of_str "amount" revenue t
       else Ok revenue) acc
  = Ok (fold_left PrimFloat.add
          (number "amount" <$> filter (fun t => succeeded t = true) txs) acc).
Proof.
  induction txs as [|t txs IH]; intros acc H; [reflexivity|].
  rewrite filter_cons in H |- *. cbn [for_each].
  fold (succeeded t). destruct (decide (succeeded t = true)) as [E|E].
  - rewrite E. apply Forall_cons in H as [Ht H].
    rewrite add_field_number by exact Ht. now rewrite IH.
  - apply not_true_is_false in E. rewrite E. now rewrite IH.
Qed.

Lemma revenue_loop_numeric txs :
  Forall (numeric "amount") (filter (fun t => succeeded t = true) txs) ->
  revenue_loop float_of_str txs
  = Ok (fsum (number "amount" <$> filter (fun t => succeeded t = true) txs)).
Proof. apply revenue_fold. Qed.

(** The loops of [admin_metrics]: every document found is added. *)
Lemma sum_loop field docs : forall acc,
  Forall (numeric field) docs ->
  for_each docs (add_field float_of_str field) acc
  = Ok (fold_left PrimFloat.add (number field <$> docs) acc).
Proof.
  induction docs as [|d docs IH]; intros acc H; [reflexivity|].
  apply Forall_cons in H as [Hd H]. cbn [for_each].
  rewrite add_field_number by exact Hd. now rewrite IH.
Qed.

(** Over a reachable store the summary reads the documents in scope and
    nothing else. *)
Lemma analytics_summary_scoped st now sid p :
  analytics_summary float_of_str (connect st) now sid p
  = if negb (valid_period p) then Raise RequestValidationError
    else
      start ← window_start now p;
      revenue ← revenue_loop float_of_str
                  (scoped st "transaction" "timestamp" start sid);
      Ok (mk_summary p revenue
            (Z.of_nat (length (scoped st "booking" "created_at" start sid)))
            (Z.of_nat (length (scoped st "client" "created_at" start sid)))
            (Z.of_nat (length (returning_groups
                                 (scoped st "booking" "start_time" start sid))))).
Proof.
  unfold analytics_summary. destruct (negb (valid_period p)); [reflexivity|].
  destruct (window_start now p) as [start|e]; [|reflexivity].
  cbn [mbind result_bind connect find count_documents aggregate].
  rewrite !select_scoped.
  destruct (revenue_loop _ _) as [revenue|e]; [|reflexivity].
  cbn [mbind result_bind]. rewrite run_pipeline_returning.
  fold (scoped st "booking" "start_time" start sid).
  destruct (returning_groups _) as [|g gs]; cbn [try_except mbind result_bind].
  - reflexivity.
  - unfold get_default. rewrite lookup_singleton_eq. reflexivity.
Qed.

Lemma analytics_summary_connect st now sid p start :
  valid_period p = true ->
  window_start now p = Ok start ->
  Forall (numeric "amount")
    (filter (fun t => succeeded t = true)
       (scoped st "transaction" "timestamp" start sid)) ->
  analytics_summary float_of_str (connect st) now sid p
  = Ok (mk_summary p
          (fsum (number "amount"
                   <$> filter (fun t => succeeded t = true)
                         (scoped st "transaction" "timestamp" start sid)))
          (Z.of_nat (length (scoped st "booking" "created_at" start sid)))
          (Z.of_nat (length (scoped st "client" "created_at" start sid)))
          (Z.of_nat (length (returning_groups
                               (scoped st "booking" "start_time" start sid))))).
Proof.
  intros Hp Hstart Hnum. rewrite analytics_summary_scoped, Hp, Hstart.
  cbn [negb mbind result_bind]. now rewrite (revenue_loop_numeric _ Hnum).
Qed.

End Summary.

(** ** Grouping by client *)

Section Grouping.

Lemma value_eqb_key a b :
  value_eqb (key_of_ref a) (key_of_ref b) = bool_decide (a = b).
Proof.
  destruct a as [a|], b as [b|]; try reflexivity.
  cbn [key_of_ref]. rewrite value_eqb_str. cbn [eq_str].
  destruct (String.eqb_spec a b) as [->|Hne].
  - now rewrite bool_decide_eq_true_2.
  - rewrite bool_decide_eq_false_2; [reflexivity | congruence].
Qed.

Lemma bump_lift c gs : bump (key_of_ref c) (lift <$> gs) = lift <$> bump_ref c gs.
Proof.
  induction gs as [|[c' n] gs IH]; [reflexivity|].
  cbn [fmap list_fmap bump bump_ref lift fst snd] in *.
  rewrite value_eqb_key.
  destruct (decide (c = c')) as [E|E].
  - now rewrite bool_decide_eq_true_2.
  - rewrite bool_decide_eq_false_2 by exact E. cbn. now rewrite IH.
Qed.

Lemma group_key_typed b :
  client_typed b -> group_key "client_id" b = key_of_ref (client_ref b).
Proof.
  unfold client_typed, group_key, client_ref.
  destruct (b !! "client_id") as [[]|]; (reflexivity || contradiction).
Qed.

Lemma group_count_lift bookings :
  Forall client_typed bookings ->
  group_count "client_id" bookings
  = lift <$> count_refs (client_ref <$> bookings).
Proof.
  unfold group_count, count_refs.
  change (@nil (value * Z)) with (lift <$> []) at 1.
  generalize (@nil (option string * Z)) as gs.
  induction bookings as [|b bs IH]; intros gs H; [reflexivity|].
  apply Forall_cons in H as [Hb H]. cbn [fold_left fmap list_fmap].
  rewrite (group_key_typed _ Hb), bump_lift. now apply IH.
Qed.

Lemma assoc_bump c c' gs :
  assoc c' (bump_ref c gs)
  = assoc c' gs + (if decide (c' = c) then 1 else 0).
Proof.
  induction gs as [|[c0 n] gs IH]; cbn [bump_ref assoc].
  - repeat case_decide; (reflexivity || congruence).
  - destruct (decide (c = c0)) as [->|E]; cbn [assoc].
    + repeat case_decide; (lia || congruence).
    + rewrite IH. repeat case_decide; (lia || congruence).
Qed.

Lemma keys_bump c gs c' :
  c' ∈ (bump_ref c gs).*1 <-> c' = c \/ c' ∈ gs.*1.
Proof.
  induction gs as [|[c0 n] gs IH]; cbn [bump_ref].
  - cbn. rewrite list_elem_of_singleton, elem_of_nil. tauto.
  - destruct (decide (c = c0)) as [->|E]; cbn.
    + rewrite elem_of_cons. split; [auto | intros [->|?]; [now left | auto]].
    + rewrite !elem_of_cons, IH. tauto.
Qed.

Lemma NoDup_bump c gs : NoDup gs.*1 -> NoDup (bump_ref c gs).*1.
Proof.
  induction gs as [|[c0 n] gs IH]; cbn [bump_ref]; intros H.
  - cbn. apply NoDup_singleton.
  - cbn in H. apply NoDup_cons in H as [Hc0 H].
    destruct (decide (c = c0)) as [->|E]; cbn.
    + now apply NoDup_cons.
    + apply NoDup_cons. split; [|now apply IH].
      rewrite keys_bump. intros [?|?]; congruence.
Qed.

Lemma assoc_elem gs c n :
  NoDup gs.*1 -> (c, n) ∈ gs <-> c ∈ gs.*1 /\ assoc c gs = n.
Proof.
  induction gs as [|[c0 m] gs IH]; intros H.
  - cbn. rewrite !elem_of_nil. tauto.
  - cbn in H. apply NoDup_cons in H as [Hc0 H]. specialize (IH H).
    cbn [assoc]. rewrite fmap_cons, !elem_of_cons. cbn [fst].
    destruct (decide (c = c0)) as [->|E].
    + split.
      * intros [[= <-]|Hin]; [tauto|].
        exfalso. apply Hc0. apply list_elem_of_fmap. now exists (c0, n).
      * intros [_ <-]. now left.
    + rewrite IH. split.
      * intros [[= ? ?]|?]; [congruence | tauto].
      * intros [[?|?] ?]; [congruence | tauto].
Qed.

Lemma occurrences_snoc c l c' :
  occurrences c' (l ++ [c])
  = (occurrences c' l + (if decide (c' = c) then 1 else 0))%nat.
Proof.
  unfold occurrences. rewrite filter_app, length_app. f_equal.
  rewrite filter_cons, filter_nil.
  repeat case_decide; (reflexivity || congruence).
Qed.

Lemma counted_fold refs : forall gs seen,
  counted gs seen ->
  counted (fold_left (fun gs c => bump_ref c gs) refs gs) (seen ++ refs).
Proof.
  induction refs as [|c refs IH]; intros gs seen (Hnd & Hkeys & Hcnt).
  - rewrite app_nil_r. cbn. repeat split; auto; apply Hkeys.
  - cbn [fold_left].
    replace (seen ++ c :: refs) with ((seen ++ [c]) ++ refs)
      by now rewrite <- app_assoc.
    apply IH. split; [now apply NoDup_bump|]. split.
    + intros c'. rewrite keys_bump, elem_of_app, list_elem_of_singleton, Hkeys.
      tauto.
    + intros c'. rewrite assoc_bump, occurrences_snoc, Hcnt.
      case_decide; lia.
Qed.

Lemma count_refs_spec refs : counted (count_refs refs) refs.
Proof.
  apply (counted_fold refs [] []). repeat split.
  - apply NoDup_nil_2.
  - intros H. cbn in H. exact H.
  - intros H. cbn. exact H.
Qed.

Lemma occurrences_pos c refs : c ∈ refs <-> (0 < occurrences c refs)%nat.
Proof.
  unfold occurrences. induction refs as [|x refs IH].
  - cbn. rewrite elem_of_nil. split; [tauto | lia].
  - rewrite filter_cons, elem_of_cons, IH.
    case_decide; cbn [length]; [split; [lia | auto] | split].
    + intros [?|?]; [congruence | assumption].
    + auto.
Qed.

(** The groups with more than one booking are, without repetition, the
    references that occur more than once. *)
Lemma returning_refs refs :
  exists clients : list (option string),
    NoDup clients
    /\ (forall c, c ∈ clients <-> (1 < occurrences c refs)%nat)
    /\ length (filter (fun g : option string * Z => 1 < snd g) (count_refs refs))
       = length clients.
Proof.
  destruct (count_refs_spec refs) as (Hnd & Hkeys & Hcnt).
  set (gs := count_refs refs) in *.
  exists (filter (fun g : option string * Z => 1 < snd g) gs).*1.
  split; [|split].
  - eapply sublist_NoDup; [exact Hnd|].
    apply fmap_sublist, sublist_filter.
  - intros c. rewrite list_elem_of_fmap. split.
    + intros ([c' n] & -> & Hin). apply list_elem_of_filter in Hin as [Hn Hin].
      apply (assoc_elem _ _ _ Hnd) in Hin as [_ Ha].
      cbn [fst snd] in *. rewrite Hcnt in Ha. lia.
    + intros Hc. exists (c, assoc c gs). split; [reflexivity|].
      apply list_elem_of_filter. split.
      * cbn. rewrite Hcnt. lia.
      * apply assoc_elem; [exact Hnd|]. split; [|reflexivity].
        apply Hkeys, occurrences_pos. lia.
  - now rewrite length_fmap.
Qed.

Lemma all_references (keys : list (option string)) :
  None ∉ keys -> keys = Some <$> omap id keys.
Proof.
  induction keys as [|[c|] keys IH]; intros H; [reflexivity| |].
  - cbn. f_equal. apply IH. intros Hin. apply H. now right.
  - exfalso. apply H. now left.
Qed.

(** When at most one booking has no client reference, the groups with more
    than one booking are the client references that occur more than
    once. *)
Lemma returning_client_refs refs :
  (occurrences None refs <= 1)%nat ->
  exists clients : list string,
    NoDup clients
    /\ (forall c, c ∈ clients <-> (1 < occurrences (Some c) refs)%nat)
    /\ length (filter (fun g : option string * Z => 1 < snd g) (count_refs refs))
       = length clients.
Proof.
  intros Hnone.
  destruct (returning_refs refs) as (keys & Hnd & Hkeys & Hlen).
  assert (None ∉ keys) as Hsome by (rewrite Hkeys; lia).
  apply all_references in Hsome.
  exists (omap id keys). rewrite Hsome in Hnd, Hkeys, Hlen.
  split; [now apply NoDup_fmap_1 in Hnd|]. split.
  - intros c. rewrite <- Hkeys. symmetry. apply list_elem_of_fmap_inj.
    intros x y. congruence.
  - now rewrite Hlen, length_fmap.
Qed.

Lemma occurrences_all c refs :
  (forall x, x ∈ refs -> x = c) -> occurrences c refs = length refs.
Proof.
  unfold occurrences. induction refs as [|x refs IH]; intros H; [reflexivity|].
  rewrite filter_cons, decide_True by (apply H; now left).
  cbn [length]. f_equal. apply IH. intros y Hy. apply H. now right.
Qed.

(** Two or more bookings, none with a client reference, form exactly one
    group with more than one booking. *)
Lemma returning_only_clientless refs :
  (forall x, x ∈ refs -> x = None) ->
  (2 <= length refs)%nat ->
  length (filter (fun g : option string * Z => 1 < snd g) (count_refs refs))
  = 1%nat.
Proof.
  intros Hall Hlen.
  destruct (returning_refs refs) as (keys & Hnd & Hkeys & ->).
  assert (None ∈ keys) as Hin
    by (rewrite Hkeys, (occurrences_all None refs Hall); lia).
  assert (forall c, c ∈ keys -> c = None) as Honly.
  { intros c Hc. apply Hall, occurrences_pos.
    apply Hkeys in Hc. lia. }
  destruct keys as [|k [|k' keys]].
  - now apply elem_of_nil in Hin.
  - reflexivity.
  - exfalso. apply NoDup_cons in Hnd as [Hk _]. apply Hk.
    rewrite (Honly k) by now left.
    rewrite (Honly k') by (right; now left). now left.
Qed.

Lemma client_ref_clientless b : clientless b -> client_typed b /\ client_ref b = None.
Proof.
  unfold clientless, client_typed, client_ref.
  destruct (b !! "client_id") as [[]|]; tauto.
Qed.

Lemma returning_groups_lift bookings :
  Forall client_typed bookings ->
  length (returning_groups bookings)
  = length (filter (fun g : option string * Z => 1 < snd g)
              (count_refs (client_ref <$> bookings))).
Proof.
  intros H. unfold returning_groups. rewrite (group_count_lift _ H).
  generalize (count_refs (client_ref <$> bookings)) as gs.
  induction gs as [|g gs IH]; [reflexivity|].
  rewrite fmap_cons, !filter_cons. cbn [lift snd].
  case_decide; cbn [length]; now rewrite IH.
Qed.

End Grouping.

(** ** Sums of binary64 numbers *)

Module FloatFacts.

Lemma nonneg_spec x :
  nonneg x <->
  match Prim2SF x with
  | S754_zero _ => True
  | S754_infinity s | S754_finite s _ _ => s = false
  | S754_nan => False
  end.
Proof.
  unfold nonneg. rewrite leb_spec.
  change (Prim2SF 0) with (S754_zero false).
  destruct (Prim2SF x) as [s|s| |s m e]; cbn; try destruct s; cbn;
    intuition congruence.
Qed.

Lemma positive_sign_nonneg x : positive_sign (Prim2SF x) -> nonneg x.
Proof.
  rewrite nonneg_spec. destruct (Prim2SF x); cbn; auto.
Qed.

Lemma shr_1_nonneg mrs : 0 <= shr_m mrs -> 0 <= shr_m (shr_1 mrs).
Proof.
  destruct mrs as [m r s]. cbn [shr_m]. intros H.
  destruct m as [|[p|p|]|p]; cbn; lia.
Qed.

Lemma iter_shr_1_nonneg p : forall mrs,
  0 <= shr_m mrs -> 0 <= shr_m (SpecFloat.iter_pos shr_1 p mrs).
Proof.
  induction p as [p IH|p IH|]; intros mrs H; cbn [SpecFloat.iter_pos].
  - apply IH, IH, shr_1_nonneg, H.
  - apply IH, IH, H.
  - apply shr_1_nonneg, H.
Qed.

Lemma shr_fexp_nonneg m e l :
  0 <= m -> 0 <= shr_m (fst (shr_fexp prec emax m e l)).
Proof.
  intros H. unfold shr_fexp, shr.
  assert (0 <= shr_m (shr_record_of_loc m l)) as H0
    by (destruct l as [|[]]; exact H).
  destruct (_ - e) as [|p|p]; cbn [fst]; auto.
  now apply iter_shr_1_nonneg.
Qed.

Lemma round_nearest_even_nonneg m l : 0 <= m -> 0 <= round_nearest_even m l.
Proof.
  intros H. unfold round_nearest_even.
  destruct l as [|[]]; try destruct (Z.even m); lia.
Qed.

(** Rounding a non-negative mantissa with sign [s] gives a zero, a number
    or an infinity of sign [s]. *)
Lemma binary_round_aux_sign s m e l :
  0 <= m ->
  match binary_round_aux prec emax s m e l with
  | S754_zero s' | S754_infinity s' | S754_finite s' _ _ => s' = s
  | S754_nan => False
  end.
Proof.
  intros H. unfold binary_round_aux.
  pose proof (shr_fexp_nonneg m e l H) as H1.
  destruct (shr_fexp prec emax m e l) as [mrs' e']. cbn [fst] in H1.
  pose proof (shr_fexp_nonneg
                (round_nearest_even (shr_m mrs') (loc_of_shr_record mrs'))
                e' loc_Exact (round_nearest_even_nonneg _ _ H1)) as H2.
  destruct (shr_fexp prec emax _ e' loc_Exact) as [mrs'' e''].
  cbn [fst] in H2.
  destruct (shr_m mrs'') as [|p|p]; [reflexivity| |lia].
  destruct (e'' <=? emax - prec); reflexivity.
Qed.

Lemma binary_round_sign s m e :
  match binary_round prec emax s m e with
  | S754_zero s' | S754_infinity s' | S754_finite s' _ _ => s' = s
  | S754_nan => False
  end.
Proof.
  unfold binary_round. destruct (shl_align _ _ _) as [mz ez].
  apply binary_round_aux_sign. lia.
Qed.

(** Adding a non-negative number to one whose sign bit is clear leaves
    the sign bit clear. *)
Lemma add_positive_sign x y :
  positive_sign (Prim2SF x) -> nonneg y -> positive_sign (Prim2SF (x + y)).
Proof.
  rewrite nonneg_spec, add_spec. unfold SF64add, SFadd.
  destruct (Prim2SF x) as [sx|sx| |sx mx ex],
           (Prim2SF y) as [sy|sy| |sy my ey];
    cbn [positive_sign]; intros Hx Hy; subst; try tauto;
    try destruct sy; try reflexivity.
  cbn [cond_Zopp]. rewrite <- Pos2Z.inj_add. cbn [binary_normalize].
  pose proof (binary_round_sign false
    (fst (shl_align mx ex (Z.min ex ey)) + fst (shl_align my ey (Z.min ex ey)))
    (Z.min ex ey)) as H.
  destruct (binary_round _ _ _ _ _); cbn; auto.
Qed.

(** Adding 0.0 changes nothing, except that it turns -0.0 into 0.0. *)
Lemma add_zero x : Prim2SF x <> S754_zero true -> (x + 0)%float = x.
Proof.
  intros H. apply Prim2SF_inj. rewrite add_spec.
  change (Prim2SF 0) with (S754_zero false).
  destruct (Prim2SF x) as [[]|[]| |s m e]; (reflexivity || congruence).
Qed.

Lemma fold_add_positive_sign xs : forall acc,
  positive_sign (Prim2SF acc) -> Forall nonneg xs ->
  positive_sign (Prim2SF (fold_left PrimFloat.add xs acc)).
Proof.
  induction xs as [|x xs IH]; intros acc Hacc H; [exact Hacc|].
  apply Forall_cons in H as [Hx H]. cbn [fold_left].
  apply IH; [|exact H]. now apply add_positive_sign.
Qed.

Lemma fsum_positive_sign xs :
  Forall nonneg xs -> positive_sign (Prim2SF (fsum xs)).
Proof. apply fold_add_positive_sign. reflexivity. Qed.

(** A sum of non-negative numbers is non-negative. *)
Lemma fsum_nonneg xs : Forall nonneg xs -> nonneg (fsum xs).
Proof. intros H. now apply positive_sign_nonneg, fsum_positive_sign. Qed.

(** Rounding never turns a non-zero mantissa into a zero, so a sum is
    -0.0 only when both terms are. *)

Lemma shr_1_lower k mrs :
  0 <= k -> 2 ^ (k + 1) <= shr_m mrs -> 2 ^ k <= shr_m (shr_1 mrs).
Proof.
  intros Hk. rewrite Z.pow_add_r, Z.pow_1_r by lia.
  pose proof (Z.pow_pos_nonneg 2 k ltac:(lia) Hk) as Hpos.
  destruct mrs as [m r s]. cbn [shr_m].
  destruct m as [|[p|p|]|p]; cbn; lia.
Qed.

Lemma iter_shr_1_lower p : forall k mrs,
  0 <= k -> 2 ^ (k + Z.pos p) <= shr_m mrs ->
  2 ^ k <= shr_m (SpecFloat.iter_pos shr_1 p mrs).
Proof.
  induction p as [p IH|p IH|]; intros k mrs Hk H; cbn [SpecFloat.iter_pos].
  - apply IH; [exact Hk|]. apply IH; [lia|]. apply shr_1_lower; [lia|].
    replace (k + Z.pos p + Z.pos p + 1) with (k + Z.pos p~1) by lia.
    exact H.
  - apply IH; [exact Hk|]. apply IH; [lia|].
    replace (k + Z.pos p + Z.pos p) with (k + Z.pos p~0) by lia.
    exact H.
  - now apply shr_1_lower.
Qed.

Lemma digits2_pos_lower p : 2 ^ (Z.pos (digits2_pos p) - 1) <= Z.pos p.
Proof.
  induction p as [p IH|p IH|]; cbn [digits2_pos]; [| |reflexivity];
    rewrite Pos2Z.inj_succ;
    replace (Z.succ (Z.pos (digits2_pos p)) - 1)
      with (Z.pos (digits2_pos p) - 1 + 1) by lia;
    rewrite Z.pow_add_r, Z.pow_1_r by lia; lia.
Qed.

Lemma shr_fexp_pos m e l :
  0 < m -> emin <= e ->
  0 < shr_m (fst (shr_fexp prec emax m e l))
  /\ emin <= snd (shr_fexp prec emax m e l).
Proof.
  intros Hm He. unfold shr_fexp, shr.
  assert (shr_m (shr_record_of_loc m l) = m) as H0
    by (destruct l as [|[]]; reflexivity).
  destruct m as [|p|p]; try lia. cbn [Zdigits2].
  destruct (fexp prec emax (Z.pos (digits2_pos p) + e) - e) as [|q|q] eqn:E;
    cbn [fst snd]; rewrite ?H0; try (split; lia).
  unfold fexp in E. split; [|lia].
  assert (Z.pos (digits2_pos p) - 1 = prec - 1 + Z.pos q) as Hd by lia.
  pose proof (digits2_pos_lower p) as Hlow. rewrite Hd in Hlow.
  pose proof (iter_shr_1_lower q (prec - 1) (shr_record_of_loc (Z.pos p) l)
                ltac:(unfold prec; lia)) as Hit.
  rewrite H0 in Hit. specialize (Hit Hlow).
  pose proof (Z.pow_pos_nonneg 2 (prec - 1) ltac:(lia)
                ltac:(unfold prec; lia)).
  lia.
Qed.

Lemma round_nearest_even_pos m l : 0 < m -> 0 < round_nearest_even m l.
Proof.
  intros H. unfold round_nearest_even.
  destruct l as [|[]]; try destruct (Z.even m); lia.
Qed.

Lemma binary_round_aux_not_zero s m e l s' :
  0 < m -> emin <= e ->
  binary_round_aux prec emax s m e l <> S754_zero s'.
Proof.
  intros Hm He. unfold binary_round_aux.
  destruct (shr_fexp_pos m e l Hm He) as [H1 He1].
  destruct (shr_fexp prec emax m e l) as [mrs' e']. cbn [fst snd] in H1, He1.
  destruct (shr_fexp_pos
              (round_nearest_even (shr_m mrs') (loc_of_shr_record mrs'))
              e' loc_Exact (round_nearest_even_pos _ _ H1) He1) as [H2 _].
  destruct (shr_fexp prec emax _ e' loc_Exact) as [mrs'' e''].
  cbn [fst] in H2.
  destruct (shr_m mrs'') as [|p|p]; try lia.
  destruct (e'' <=? emax - prec); discriminate.
Qed.

Lemma binary_round_not_zero s m e s' :
  emin <= e -> binary_round prec emax s m e <> S754_zero s'.
Proof.
  intros He. unfold binary_round, shl_align.
  destruct (fexp prec emax (Z.pos (digits2_pos m) + e) - e) eqn:E;
    apply binary_round_aux_not_zero; try lia.
  unfold fexp. lia.
Qed.

Lemma valid_exponent s m e :
  valid_binary (S754_finite s m e) = true -> emin <= e.
Proof.
  cbn [valid_binary]. unfold bounded, canonical_mantissa, fexp.
  intros H. apply andb_true_iff in H as [H _]. apply Z.eqb_eq in H. lia.
Qed.

(** A sum is -0.0 only when its first term is. *)
Lemma add_not_negative_zero x y :
  Prim2SF x <> S754_zero true -> Prim2SF (x + y) <> S754_zero true.
Proof.
  rewrite add_spec. unfold SF64add, SFadd.
  pose proof (Prim2SF_valid x) as Vx. pose proof (Prim2SF_valid y) as Vy.
  destruct (Prim2SF x) as [sx|sx| |sx mx ex],
           (Prim2SF y) as [sy|sy| |sy my ey];
    intros Hx; try discriminate;
    try (destruct sx, sy; cbn; congruence).
  apply valid_exponent in Vx, Vy.
  unfold binary_normalize.
  destruct (_ + _)%Z; [discriminate| |];
    apply binary_round_not_zero; lia.
Qed.

Lemma fold_add_not_negative_zero xs : forall acc,
  Prim2SF acc <> S754_zero true ->
  Prim2SF (fold_left PrimFloat.add xs acc) <> S754_zero true.
Proof.
  induction xs as [|x xs IH]; intros acc Hacc; [exact Hacc|].
  cbn [fold_left]. now apply IH, add_not_negative_zero.
Qed.

(** A sum accumulated from 0.0 is never -0.0. *)
Lemma fsum_not_negative_zero xs : Prim2SF (fsum xs) <> S754_zero true.
Proof. apply fold_add_not_negative_zero. discriminate. Qed.

(** A term 0.0 can be left out of any sum. *)
Lemma fsum_drop_zero xs ys :
  fsum (xs ++ 0%float :: ys) = fsum (xs ++ ys).
Proof.
  unfold fsum. rewrite !fold_left_app. cbn [fold_left].
  rewrite add_zero; [reflexivity|]. apply fsum_not_negative_zero.
Qed.

End FloatFacts.

(** ** The fleet metrics over a reachable store *)

Section Fleet.
Variable float_of_str : string -> result float.

Lemma matches_active d :
  matches [("status", active_statuses)] d = active_or_past_due d.
Proof.
  unfold matches. cbn [forallb fst snd].
  now rewrite cond_in_active, andb_true_r.
Qed.

Lemma matches_recent start d :
  matches [("timestamp", CGte (of_datetime start));
           ("status", CEq (VStr "succeeded"))] d
  = in_window "timestamp" start d && succeeded d.
Proof.
  unfold matches, of_datetime. cbn [forallb fst snd].
  now rewrite cond_gte_date, cond_eq_str, andb_true_r.
Qed.

Lemma select_active st name :
  select st name [("status", active_statuses)]
  = filter (fun s => active_or_past_due s = true) (collection st name).
Proof.
  unfold select. apply list_filter_iff. intros d. now rewrite matches_active.
Qed.

Lemma select_recent st name start :
  select st name [("timestamp", CGte (of_datetime start));
                  ("status", CEq (VStr "succeeded"))]
  = filter (fun t => in_window "timestamp" start t && succeeded t = true)
      (collection st name).
Proof.
  unfold select. apply list_filter_iff. intros d. now rewrite matches_recent.
Qed.

Lemma admin_metrics_connect st now1 now2 last30 last1d :
  Datetime.sub now1 (mk_timedelta 30 0 0) = Ok last30 ->
  Datetime.sub now2 (mk_timedelta 1 0 0) = Ok last1d ->
  Forall (numeric "mrr")
    (filter (fun s => active_or_past_due s = true)
       (collection st "subscription")) ->
  Forall (numeric "amount")
    (filter (fun t => in_window "timestamp" last30 t && succeeded t = true)
       (collection st "transaction")) ->
  exists r,
    admin_metrics float_of_str (connect st) now1 now2 = Ok r
    /\ mrr r = fsum (number "mrr"
                       <$> filter (fun s => active_or_past_due s = true)
                             (collection st "subscription"))
    /\ arr r = (mrr r * 12)%float
    /\ revenue_30d r
       = fsum (number "amount"
                 <$> filter (fun t => in_window "timestamp" last30 t
                                      && succeeded t = true)
                       (collection st "transaction")).
Proof.
  intros H30 H1 Hmrr Hamount. unfold admin_metrics.
  cbn [mbind result_bind connect find count_documents distinct].
  rewrite !select_active, (sum_loop _ _ _ _ Hmrr). cbn [mbind result_bind].
  change (timedelta_new 30 0 0 0 0) with (Ok (mk_timedelta 30 0 0)).
  cbn [mbind result_bind]. rewrite H30. cbn [mbind result_bind].
  rewrite select_recent, (sum_loop _ _ _ _ Hamount). cbn [mbind result_bind].
  change (timedelta_new 1 0 0 0 0) with (Ok (mk_timedelta 1 0 0)).
  cbn [mbind result_bind]. rewrite H1. cbn [mbind result_bind].
  eexists. split; [reflexivity|]. cbn. auto.
Qed.

End Fleet.

(** ** Tenants *)

Section Tenants.

Lemma truthy_nonempty s : s <> "" -> truthy (Some s) = Some s.
Proof. destruct s; [congruence | reflexivity]. Qed.

Lemma scoped_tenant st name f start s :
  s <> "" ->
  scoped st name f start (Some s)
  = filter (fun d => in_window f start d = true)
      (tenant_docs s (collection st name)).
Proof.
  intros Hs. unfold scoped, tenant_docs. rewrite list_filter_filter.
  apply list_filter_iff. intros d. unfold in_scope, of_tenant.
  rewrite (truthy_nonempty _ Hs), andb_true_iff. tauto.
Qed.

Lemma scoped_same st1 st2 name f start s :
  s <> "" -> same_for_tenant s st1 st2 ->
  name ∈ ["transaction"; "booking"; "client"] ->
  scoped st1 name f start (Some s) = scoped st2 name f start (Some s).
Proof.
  intros Hs Hsame Hname. rewrite !scoped_tenant by exact Hs.
  now rewrite (Hsame name Hname).
Qed.

(** Without a tenant, every document in the window is in scope. *)
Lemma scoped_all st name f start (sid : option string) :
  truthy sid = None ->
  scoped st name f start sid
  = filter (fun d => in_window f start d = true) (collection st name).
Proof.
  intros Hs. unfold scoped. apply list_filter_iff. intros d.
  unfold in_scope, of_tenant. now rewrite Hs, andb_true_r.
Qed.

End Tenants.

(** * Properties of the endpoints *)

Import Calendar CalendarFacts DatetimeFacts FloatFacts.

(** ** The window resolver *)

Lemma window_start_days now n tok :
  (tok, n) ∈ [("7d", 7); ("30d", 30); ("90d", 90)] ->
  window_start now tok = Datetime.sub now (mk_timedelta n 0 0).
Proof.
  rewrite !elem_of_cons, elem_of_nil.
  intros [[= -> ->]|[[= -> ->]|[[= -> ->]|[]]]]; reflexivity.
Qed.

(** C4: for a valid current time [now], the tokens "7d", "30d" and "90d"
    resolve to the instant exactly 7, 30 and 90 days before [now] (provided
    [now] lies more than that many days after 0001-01-01, the first day
    that a datetime can denote), and "mtd" resolves to the first day of
    the year and month of [now] at 00:00:00.000000 UTC. *)
Theorem window_start_resolves now :
  check_fields now = true ->
  (forall tok n,
     (tok, n) ∈ [("7d", 7); ("30d", 30); ("90d", 90)] ->
     n < toordinal now ->
     exists start,
       window_start now tok = Ok start
       /\ check_fields start = true
       /\ to_micros start = to_micros now - n * 86400000000)
  /\ (exists start,
        window_start now "mtd" = Ok start
        /\ year start = year now /\ month start = month now
        /\ day start = 1
        /\ hour start = 0 /\ minute start = 0 /\ second start = 0
        /\ microsecond start = 0).
Proof.
  intros Hnow. split.
  - intros tok n Htok Hn. rewrite (window_start_days now n tok Htok).
    assert (1 <= n <= 999999999) as Hr.
    { rewrite !elem_of_cons, elem_of_nil in Htok.
      destruct Htok as [[= _ ->]|[[= _ ->]|[[= _ ->]|[]]]]; lia. }
    destruct (sub_days now n Hnow Hr Hn)
      as (start & Hs & Hc & Ho & Hh & Hmi & Hsec & Hus).
    exists start. repeat split; try assumption.
    now apply to_micros_days.
  - exists (mk_datetime (year now) (month now) 1 0 0 0 0).
    repeat split. unfold window_start. cbn [String.eqb Ascii.eqb Bool.eqb].
    unfold Datetime.new.
    assert (check_fields (mk_datetime (year now) (month now) 1 0 0 0 0) = true)
      as ->; [|reflexivity].
    apply check_fields_iff in Hnow.
    destruct Hnow as (Hy & Hm & Hd & _).
    apply check_fields_iff. unfold in_range. cbn. repeat split; lia.
Qed.

Lemma window_start_resolves_witness :
  (exists start,
     window_start now0 "30d" = Ok start
     /\ check_fields start = true
     /\ to_micros start = to_micros now0 - 30 * 86400000000)
  /\ (exists start,
        window_start now0 "mtd" = Ok start
        /\ year start = year now0 /\ month start = month now0
        /\ day start = 1
        /\ hour start = 0 /\ minute start = 0 /\ second start = 0
        /\ microsecond start = 0).
Proof.
  destruct (window_start_resolves now0 eq_refl) as [Hdays Hmtd].
  split; [|exact Hmtd].
  apply (Hdays "30d" 30).
  - apply list_elem_of_In. simpl. tauto.
  - vm_compute. reflexivity.
Defined.

Section Claims.
Variable float_of_str : string -> result float.

(** ** Revenue *)

Lemma filter_drop {A} (P : A -> Prop) `{forall x, Decision (P x)}
    (before after : list A) (x : A) :
  ~ P x -> filter P (before ++ x :: after) = filter P (before ++ after).
Proof.
  intros Hx. rewrite !filter_app, filter_cons.
  now rewrite decide_False by exact Hx.
Qed.

(** C1: over a reachable store whose in-scope succeeded transactions hold
    numeric amounts, the summary is returned and its [total_revenue] is the
    sum of the amounts of exactly the transactions that match the
    time and tenant filter and whose status is "succeeded"; a transaction
    with any other status can be taken out of the collection without
    changing it; a succeeded 100 and a failed 50 in the window give 100. *)
Theorem total_revenue_sums_succeeded st now sid p start :
  valid_period p = true ->
  window_start now p = Ok start ->
  Forall (numeric "amount")
    (filter (fun t => succeeded t = true)
       (scoped st "transaction" "timestamp" start sid)) ->
  (exists r,
     analytics_summary float_of_str (connect st) now sid p = Ok r
     /\ total_revenue r
        = fsum (number "amount"
                  <$> filter (fun t => succeeded t = true)
                        (scoped st "transaction" "timestamp" start sid))
     /\ forall before t after,
          collection st "transaction" = before ++ t :: after ->
          succeeded t = false ->
          total_revenue r
          = fsum (number "amount"
                    <$> filter (fun t => succeeded t = true)
                          (filter (fun t => in_scope "timestamp" start sid t = true)
                             (before ++ after))))
  /\ total_revenue
       <$> analytics_summary float_of_str (connect revenue_store) now0 None "7d"
     = Ok 100%float.
Proof.
  intros Hp Hstart Hnum. split; [|vm_compute; reflexivity].
  eexists. split; [apply (analytics_summary_connect _ _ _ _ _ _ Hp Hstart Hnum)|].
  cbn [total_revenue]. split; [reflexivity|].
  intros before t after Hcoll Ht. unfold scoped. rewrite Hcoll.
  rewrite !list_filter_filter.
  rewrite (filter_drop _ before after t); [reflexivity|].
  intros [Hs _]. congruence.
Qed.

(** ** The degraded mode of the returning-clients count *)

(** C2: when the transaction scan, the revenue loop and the two counts
    succeed, a failing aggregation is not propagated: the summary is
    returned with [returning_clients = 0], and its other fields are those
    of every summary that the same database returns without the failure. *)
Theorem aggregation_failure_degrades db e now sid p start txs revenue
    bookings clients :
  valid_period p = true ->
  window_start now p = Ok start ->
  find db "transaction" (scoped_filter "timestamp" start sid) = Ok txs ->
  revenue_loop float_of_str txs = Ok revenue ->
  count_documents db "booking" (scoped_filter "created_at" start sid)
  = Ok bookings ->
  count_documents db "client" (scoped_filter "created_at" start sid)
  = Ok clients ->
  analytics_summary float_of_str (failing_aggregate db e) now sid p
  = Ok (mk_summary p revenue bookings clients 0)
  /\ forall r,
       analytics_summary float_of_str db now sid p = Ok r ->
       period r = p /\ total_revenue r = revenue
       /\ total_bookings r = bookings /\ new_clients r = clients.
Proof.
  intros Hp Hstart Htxs Hrev Hb Hc. unfold analytics_summary.
  rewrite Hp, Hstart. cbn [negb mbind result_bind failing_aggregate find
    count_documents aggregate].
  rewrite Htxs. cbn [mbind result_bind]. rewrite Hrev. cbn [mbind result_bind].
  rewrite Hb. cbn [mbind result_bind]. rewrite Hc. cbn [mbind result_bind].
  split; [reflexivity|].
  intros r.
  destruct (try_except _ _) as [v|e']; cbn [mbind result_bind]; [|discriminate].
  destruct (py_int v) as [n|e']; cbn [mbind result_bind]; [|discriminate].
  intros [= <-]. cbn. auto.
Qed.

End Claims.

Lemma total_revenue_sums_succeeded_witness :
  (exists r,
     analytics_summary no_str (connect revenue_store) now0 (Some "s1") "7d"
     = Ok r
     /\ total_revenue r = 100%float)
  /\ total_revenue
       <$> analytics_summary no_str (connect revenue_store) now0 None "7d"
     = Ok 100%float.
Proof.
  destruct (total_revenue_sums_succeeded no_str revenue_store now0
              (Some "s1") "7d" (mk_datetime 2024 3 8 10 30 0 123456))
    as [(r & Hr & Hsum & _) Hex].
  - reflexivity.
  - vm_compute. reflexivity.
  - repeat first
      [ apply Forall_nil_2
      | apply Forall_cons; split; [eexists; vm_compute; exact eq_refl|] ].
  - split; [|exact Hex]. exists r. split; [exact Hr|].
    rewrite Hsum. vm_compute. exact eq_refl.
Defined.

Lemma aggregation_failure_degrades_witness :
  analytics_summary no_str
    (failing_aggregate (connect revenue_store) PyMongoError) now0 None "7d"
  = Ok (mk_summary "7d" 100 0 0 0).
Proof.
  refine (proj1 (aggregation_failure_degrades no_str (connect revenue_store)
                   PyMongoError now0 None "7d"
                   (mk_datetime 2024 3 8 10 30 0 123456)
                   [ transaction_doc "s1" 100 "succeeded" yesterday_ms;
                     transaction_doc "s1" 50 "failed" yesterday_ms ]
                   100%float 0 0 _ _ _ _ _ _));
    vm_compute; exact eq_refl.
Defined.

(** ** Returning clients *)

Section Status.

Lemma in_scope_same_but_status f start sid b b' :
  f <> "status" -> same_but_status b b' ->
  in_scope f start sid b = in_scope f start sid b'.
Proof.
  intros Hf H. unfold in_scope, in_window, of_tenant, get.
  rewrite (H f Hf), (H "salon_id") by discriminate. reflexivity.
Qed.

Lemma scoped_same_but_status f start sid (bs bs' : list doc) :
  f <> "status" -> Forall2 same_but_status bs bs' ->
  Forall2 same_but_status
    (filter (fun d => in_scope f start sid d = true) bs)
    (filter (fun d => in_scope f start sid d = true) bs').
Proof.
  intros Hf H. apply Forall2_filter; [|exact H].
  intros b b' Hb. now rewrite (in_scope_same_but_status f start sid b b' Hf Hb).
Qed.

Lemma group_count_same_but_status (bs bs' : list doc) :
  Forall2 same_but_status bs bs' ->
  group_count "client_id" bs = group_count "client_id" bs'.
Proof.
  unfold group_count. generalize (@nil (value * Z)) as gs.
  intros gs H. revert gs.
  induction H as [|b b' bs bs' Hb H IH]; intros gs; [reflexivity|].
  cbn [fold_left].
  assert (group_key "client_id" b = group_key "client_id" b') as ->
    by (unfold group_key; now rewrite (Hb "client_id") by discriminate).
  apply IH.
Qed.

Lemma booking_doc_same_but_status sid c s s' t u :
  same_but_status (booking_doc sid c s t u) (booking_doc sid c s' t u).
Proof.
  intros k Hk. unfold booking_doc. rewrite !lookup_insert.
  repeat case_decide; (reflexivity || congruence).
Qed.

End Status.

Section ReturningClaims.
Variable float_of_str : string -> result float.

(** C3 (amended): over a reachable store whose bookings in scope hold a
    string, null or no [client_id], at most one of them being without a
    client reference, [returning_clients] is the number of distinct client
    references with strictly more than one booking whose [start_time] is at
    or after the window start (there is no upper bound), under the tenant
    scope.  Client A with two bookings in the last 7 days and nothing else
    gives 1; with one such booking and one a year before, 0. *)
Theorem returning_clients_counts_clients st now sid p start :
  valid_period p = true ->
  window_start now p = Ok start ->
  Forall (numeric "amount")
    (filter (fun t => succeeded t = true)
       (scoped st "transaction" "timestamp" start sid)) ->
  Forall client_typed (scoped st "booking" "start_time" start sid) ->
  (occurrences None
     (client_ref <$> scoped st "booking" "start_time" start sid) <= 1)%nat ->
  (exists r clients,
     analytics_summary float_of_str (connect st) now sid p = Ok r
     /\ NoDup clients
     /\ (forall c : string,
           c ∈ clients <->
           (1 < occurrences (Some c)
                  (client_ref <$> scoped st "booking" "start_time" start sid))%nat)
     /\ returning_clients r = Z.of_nat (length clients))
  /\ returning_clients
       <$> analytics_summary float_of_str (connect returning_store) now0
             (Some "s1") "7d"
     = Ok 1
  /\ returning_clients
       <$> analytics_summary float_of_str (connect single_store) now0
             (Some "s1") "7d"
     = Ok 0.
Proof.
  intros Hp Hstart Hnum Htyped Hnone.
  split; [|split; vm_compute; exact eq_refl].
  destruct (returning_client_refs _ Hnone) as (clients & Hnd & Hin & Hlen).
  eexists. exists clients.
  split; [apply (analytics_summary_connect _ _ _ _ _ _ Hp Hstart Hnum)|].
  cbn [returning_clients]. repeat split; try assumption; try apply Hin.
  now rewrite (returning_groups_lift _ Htyped), Hlen.
Qed.

(** C9: bookings without a client reference ([client_id] null or missing)
    are grouped under one null key: whenever the bookings in scope are two
    or more and all without a client, [returning_clients] is 1.  Such a
    store exists: two bookings in the window, one with a null [client_id]
    and one without the field, and no other booking. *)
Theorem clientless_bookings_share_a_group :
  (forall st now sid p start,
     valid_period p = true ->
     window_start now p = Ok start ->
     Forall (numeric "amount")
       (filter (fun t => succeeded t = true)
          (scoped st "transaction" "timestamp" start sid)) ->
     Forall clientless (scoped st "booking" "start_time" start sid) ->
     (2 <= length (scoped st "booking" "start_time" start sid))%nat ->
     exists r,
       analytics_summary float_of_str (connect st) now sid p = Ok r
       /\ returning_clients r = 1)
  /\ exists st : store,
       (2 <= length (collection st "booking"))%nat
       /\ Forall (fun b => clientless b
                           /\ in_half_open_window "start_time"
                                (mk_datetime 2024 3 8 10 30 0 123456) now0 b
                              = true)
            (collection st "booking")
       /\ window_start now0 "7d" = Ok (mk_datetime 2024 3 8 10 30 0 123456)
       /\ returning_clients
            <$> analytics_summary float_of_str (connect st) now0 None "7d"
          = Ok 1.
Proof.
  split.
  - intros st now sid p start Hp Hstart Hnum Hnone Hlen.
    eexists.
    split; [apply (analytics_summary_connect _ _ _ _ _ _ Hp Hstart Hnum)|].
    cbn [returning_clients].
    rewrite returning_groups_lift.
    + rewrite returning_only_clientless; [reflexivity| |now rewrite length_fmap].
      intros x Hx. apply list_elem_of_fmap in Hx as (b & -> & Hb).
      rewrite Forall_forall in Hnone.
      now apply client_ref_clientless, Hnone.
    + apply (Forall_impl _ _ _ Hnone). intros b Hb.
      now apply client_ref_clientless.
  - exists clientless_store. split; [vm_compute; lia|].
    split; [|split; vm_compute; exact eq_refl].
    repeat first
      [ apply Forall_nil_2
      | apply Forall_cons; split;
        [split; [vm_compute; exact I | vm_compute; exact eq_refl]|] ].
Qed.

(** C10: the status of a booking plays no part in the summary: two stores
    whose bookings differ in their status at most give the same summary, so
    bookings of every status count for the returning clients, and client A
    with two cancelled bookings in the window gives 1. *)
Theorem returning_clients_ignore_status st st' now sid p :
  (forall name, name <> "booking" -> collection st name = collection st' name) ->
  Forall2 same_but_status (collection st "booking") (collection st' "booking") ->
  analytics_summary float_of_str (connect st) now sid p
  = analytics_summary float_of_str (connect st') now sid p
  /\ returning_clients
       <$> analytics_summary float_of_str (connect cancelled_store) now0
             (Some "s1") "7d"
     = Ok 1.
Proof.
  intros Hother Hbook. split; [|vm_compute; exact eq_refl].
  rewrite !analytics_summary_scoped.
  destruct (negb (valid_period p)); [reflexivity|].
  destruct (window_start now p) as [start|e]; [|reflexivity].
  cbn [mbind result_bind]. unfold scoped.
  rewrite <- (Hother "transaction"), <- (Hother "client") by discriminate.
  pose proof (scoped_same_but_status "created_at" start sid _ _
                ltac:(discriminate) Hbook) as Hc.
  pose proof (scoped_same_but_status "start_time" start sid _ _
                ltac:(discriminate) Hbook) as Hs.
  apply Forall2_length in Hc. rewrite Hc.
  unfold returning_groups. now rewrite (group_count_same_but_status _ _ Hs).
Qed.

End ReturningClaims.

(** C3, as stated, fails: client A has exactly one booking in the window
    from the window start to [now0], the other one starts the day after,
    and yet [returning_clients] is 1. *)
Lemma upcoming_booking_counts_as_return :
  window_start now0 "7d" = Ok (mk_datetime 2024 3 8 10 30 0 123456)
  /\ length (filter (fun b => in_half_open_window "start_time"
                               (mk_datetime 2024 3 8 10 30 0 123456) now0 b
                             = true)
               upcoming_bookings)
     = 1%nat
  /\ (forall float_of_str,
        returning_clients
          <$> analytics_summary float_of_str (connect upcoming_store) now0
                (Some "s1") "7d"
        = Ok 1).
Proof.
  split; [vm_compute; exact eq_refl|].
  split; [vm_compute; exact eq_refl|].
  intros f. vm_compute. exact eq_refl.
Qed.

Lemma returning_clients_counts_clients_witness :
  exists r clients,
    analytics_summary no_str (connect returning_store) now0 (Some "s1") "7d"
    = Ok r
    /\ NoDup clients
    /\ (forall c : string,
          c ∈ clients <->
          (1 < occurrences (Some c)
                 (client_ref
                    <$> scoped returning_store "booking" "start_time"
                          (mk_datetime 2024 3 8 10 30 0 123456) (Some "s1")))%nat)
    /\ returning_clients r = Z.of_nat (length clients).
Proof.
  refine (proj1 (returning_clients_counts_clients no_str returning_store now0
                   (Some "s1") "7d" (mk_datetime 2024 3 8 10 30 0 123456)
                   _ _ _ _ _)).
  - vm_compute. exact eq_refl.
  - vm_compute. exact eq_refl.
  - apply Forall_nil_2.
  - repeat first
      [ apply Forall_nil_2
      | apply Forall_cons; split; [vm_compute; exact I|] ].
  - vm_compute. lia.
Defined.

Lemma clientless_bookings_share_a_group_witness :
  exists r,
    analytics_summary no_str (connect clientless_store) now0 None "7d" = Ok r
    /\ returning_clients r = 1.
Proof.
  refine (proj1 (clientless_bookings_share_a_group no_str) clientless_store
            now0 None "7d" (mk_datetime 2024 3 8 10 30 0 123456) _ _ _ _ _).
  - vm_compute. exact eq_refl.
  - vm_compute. exact eq_refl.
  - apply Forall_nil_2.
  - repeat first
      [ apply Forall_nil_2
      | apply Forall_cons; split; [vm_compute; exact I|] ].
  - vm_compute. lia.
Defined.

Lemma returning_clients_ignore_status_witness :
  analytics_summary no_str (connect cancelled_store) now0 (Some "s1") "7d"
  = analytics_summary no_str (connect confirmed_store) now0 (Some "s1") "7d".
Proof.
  refine (proj1 (returning_clients_ignore_status no_str cancelled_store
                   confirmed_store now0 (Some "s1") "7d" _ _)).
  - intros name Hname. unfold collection, cancelled_store, confirmed_store.
    now rewrite !lookup_singleton_ne by congruence.
  - repeat first
      [ apply Forall2_nil_2
      | apply Forall2_cons; split; [apply booking_doc_same_but_status|] ].
Defined.

(** ** The window and the tenant scope *)

Section Window.

Lemma valid_period_cases p :
  valid_period p = true ->
  p = "mtd" \/ exists n, (p, n) ∈ [("7d", 7); ("30d", 30); ("90d", 90)].
Proof.
  unfold valid_period. intros H. apply bool_decide_eq_true_1 in H.
  rewrite !elem_of_cons, elem_of_nil in H.
  destruct H as [->|[->|[->|[->|[]]]]].
  - right. exists 7. apply list_elem_of_In. simpl. tauto.
  - right. exists 30. apply list_elem_of_In. simpl. tauto.
  - right. exists 90. apply list_elem_of_In. simpl. tauto.
  - now left.
Qed.

Lemma window_start_mtd now :
  check_fields now = true ->
  window_start now "mtd" = Ok (mk_datetime (year now) (month now) 1 0 0 0 0).
Proof.
  intros Hnow. unfold window_start. cbn [String.eqb Ascii.eqb Bool.eqb].
  unfold Datetime.new.
  assert (check_fields (mk_datetime (year now) (month now) 1 0 0 0 0) = true)
    as ->; [|reflexivity].
  apply check_fields_iff in Hnow. destruct Hnow as (Hy & Hm & Hd & _).
  apply check_fields_iff. unfold in_range. cbn. repeat split; lia.
Qed.

(** The window never starts after [now]. *)
Lemma window_start_not_after now p start :
  check_fields now = true ->
  valid_period p = true ->
  window_start now p = Ok start ->
  _datetime_to_millis start <= _datetime_to_millis now.
Proof.
  intros Hnow Hp Hstart.
  destruct (valid_period_cases p Hp) as [->|[n Hn]].
  - rewrite (window_start_mtd now Hnow) in Hstart. injection Hstart as <-.
    apply check_fields_iff in Hnow.
    destruct Hnow as (Hy & Hm & Hd & Hh & Hmi & Hs & Hus).
    rewrite !datetime_to_millis_ordinal. unfold toordinal, _ymd2ord.
    cbn [year month day hour minute second microsecond].
    assert (0 <= microsecond now / 1000) by (apply Z.div_pos; lia).
    change (0 / 1000) with 0. lia.
  - rewrite (window_start_days now n p Hn) in Hstart.
    assert (1 <= n <= 999999999) as Hr.
    { rewrite !elem_of_cons, elem_of_nil in Hn.
      destruct Hn as [[= _ ->]|[[= _ ->]|[[= _ ->]|[]]]]; lia. }
    destruct (Z_lt_le_dec n (toordinal now)) as [Hlt|Hge].
    + destruct (sub_days now n Hnow Hr Hlt)
        as (start' & Hs & _ & Ho & Hh & Hmi & Hsec & Hus).
      rewrite Hs in Hstart. injection Hstart as <-.
      rewrite (millis_days start' now n Ho Hh Hmi Hsec Hus). lia.
    + rewrite (sub_days_overflow now n Hnow Hr Hge) in Hstart. discriminate.
Qed.

End Window.

Section ScopeClaims.
Variable float_of_str : string -> result float.

(** C6 (amended): every per-tenant rollup scopes documents from below
    only.  A document is in the window exactly when its time field holds a
    date at or after the window start; no upper bound is applied, so a
    document dated at or after [now] is in the window too, and the four
    metrics are taken over the documents in scope so defined. *)
Theorem rollups_bounded_below_only st now sid p start :
  check_fields now = true ->
  valid_period p = true ->
  window_start now p = Ok start ->
  Forall (numeric "amount")
    (filter (fun t => succeeded t = true)
       (scoped st "transaction" "timestamp" start sid)) ->
  (forall time_field (d : doc) t,
     d !! time_field = Some (VDate t) ->
     (in_window time_field start d = true
      <-> _datetime_to_millis start <= t)
     /\ (_datetime_to_millis now <= t -> in_window time_field start d = true))
  /\ exists r,
       analytics_summary float_of_str (connect st) now sid p = Ok r
       /\ total_revenue r
          = fsum (number "amount"
                    <$> filter (fun t => succeeded t = true)
                          (scoped st "transaction" "timestamp" start sid))
       /\ total_bookings r
          = Z.of_nat (length (scoped st "booking" "created_at" start sid))
       /\ new_clients r
          = Z.of_nat (length (scoped st "client" "created_at" start sid))
       /\ returning_clients r
          = Z.of_nat (length (returning_groups
                                (scoped st "booking" "start_time" start sid))).
Proof.
  intros Hnow Hp Hstart Hnum. split.
  - intros f d t Hd.
    pose proof (window_start_not_after now p start Hnow Hp Hstart) as Hle.
    unfold in_window. rewrite Hd, Z.leb_le. split; [tauto | lia].
  - eexists.
    split; [apply (analytics_summary_connect _ _ _ _ _ _ Hp Hstart Hnum)|].
    cbn. auto.
Qed.

(** C7 (amended): with a non-empty tenant id the summary depends on the
    documents of that tenant only: two stores that hold the same
    transactions, bookings and clients for it give the same summary.
    Without a tenant id, or with the empty one, the filters match the
    documents of all tenants. *)
Theorem tenant_isolation st1 st2 now s p :
  s <> "" ->
  same_for_tenant s st1 st2 ->
  analytics_summary float_of_str (connect st1) now (Some s) p
  = analytics_summary float_of_str (connect st2) now (Some s) p
  /\ forall sid time_field start d,
       sid = None \/ sid = Some "" ->
       matches (scoped_filter time_field start sid) d
       = in_window time_field start d.
Proof.
  intros Hs Hsame. split.
  - rewrite !analytics_summary_scoped.
    destruct (negb (valid_period p)); [reflexivity|].
    destruct (window_start now p) as [start|e]; [|reflexivity].
    cbn [mbind result_bind].
    rewrite (scoped_same st1 st2 "transaction" "timestamp" start s Hs Hsame),
      (scoped_same st1 st2 "booking" "created_at" start s Hs Hsame),
      (scoped_same st1 st2 "client" "created_at" start s Hs Hsame),
      (scoped_same st1 st2 "booking" "start_time" start s Hs Hsame);
      try reflexivity; apply list_elem_of_In; simpl; tauto.
  - intros sid f start d Hsid. rewrite matches_scoped_filter.
    unfold in_scope, of_tenant.
    destruct Hsid as [->| ->]; cbn [truthy]; apply andb_true_r.
Qed.

(** ** Monetary aggregates *)

Lemma number_nonneg field (docs : list doc) :
  Forall (nonneg_field field) docs -> Forall nonneg (number field <$> docs).
Proof.
  intros H. apply Forall_fmap, (Forall_impl _ _ _ H).
  intros d (x & Hx & Hn). unfold number, compose. now rewrite Hx.
Qed.

Lemma number_missing field (d : doc) :
  d !! field = None -> number field d = 0%float.
Proof.
  intros H. unfold number, field_number, get_default. now rewrite H.
Qed.

(** A document without the field can be left out of a sum. *)
Lemma fsum_drop_missing field (before after : list doc) (d : doc) :
  d !! field = None ->
  fsum (number field <$> before ++ d :: after)
  = fsum (number field <$> before ++ after).
Proof.
  intros Hd. rewrite !fmap_app, fmap_cons, (number_missing _ _ Hd).
  apply fsum_drop_zero.
Qed.

(** C8 (amended): over a store whose selected documents hold a number in
    the summed field or lack it, every monetary aggregate
    ([total_revenue], [mrr], [revenue_30d]) is returned and is the sum,
    from 0.0 and in scan order, of the summed field of the selected
    documents, whatever the sign of the numbers: the code accepts any
    number there.  A document without the field counts as 0.0 and
    contributes exactly zero: it can be left out without changing the
    aggregate.  When the summed fields are non-negative, so is the
    aggregate. *)
Theorem aggregates_sum_stored_fields :
  (forall st now sid p start,
     valid_period p = true ->
     window_start now p = Ok start ->
     Forall (numeric "amount")
       (filter (fun t => succeeded t = true)
          (scoped st "transaction" "timestamp" start sid)) ->
     exists r,
       analytics_summary float_of_str (connect st) now sid p = Ok r
       /\ total_revenue r
          = fsum (number "amount"
                    <$> filter (fun t => succeeded t = true)
                          (scoped st "transaction" "timestamp" start sid))
       /\ (forall before d after,
             filter (fun t => succeeded t = true)
               (scoped st "transaction" "timestamp" start sid)
             = before ++ d :: after ->
             d !! "amount" = None ->
             number "amount" d = 0%float
             /\ total_revenue r = fsum (number "amount" <$> before ++ after))
       /\ (Forall (nonneg_field "amount")
             (filter (fun t => succeeded t = true)
                (scoped st "transaction" "timestamp" start sid)) ->
           nonneg (total_revenue r)))
  /\ (forall st now1 now2 last30 last1d,
        Datetime.sub now1 (mk_timedelta 30 0 0) = Ok last30 ->
        Datetime.sub now2 (mk_timedelta 1 0 0) = Ok last1d ->
        Forall (numeric "mrr")
          (filter (fun s => active_or_past_due s = true)
             (collection st "subscription")) ->
        Forall (numeric "amount")
          (filter (fun t => in_window "timestamp" last30 t && succeeded t = true)
             (collection st "transaction")) ->
        exists r,
          admin_metrics float_of_str (connect st) now1 now2 = Ok r
          /\ mrr r
             = fsum (number "mrr"
                       <$> filter (fun s => active_or_past_due s = true)
                             (collection st "subscription"))
          /\ revenue_30d r
             = fsum (number "amount"
                       <$> filter (fun t => in_window "timestamp" last30 t
                                            && succeeded t = true)
                             (collection st "transaction"))
          /\ (forall before d after,
                filter (fun s => active_or_past_due s = true)
                  (collection st "subscription")
                = before ++ d :: after ->
                d !! "mrr" = None ->
                number "mrr" d = 0%float
                /\ mrr r = fsum (number "mrr" <$> before ++ after))
          /\ (forall before d after,
                filter (fun t => in_window "timestamp" last30 t
                                 && succeeded t = true)
                  (collection st "transaction")
                = before ++ d :: after ->
                d !! "amount" = None ->
                number "amount" d = 0%float
                /\ revenue_30d r = fsum (number "amount" <$> before ++ after))
          /\ (Forall (nonneg_field "mrr")
                (filter (fun s => active_or_past_due s = true)
                   (collection st "subscription")) ->
              nonneg (mrr r))
          /\ (Forall (nonneg_field "amount")
                (filter (fun t => in_window "timestamp" last30 t
                                  && succeeded t = true)
                   (collection st "transaction")) ->
              nonneg (revenue_30d r))).
Proof.
  split.
  - intros st now sid p start Hp Hstart Hnum.
    eexists. split.
    { apply (analytics_summary_connect _ _ _ _ _ _ Hp Hstart Hnum). }
    cbn [total_revenue]. split; [reflexivity|]. split.
    + intros before d after Hsel Hd. split; [now apply number_missing|].
      rewrite Hsel. now apply fsum_drop_missing.
    + intros Hnn. apply fsum_nonneg, number_nonneg, Hnn.
  - intros st now1 now2 last30 last1d H30 H1 Hmrr Hamount.
    destruct (admin_metrics_connect float_of_str st now1 now2 last30 last1d
                H30 H1 Hmrr Hamount)
      as (r & Hr & Em & _ & Er).
    exists r. split; [exact Hr|]. rewrite Em, Er.
    split; [reflexivity|]. split; [reflexivity|].
    split; [|split; [|split]].
    + intros before d after Hsel Hd. split; [now apply number_missing|].
      rewrite Hsel. now apply fsum_drop_missing.
    + intros before d after Hsel Hd. split; [now apply number_missing|].
      rewrite Hsel. now apply fsum_drop_missing.
    + intros Hnn. apply fsum_nonneg, number_nonneg, Hnn.
    + intros Hnn. apply fsum_nonneg, number_nonneg, Hnn.
Qed.

(** ** Fleet metrics *)

(** C5: for current times from which 30 days and 1 day can be subtracted,
    over a reachable store whose selected documents hold numeric fields,
    [admin_metrics] returns, its [mrr] is the sum of the [mrr] field over
    exactly the subscriptions whose status is "active" or "past_due" (one
    with status "trial" or "canceled" is not among them), and its [arr] is
    [mrr * 12]; subscriptions active 1000, trial 500 and canceled 2000
    give [mrr = 1000] and [arr = 12000]. *)
Theorem fleet_mrr_and_arr st now1 now2 :
  check_fields now1 = true -> 30 < toordinal now1 ->
  check_fields now2 = true -> 1 < toordinal now2 ->
  Forall (numeric "mrr")
    (filter (fun s => active_or_past_due s = true)
       (collection st "subscription")) ->
  Forall (numeric "amount")
    (filter (fun t => succeeded t = true) (collection st "transaction")) ->
  (exists r,
     admin_metrics float_of_str (connect st) now1 now2 = Ok r
     /\ mrr r = fsum (number "mrr"
                        <$> filter (fun s => active_or_past_due s = true)
                              (collection st "subscription"))
     /\ arr r = (mrr r * 12)%float)
  /\ (forall s : doc,
        eq_str (get s "status") "trial" = true
        \/ eq_str (get s "status") "canceled" = true ->
        active_or_past_due s = false)
  /\ (fun r => (mrr r, arr r))
       <$> admin_metrics float_of_str (connect fleet_store) now0 now0
     = Ok (1000%float, 12000%float).
Proof.
  intros Hn1 Ho1 Hn2 Ho2 Hmrr Hamount.
  split; [|split; [|vm_compute; exact eq_refl]].
  - destruct (sub_days now1 30 Hn1 ltac:(lia) Ho1) as (last30 & H30 & _).
    destruct (sub_days now2 1 Hn2 ltac:(lia) Ho2) as (last1d & H1 & _).
    destruct (admin_metrics_connect float_of_str st now1 now2 last30 last1d
                H30 H1 Hmrr) as (r & Hr & Em & Ea & _).
    + rewrite Forall_forall in Hamount |- *. intros t Ht.
      apply list_elem_of_filter in Ht as [Hc Ht].
      apply Hamount, list_elem_of_filter. split; [|exact Ht].
      apply andb_true_iff in Hc. tauto.
    + exists r. auto.
  - intros s Hs. unfold active_or_past_due.
    destruct (get s "status") as [|b|z|x|status|t]; try reflexivity.
    cbn [eq_str] in *.
    destruct Hs as [Hs|Hs]; apply String.eqb_eq in Hs; subst; reflexivity.
Qed.

End ScopeClaims.

(** ** Where the claims fail *)

(** C6, as stated, fails: every document of this store is dated a day after
    [now0], and each of the four metrics counts it. *)
Lemma future_documents_are_counted :
  _datetime_to_millis now0 < tomorrow_ms
  /\ Forall (fun d => d !! "timestamp" = Some (VDate tomorrow_ms))
       (collection future_store "transaction")
  /\ Forall (fun d => d !! "created_at" = Some (VDate tomorrow_ms)
                      /\ d !! "start_time" = Some (VDate tomorrow_ms))
       (collection future_store "booking")
  /\ Forall (fun d => d !! "created_at" = Some (VDate tomorrow_ms))
       (collection future_store "client")
  /\ (forall float_of_str,
        analytics_summary float_of_str (connect future_store) now0 None "7d"
        = Ok (mk_summary "7d" 100 2 1 1)).
Proof.
  split; [vm_compute; exact eq_refl|].
  repeat split;
    try (repeat first
           [ apply Forall_nil_2
           | apply Forall_cons; split;
             [try split; vm_compute; exact eq_refl|] ]).
Qed.

(** C7, as stated, fails for the empty tenant id: the two stores hold the
    same documents for it (none), and the summaries differ, because the
    empty id scopes nothing. *)
Lemma empty_tenant_id_reads_all_tenants :
  same_for_tenant "" one_tenant_store empty_store
  /\ (forall float_of_str,
        total_revenue
          <$> analytics_summary float_of_str (connect one_tenant_store) now0
                (Some "") "7d"
        = Ok 100%float
        /\ total_revenue
             <$> analytics_summary float_of_str (connect empty_store) now0
                   (Some "") "7d"
           = Ok 0%float).
Proof.
  split.
  - intros name Hname. rewrite !elem_of_cons, elem_of_nil in Hname.
    destruct Hname as [->|[->|[->|[]]]]; vm_compute; exact eq_refl.
  - intros f. split; vm_compute; exact eq_refl.
Qed.

(** C8, as stated, fails: a succeeded transaction of -5 is stored as given
    and makes [total_revenue] negative. *)
Lemma negative_amount_gives_negative_revenue :
  (forall float_of_str,
     total_revenue
       <$> analytics_summary float_of_str (connect negative_store) now0
             (Some "s1") "7d"
     = Ok (-5)%float)
  /\ (0 <=? -5)%float = false.
Proof.
  split; [intros f|]; vm_compute; exact eq_refl.
Qed.

(** ** Instances *)

Lemma rollups_bounded_below_only_witness :
  exists r,
    analytics_summary no_str (connect future_store) now0 None "7d" = Ok r
    /\ total_bookings r
       = Z.of_nat (length (scoped future_store "booking" "created_at"
                             (mk_datetime 2024 3 8 10 30 0 123456) None)).
Proof.
  destruct (rollups_bounded_below_only no_str future_store now0 None "7d"
              (mk_datetime 2024 3 8 10 30 0 123456))
    as [_ (r & Hr & _ & Hb & _)].
  - exact eq_refl.
  - exact eq_refl.
  - vm_compute. exact eq_refl.
  - repeat first
      [ apply Forall_nil_2
      | apply Forall_cons; split; [eexists; vm_compute; exact eq_refl|] ].
  - exists r. split; [exact Hr | exact Hb].
Defined.

Lemma tenant_isolation_witness :
  analytics_summary no_str (connect one_tenant_store) now0 (Some "s1") "7d"
  = analytics_summary no_str (connect two_tenant_store) now0 (Some "s1") "7d".
Proof.
  refine (proj1 (tenant_isolation no_str one_tenant_store two_tenant_store
                   now0 "s1" "7d" _ _)).
  - discriminate.
  - intros name Hname. rewrite !elem_of_cons, elem_of_nil in Hname.
    destruct Hname as [->|[->|[->|[]]]]; vm_compute; exact eq_refl.
Defined.

Lemma aggregates_sum_stored_fields_witness :
  (exists r,
     analytics_summary no_str (connect negative_store) now0 (Some "s1") "7d"
     = Ok r
     /\ total_revenue r = (-5)%float)
  /\ (exists r,
        analytics_summary no_str (connect partial_store) now0 (Some "s1") "7d"
        = Ok r
        /\ total_revenue r = 120%float
        /\ nonneg (total_revenue r))
  /\ (exists r,
        admin_metrics no_str (connect fleet_store) now0 now0 = Ok r
        /\ mrr r = 1000%float
        /\ nonneg (mrr r) /\ nonneg (revenue_30d r)).
Proof.
  destruct (aggregates_sum_stored_fields no_str) as [Hsum Hfleet].
  split; [|split].
  - destruct (Hsum negative_store now0 (Some "s1") "7d"
                (mk_datetime 2024 3 8 10 30 0 123456))
      as (r & Hr & Hrev & _).
    + exact eq_refl.
    + vm_compute. exact eq_refl.
    + repeat first
        [ apply Forall_nil_2
        | apply Forall_cons; split; [eexists; vm_compute; exact eq_refl|] ].
    + exists r. split; [exact Hr|]. rewrite Hrev. vm_compute. exact eq_refl.
  - destruct (Hsum partial_store now0 (Some "s1") "7d"
                (mk_datetime 2024 3 8 10 30 0 123456))
      as (r & Hr & _ & Hdrop & Hnn).
    + exact eq_refl.
    + vm_compute. exact eq_refl.
    + repeat first
        [ apply Forall_nil_2
        | apply Forall_cons; split; [eexists; vm_compute; exact eq_refl|] ].
    + exists r. split; [exact Hr|]. split.
      * destruct (Hdrop [transaction_doc "s1" 100 "succeeded" yesterday_ms]
                    {[ "salon_id" := VStr "s1"; "status" := VStr "succeeded";
                       "timestamp" := VDate yesterday_ms ]}
                    [transaction_doc "s1" 20 "succeeded" yesterday_ms])
          as [_ ->]; vm_compute; exact eq_refl.
      * apply Hnn.
        repeat first
          [ apply Forall_nil_2
          | apply Forall_cons; split;
            [eexists; split; vm_compute; exact eq_refl|] ].
  - destruct (Hfleet fleet_store now0 now0
                (mk_datetime 2024 2 14 10 30 0 123456)
                (mk_datetime 2024 3 14 10 30 0 123456))
      as (r & Hr & Hm & _ & _ & _ & Hnm & Hnr).
    + vm_compute. exact eq_refl.
    + vm_compute. exact eq_refl.
    + repeat first
        [ apply Forall_nil_2
        | apply Forall_cons; split; [eexists; vm_compute; exact eq_refl|] ].
    + apply Forall_nil_2.
    + exists r. split; [exact Hr|]. split.
      * rewrite Hm. vm_compute. exact eq_refl.
      * split; [apply Hnm|apply Hnr].
        -- repeat first
             [ apply Forall_nil_2
             | apply Forall_cons; split;
               [eexists; split; vm_compute; exact eq_refl|] ].
        -- apply Forall_nil_2.
Defined.

Lemma fleet_mrr_and_arr_witness :
  exists r,
    admin_metrics no_str (connect fleet_store) now0 now0 = Ok r
    /\ mrr r = 1000%float /\ arr r = 12000%float.
Proof.
  destruct (fleet_mrr_and_arr no_str fleet_store now0 now0)
    as [(r & Hr & Hm & Ha) _].
  - exact eq_refl.
  - vm_compute. exact eq_refl.
  - exact eq_refl.
  - vm_compute. exact eq_refl.
  - repeat first
      [ apply Forall_nil_2
      | apply Forall_cons; split; [eexists; vm_compute; exact eq_refl|] ].
  - apply Forall_nil_2.
  - exists r. split; [exact Hr|].
    assert (mrr r = 1000%float) as Hm'
      by (rewrite Hm; vm_compute; exact eq_refl).
    split; [exact Hm'|]. rewrite Ha, Hm'. vm_compute. exact eq_refl.
Defined.

(** The end-to-end scenario: revenue 500, four bookings, three new clients
    and two returning clients. *)
Example scenario_summary float_of_str :
  analytics_summary float_of_str (connect scenario_store) now0 (Some "T") "7d"
  = Ok (mk_summary "7d" 500 4 3 2).
Proof. vm_compute. exact eq_refl. Qed.

(** * Further properties of the endpoints *)

(** ** The summary: errors *)

Section SummaryErrors.
Variable float_of_str : string -> result float.

(** X2: the transaction scan, the booking count and the client count have
    no degraded mode: when one of them fails, the summary fails with the
    same exception, also when the aggregation would have succeeded. *)
Theorem store_failures_propagate db now sid p start e :
  valid_period p = true ->
  window_start now p = Ok start ->
  (find db "transaction" (scoped_filter "timestamp" start sid) = Raise e ->
   analytics_summary float_of_str db now sid p = Raise e)
  /\ (forall txs revenue,
        find db "transaction" (scoped_filter "timestamp" start sid) = Ok txs ->
        revenue_loop float_of_str txs = Ok revenue ->
        count_documents db "booking" (scoped_filter "created_at" start sid)
        = Raise e ->
        analytics_summary float_of_str db now sid p = Raise e)
  /\ (forall txs revenue bookings,
        find db "transaction" (scoped_filter "timestamp" start sid) = Ok txs ->
        revenue_loop float_of_str txs = Ok revenue ->
        count_documents db "booking" (scoped_filter "created_at" start sid)
        = Ok bookings ->
        count_documents db "client" (scoped_filter "created_at" start sid)
        = Raise e ->
        analytics_summary float_of_str db now sid p = Raise e).
Proof.
  intros Hp Hstart. unfold analytics_summary. rewrite Hp, Hstart.
  cbn [negb mbind result_bind]. repeat split.
  - intros ->. reflexivity.
  - intros txs revenue -> Hrev Hb. cbn [mbind result_bind].
    rewrite Hrev. cbn [mbind result_bind]. now rewrite Hb.
  - intros txs revenue bookings -> Hrev Hb Hc. cbn [mbind result_bind].
    rewrite Hrev. cbn [mbind result_bind]. rewrite Hb.
    cbn [mbind result_bind]. now rewrite Hc.
Qed.

Lemma revenue_fold_raises before t after e : forall acc,
  Forall (numeric "amount") (filter (fun t => succeeded t = true) before) ->
  succeeded t = true ->
  py_float float_of_str (get_default t "amount" (VInt 0)) = Raise e ->
  for_each (before ++ t :: after)
    (fun revenue t =>
       if eq_str (get t "status") "succeeded"
       then add_field float_of_str "amount" revenue t
       else Ok revenue) acc
  = Raise e.
Proof.
  induction before as [|b before IH]; intros acc Hnum Ht He.
  - cbn [app for_each]. fold (succeeded t). rewrite Ht.
    unfold add_field. now rewrite He.
  - cbn [app for_each]. fold (succeeded b).
    rewrite filter_cons in Hnum.
    destruct (decide (succeeded b = true)) as [E|E].
    + rewrite E. apply Forall_cons in Hnum as [Hb Hnum].
      rewrite add_field_number by exact Hb. now apply IH.
    + apply not_true_is_false in E. rewrite E. now apply IH.
Qed.

(** X3: a missing amount counts as 0, but an amount that is there and is
    null (or a date) does not: when the first such transaction among the
    succeeded ones in scope follows numeric amounts only, the summary
    raises [TypeError]; with any other status the same document is
    skipped. *)
Theorem null_amount_raises st now sid p start before t after :
  valid_period p = true ->
  window_start now p = Ok start ->
  scoped st "transaction" "timestamp" start sid = before ++ t :: after ->
  Forall (numeric "amount") (filter (fun t => succeeded t = true) before) ->
  (t !! "amount" = Some VNull \/ exists ms, t !! "amount" = Some (VDate ms)) ->
  (succeeded t = true ->
   analytics_summary float_of_str (connect st) now sid p = Raise TypeError)
  /\ (succeeded t = false ->
      Forall (numeric "amount") (filter (fun t => succeeded t = true) after) ->
      exists r, analytics_summary float_of_str (connect st) now sid p = Ok r).
Proof.
  intros Hp Hstart Hsel Hnum Hbad.
  rewrite analytics_summary_scoped, Hp, Hstart.
  cbn [negb mbind result_bind]. rewrite Hsel. split.
  - intros Ht. unfold revenue_loop.
    rewrite (revenue_fold_raises before t after TypeError); [reflexivity| | |];
      try assumption.
    unfold get_default.
    destruct Hbad as [-> | [ms ->]]; reflexivity.
  - intros Ht Hafter. rewrite revenue_loop_numeric; [eexists; reflexivity|].
    rewrite filter_app, filter_cons, decide_False by congruence.
    apply Forall_app. split; assumption.
Qed.

End SummaryErrors.

Lemma store_failures_propagate_witness :
  analytics_summary no_str
    {| find _ _ := Raise PyMongoError;
       count_documents _ _ := Ok 0;
       distinct _ _ _ := Ok [];
       aggregate _ _ := Ok [] |} now0 None "7d"
  = Raise PyMongoError.
Proof.
  refine (proj1 (store_failures_propagate no_str _ now0 None "7d"
                   (mk_datetime 2024 3 8 10 30 0 123456) PyMongoError _ _) _).
  - exact eq_refl.
  - vm_compute. exact eq_refl.
  - exact eq_refl.
Defined.

Lemma null_amount_raises_witness :
  analytics_summary no_str (connect null_amount_store) now0 (Some "s1") "7d"
  = Raise TypeError.
Proof.
  refine (proj1 (null_amount_raises no_str null_amount_store now0 (Some "s1")
                   "7d" (mk_datetime 2024 3 8 10 30 0 123456)
                   [transaction_doc "s1" 100 "succeeded" yesterday_ms]
                   (<[ "amount" := VNull ]>
                      (transaction_doc "s1" 0 "succeeded" yesterday_ms))
                   [] _ _ _ _ _) _).
  - exact eq_refl.
  - vm_compute. exact eq_refl.
  - vm_compute. exact eq_refl.
  - repeat first
      [ apply Forall_nil_2
      | apply Forall_cons; split; [eexists; vm_compute; exact eq_refl|] ].
  - left. vm_compute. exact eq_refl.
  - vm_compute. exact eq_refl.
Defined.

(** ** The summary: counts *)

Section GroupTotals.

Lemma total_count_bump k gs : total_count (bump k gs) = total_count gs + 1.
Proof.
  unfold total_count.
  induction gs as [|[k' n] gs IH]; cbn [bump]; [reflexivity|].
  destruct (value_eqb k k'); cbn [foldr snd] in *; lia.
Qed.

Lemma counts_positive_bump k gs :
  Forall (fun g : value * Z => 1 <= snd g) gs ->
  Forall (fun g : value * Z => 1 <= snd g) (bump k gs).
Proof.
  induction gs as [|[k' n] gs IH]; cbn [bump]; intros H.
  - apply Forall_cons. split; [cbn; lia | apply Forall_nil_2].
  - apply Forall_cons in H as [Hn H].
    destruct (value_eqb k k'); apply Forall_cons; cbn [snd] in *;
      (split; [lia | auto]).
Qed.

Lemma group_count_totals by_field docs :
  total_count (group_count by_field docs) = Z.of_nat (length docs)
  /\ Forall (fun g : value * Z => 1 <= snd g) (group_count by_field docs).
Proof.
  unfold group_count.
  assert (forall gs,
            Forall (fun g : value * Z => 1 <= snd g) gs ->
            total_count
              (fold_left (fun groups d => bump (group_key by_field d) groups)
                 docs gs)
            = total_count gs + Z.of_nat (length docs)
            /\ Forall (fun g : value * Z => 1 <= snd g)
                 (fold_left (fun groups d => bump (group_key by_field d) groups)
                    docs gs)) as H.
  { induction docs as [|d docs IH]; intros gs Hgs.
    - cbn [fold_left length]. change (Z.of_nat 0) with 0.
      split; [lia | exact Hgs].
    - cbn [fold_left length].
      destruct (IH (bump (group_key by_field d) gs)
                  (counts_positive_bump _ _ Hgs)) as [Ht Hp].
      split; [|exact Hp]. rewrite Ht, total_count_bump. lia. }
  destruct (H [] (Forall_nil_2 _)) as [Ht Hp]. split; [|exact Hp].
  rewrite Ht. reflexivity.
Qed.

Lemma large_groups_bound (gs : list (value * Z)) :
  Forall (fun g : value * Z => 1 <= snd g) gs ->
  2 * Z.of_nat (length (filter (fun g : value * Z => 1 < snd g) gs))
  <= total_count gs.
Proof.
  induction gs as [|g gs IH]; intros H; [unfold total_count; cbn; lia|].
  apply Forall_cons in H as [Hg H]. specialize (IH H).
  rewrite filter_cons. unfold total_count in *. cbn [foldr] in *.
  case_decide; cbn [length]; lia.
Qed.

Lemma returning_groups_bound (bookings : list doc) :
  2 * Z.of_nat (length (returning_groups bookings))
  <= Z.of_nat (length bookings).
Proof.
  destruct (group_count_totals "client_id" bookings) as [Ht Hp].
  rewrite <- Ht. now apply large_groups_bound.
Qed.

Lemma length_filter_impl {A} (P Q : A -> Prop)
    `{forall x, Decision (P x)} `{forall x, Decision (Q x)} (l : list A) :
  (forall x, P x -> Q x) ->
  (length (filter P l) <= length (filter Q l))%nat.
Proof.
  intros HPQ. induction l as [|x l IH]; [reflexivity|].
  rewrite !filter_cons.
  destruct (decide (P x)) as [HP|HP].
  - rewrite decide_True by auto. cbn [length]. lia.
  - destruct (decide (Q x)); cbn [length]; lia.
Qed.

End GroupTotals.

Section SummaryCounts.
Variable float_of_str : string -> result float.

(** X4: every returning client stands for at least two bookings:
    [returning_clients] is never negative and twice it never exceeds the
    number of bookings whose [start_time] is in scope, whatever the
    bookings hold as [client_id]. *)
Theorem returning_clients_at_most_half st now sid p start :
  valid_period p = true ->
  window_start now p = Ok start ->
  Forall (numeric "amount")
    (filter (fun t => succeeded t = true)
       (scoped st "transaction" "timestamp" start sid)) ->
  exists r,
    analytics_summary float_of_str (connect st) now sid p = Ok r
    /\ 0 <= returning_clients r
    /\ 2 * returning_clients r
       <= Z.of_nat (length (scoped st "booking" "start_time" start sid))
    /\ 2 * returning_clients r
       <= Z.of_nat (length (collection st "booking")).
Proof.
  intros Hp Hstart Hnum. eexists.
  split; [apply (analytics_summary_connect _ _ _ _ _ _ Hp Hstart Hnum)|].
  cbn [returning_clients].
  pose proof (returning_groups_bound
                (scoped st "booking" "start_time" start sid)) as Hb.
  pose proof (length_filter
                (fun d => in_scope "start_time" start sid d = true)
                (collection st "booking")) as Hl.
  fold (scoped st "booking" "start_time" start sid) in Hl.
  repeat split; lia.
Qed.

End SummaryCounts.

Lemma returning_clients_at_most_half_witness :
  exists r,
    analytics_summary no_str (connect scenario_store) now0 (Some "T") "7d"
    = Ok r
    /\ 0 <= returning_clients r
    /\ 2 * returning_clients r
       <= Z.of_nat (length (scoped scenario_store "booking" "start_time"
                              (mk_datetime 2024 3 8 10 30 0 123456) (Some "T")))
    /\ 2 * returning_clients r
       <= Z.of_nat (length (collection scenario_store "booking")).
Proof.
  refine (returning_clients_at_most_half no_str scenario_store now0 (Some "T")
            "7d" (mk_datetime 2024 3 8 10 30 0 123456) _ _ _).
  - exact eq_refl.
  - vm_compute. exact eq_refl.
  - repeat first
      [ apply Forall_nil_2
      | apply Forall_cons; split; [eexists; vm_compute; exact eq_refl|] ].
Defined.

(** ** The summary: longer windows, new documents *)

Section Windows.

Lemma in_scope_earlier f start1 start2 sid d :
  _datetime_to_millis start1 <= _datetime_to_millis start2 ->
  in_scope f start2 sid d = true -> in_scope f start1 sid d = true.
Proof.
  intros Hle. unfold in_scope, in_window. rewrite !andb_true_iff.
  intros [Hw Ht]. split; [|exact Ht].
  destruct (d !! f) as [[| | | | |t]|]; try discriminate.
  apply Z.leb_le in Hw. apply Z.leb_le. lia.
Qed.

Lemma scoped_length_earlier st name f start1 start2 sid :
  _datetime_to_millis start1 <= _datetime_to_millis start2 ->
  (length (scoped st name f start2 sid)
   <= length (scoped st name f start1 sid))%nat.
Proof.
  intros Hle. apply length_filter_impl. intros d.
  now apply in_scope_earlier.
Qed.

Lemma occurrences_filter_impl (P Q : doc -> Prop)
    `{forall x, Decision (P x)} `{forall x, Decision (Q x)}
    (l : list doc) c :
  (forall x, P x -> Q x) ->
  (occurrences c (client_ref <$> filter P l)
   <= occurrences c (client_ref <$> filter Q l))%nat.
Proof.
  intros HPQ. unfold occurrences. induction l as [|x l IH]; [reflexivity|].
  rewrite !(filter_cons _ x l).
  destruct (decide (P x)) as [HP|HP].
  - rewrite decide_True by auto. rewrite !fmap_cons, !filter_cons.
    case_decide; cbn [length]; lia.
  - destruct (decide (Q x)); [|exact IH].
    rewrite fmap_cons, filter_cons. case_decide; cbn [length]; lia.
Qed.

Lemma returning_groups_earlier st start1 start2 sid :
  Forall client_typed (collection st "booking") ->
  _datetime_to_millis start1 <= _datetime_to_millis start2 ->
  (length (returning_groups (scoped st "booking" "start_time" start2 sid))
   <= length (returning_groups (scoped st "booking" "start_time" start1 sid)))%nat.
Proof.
  intros Htyped Hle.
  assert (forall start,
            Forall client_typed (scoped st "booking" "start_time" start sid))
    as Hsc.
  { intros start. rewrite Forall_forall in Htyped |- *. intros b Hb.
    apply list_elem_of_filter in Hb as [_ Hb]. now apply Htyped. }
  rewrite !returning_groups_lift by apply Hsc.
  destruct (returning_refs
              (client_ref <$> scoped st "booking" "start_time" start2 sid))
    as (keys2 & Hnd2 & Hin2 & ->).
  destruct (returning_refs
              (client_ref <$> scoped st "booking" "start_time" start1 sid))
    as (keys1 & Hnd1 & Hin1 & ->).
  apply submseteq_length, NoDup_submseteq; [exact Hnd2|].
  intros c Hc. apply Hin1. apply Hin2 in Hc.
  pose proof (occurrences_filter_impl
                (fun d => in_scope "start_time" start2 sid d = true)
                (fun d => in_scope "start_time" start1 sid d = true)
                (collection st "booking") c
                (fun d => in_scope_earlier _ _ _ sid d Hle)) as Ho.
  unfold scoped in *. lia.
Qed.

Lemma days_in_month_le y m : 1 <= m <= 12 -> _days_in_month y m <= 31.
Proof.
  intros Hm. unfold _days_in_month.
  destruct (_is_leap y);
    destruct (month_cases _ Hm) as
      [E|[E|[E|[E|[E|[E|[E|[E|[E|[E|[E|E]]]]]]]]]]];
    rewrite E; vm_compute; discriminate.
Qed.

(** The first of the month is less than 90 days back. *)
Lemma month_start_after_90_days now start90 :
  check_fields now = true ->
  toordinal start90 = toordinal now - 90 ->
  hour start90 = hour now -> minute start90 = minute now ->
  second start90 = second now -> microsecond start90 = microsecond now ->
  _datetime_to_millis start90
  <= _datetime_to_millis (mk_datetime (year now) (month now) 1 0 0 0 0).
Proof.
  intros Hnow Ho Hh Hmi Hs Hus. apply check_fields_iff in Hnow.
  destruct Hnow as (Hy & Hm & Hd & Hh' & Hmi' & Hs' & Hus').
  pose proof (days_in_month_le (year now) _ Hm) as Hdim.
  rewrite !datetime_to_millis_ordinal, Ho, Hh, Hmi, Hs, Hus.
  unfold toordinal, _ymd2ord.
  cbn [year month day hour minute second microsecond].
  assert (0 <= microsecond now / 1000 < 1000)
    by (split; [apply Z.div_pos; lia | apply Z.div_lt_upper_bound; lia]).
  change (0 / 1000) with 0. lia.
Qed.

End Windows.

Section SummaryWindows.
Variable float_of_str : string -> result float.

Lemma numeric_scoped st f start sid :
  Forall (numeric "amount")
    (filter (fun t => succeeded t = true) (collection st "transaction")) ->
  Forall (numeric "amount")
    (filter (fun t => succeeded t = true)
       (scoped st "transaction" f start sid)).
Proof.
  rewrite !Forall_forall. intros H t Ht.
  apply list_elem_of_filter in Ht as [Hs Ht].
  apply list_elem_of_filter in Ht as [_ Ht].
  apply H, list_elem_of_filter. auto.
Qed.

(** X5: a longer period never counts less.  For a valid [now] more than 90
    days after 0001-01-01 and a store whose succeeded transactions hold
    numeric amounts and whose bookings hold a string, null or no
    [client_id], the four summaries are returned, and bookings, new
    clients and returning clients of 7d are at most those of 30d, those of
    30d at most those of 90d, and those of mtd at most those of 90d. *)
Theorem longer_periods_count_more st now sid :
  check_fields now = true ->
  90 < toordinal now ->
  Forall (numeric "amount")
    (filter (fun t => succeeded t = true) (collection st "transaction")) ->
  Forall client_typed (collection st "booking") ->
  exists r7 r30 r90 rm,
    analytics_summary float_of_str (connect st) now sid "7d" = Ok r7
    /\ analytics_summary float_of_str (connect st) now sid "30d" = Ok r30
    /\ analytics_summary float_of_str (connect st) now sid "90d" = Ok r90
    /\ analytics_summary float_of_str (connect st) now sid "mtd" = Ok rm
    /\ total_bookings r7 <= total_bookings r30 <= total_bookings r90
    /\ new_clients r7 <= new_clients r30 <= new_clients r90
    /\ returning_clients r7 <= returning_clients r30 <= returning_clients r90
    /\ total_bookings rm <= total_bookings r90
    /\ new_clients rm <= new_clients r90
    /\ returning_clients rm <= returning_clients r90.
Proof.
  intros Hnow Hord Hnum Htyped.
  destruct (sub_days now 7 Hnow ltac:(lia) ltac:(lia))
    as (s7 & H7 & _ & Ho7 & Hh7 & Hmi7 & Hs7 & Hus7).
  destruct (sub_days now 30 Hnow ltac:(lia) ltac:(lia))
    as (s30 & H30 & _ & Ho30 & Hh30 & Hmi30 & Hs30 & Hus30).
  destruct (sub_days now 90 Hnow ltac:(lia) ltac:(lia))
    as (s90 & H90 & _ & Ho90 & Hh90 & Hmi90 & Hs90 & Hus90).
  pose proof (window_start_mtd now Hnow) as Hm.
  set (sm := mk_datetime (year now) (month now) 1 0 0 0 0) in *.
  assert (window_start now "7d" = Ok s7) as W7 by exact H7.
  assert (window_start now "30d" = Ok s30) as W30 by exact H30.
  assert (window_start now "90d" = Ok s90) as W90 by exact H90.
  pose proof (millis_days s7 now 7 Ho7 Hh7 Hmi7 Hs7 Hus7) as M7.
  pose proof (millis_days s30 now 30 Ho30 Hh30 Hmi30 Hs30 Hus30) as M30.
  pose proof (millis_days s90 now 90 Ho90 Hh90 Hmi90 Hs90 Hus90) as M90.
  pose proof (month_start_after_90_days now s90 Hnow Ho90 Hh90 Hmi90 Hs90 Hus90)
    as Mm. fold sm in Mm.
  assert (_datetime_to_millis s30 <= _datetime_to_millis s7) as L1 by lia.
  assert (_datetime_to_millis s90 <= _datetime_to_millis s30) as L2 by lia.
  do 4 eexists.
  split; [apply (analytics_summary_connect _ st now sid "7d" s7 eq_refl W7
                   (numeric_scoped _ _ _ _ Hnum))|].
  split; [apply (analytics_summary_connect _ st now sid "30d" s30 eq_refl W30
                   (numeric_scoped _ _ _ _ Hnum))|].
  split; [apply (analytics_summary_connect _ st now sid "90d" s90 eq_refl W90
                   (numeric_scoped _ _ _ _ Hnum))|].
  split; [apply (analytics_summary_connect _ st now sid "mtd" sm eq_refl Hm
                   (numeric_scoped _ _ _ _ Hnum))|].
  cbn [total_bookings new_clients returning_clients].
  pose proof (scoped_length_earlier st "booking" "created_at" s30 s7 sid L1).
  pose proof (scoped_length_earlier st "booking" "created_at" s90 s30 sid L2).
  pose proof (scoped_length_earlier st "booking" "created_at" s90 sm sid Mm).
  pose proof (scoped_length_earlier st "client" "created_at" s30 s7 sid L1).
  pose proof (scoped_length_earlier st "client" "created_at" s90 s30 sid L2).
  pose proof (scoped_length_earlier st "client" "created_at" s90 sm sid Mm).
  pose proof (returning_groups_earlier st s30 s7 sid Htyped L1).
  pose proof (returning_groups_earlier st s90 s30 sid Htyped L2).
  pose proof (returning_groups_earlier st s90 sm sid Htyped Mm).
  repeat split; lia.
Qed.

Lemma collection_append_same st name d :
  collection (append_doc st name d) name = collection st name ++ [d].
Proof. unfold collection at 1, append_doc. now rewrite lookup_insert_eq. Qed.

Lemma collection_append_other st name d other :
  other <> name ->
  collection (append_doc st name d) other = collection st other.
Proof.
  intros H. unfold collection, append_doc.
  now rewrite lookup_insert_ne by congruence.
Qed.

Lemma fsum_snoc xs x : fsum (xs ++ [x]) = (fsum xs + x)%float.
Proof. unfold fsum. now rewrite fold_left_app. Qed.

Lemma summary_after_append st now sid p start t :
  valid_period p = true ->
  window_start now p = Ok start ->
  Forall (numeric "amount")
    (filter (fun t => succeeded t = true)
       (scoped st "transaction" "timestamp" start sid)) ->
  numeric "amount" t ->
  exists r r',
    analytics_summary float_of_str (connect st) now sid p = Ok r
    /\ analytics_summary float_of_str
         (connect (append_doc st "transaction" t)) now sid p = Ok r'
    /\ total_revenue r'
       = (if in_scope "timestamp" start sid t && succeeded t
          then total_revenue r + number "amount" t
          else total_revenue r)%float
    /\ total_bookings r' = total_bookings r
    /\ new_clients r' = new_clients r
    /\ returning_clients r' = returning_clients r.
Proof.
  intros Hp Hstart Hnum Ht.
  assert (scoped (append_doc st "transaction" t) "transaction" "timestamp"
            start sid
          = scoped st "transaction" "timestamp" start sid
            ++ filter (fun d => in_scope "timestamp" start sid d = true) [t])
    as Hsc.
  { unfold scoped. now rewrite collection_append_same, filter_app. }
  assert (forall name f,
            name <> "transaction" ->
            scoped (append_doc st "transaction" t) name f start sid
            = scoped st name f start sid) as Hother.
  { intros name f Hname. unfold scoped.
    now rewrite collection_append_other by exact Hname. }
  do 2 eexists.
  split; [apply (analytics_summary_connect _ _ _ _ _ _ Hp Hstart Hnum)|].
  split.
  { apply (analytics_summary_connect _ _ _ _ _ _ Hp Hstart).
    rewrite Hsc, filter_app. apply Forall_app. split; [exact Hnum|].
    rewrite Forall_forall. intros x Hx.
    apply list_elem_of_filter in Hx as [_ Hx].
    apply list_elem_of_filter in Hx as [_ Hx].
    apply list_elem_of_singleton in Hx. now subst. }
  cbn [total_revenue total_bookings new_clients returning_clients].
  rewrite (Hother "booking" "created_at"), (Hother "client" "created_at"),
    (Hother "booking" "start_time") by discriminate.
  repeat split.
  rewrite Hsc, filter_app, fmap_app.
  rewrite !filter_cons, !filter_nil.
  destruct (decide (in_scope "timestamp" start sid t = true)) as [Hin|Hin].
  - rewrite Hin. cbn [andb].
    rewrite filter_cons, filter_nil.
    destruct (decide (succeeded t = true)) as [Hs|Hs].
    + rewrite Hs. apply fsum_snoc.
    + apply not_true_is_false in Hs. rewrite Hs. cbn. now rewrite app_nil_r.
  - apply not_true_is_false in Hin. rewrite Hin. cbn [andb].
    rewrite filter_nil. cbn. now rewrite app_nil_r.
Qed.

(** X6: writing one more transaction at the end of the collection changes
    the summary in one place: when the transaction is in scope (time and
    tenant) and succeeded, [total_revenue] becomes the old value plus its
    amount, in one binary64 addition; otherwise nothing changes. *)
Theorem appended_transaction_adds_its_amount st now sid p start t :
  valid_period p = true ->
  window_start now p = Ok start ->
  Forall (numeric "amount")
    (filter (fun t => succeeded t = true)
       (scoped st "transaction" "timestamp" start sid)) ->
  numeric "amount" t ->
  exists r r',
    analytics_summary float_of_str (connect st) now sid p = Ok r
    /\ analytics_summary float_of_str
         (connect (append_doc st "transaction" t)) now sid p = Ok r'
    /\ total_revenue r'
       = (if in_scope "timestamp" start sid t && succeeded t
          then total_revenue r + number "amount" t
          else total_revenue r)%float
    /\ total_bookings r' = total_bookings r
    /\ new_clients r' = new_clients r
    /\ returning_clients r' = returning_clients r.
Proof. apply summary_after_append. Qed.

End SummaryWindows.

Lemma longer_periods_count_more_witness :
  exists r7 r30 r90 rm,
    analytics_summary no_str (connect scenario_store) now0 None "7d" = Ok r7
    /\ analytics_summary no_str (connect scenario_store) now0 None "30d"
       = Ok r30
    /\ analytics_summary no_str (connect scenario_store) now0 None "90d"
       = Ok r90
    /\ analytics_summary no_str (connect scenario_store) now0 None "mtd"
       = Ok rm
    /\ total_bookings r7 <= total_bookings r30 <= total_bookings r90
    /\ new_clients r7 <= new_clients r30 <= new_clients r90
    /\ returning_clients r7 <= returning_clients r30 <= returning_clients r90
    /\ total_bookings rm <= total_bookings r90
    /\ new_clients rm <= new_clients r90
    /\ returning_clients rm <= returning_clients r90.
Proof.
  refine (longer_periods_count_more no_str scenario_store now0 None _ _ _ _).
  - exact eq_refl.
  - vm_compute. exact eq_refl.
  - repeat first
      [ apply Forall_nil_2
      | apply Forall_cons; split; [eexists; vm_compute; exact eq_refl|] ].
  - repeat first
      [ apply Forall_nil_2
      | apply Forall_cons; split; [vm_compute; exact I|] ].
Defined.

Lemma appended_transaction_adds_its_amount_witness :
  exists r r',
    analytics_summary no_str (connect revenue_store) now0 (Some "s1") "7d"
    = Ok r
    /\ analytics_summary no_str
         (connect (append_doc revenue_store "transaction"
                     (transaction_doc "s1" 25 "succeeded" yesterday_ms)))
         now0 (Some "s1") "7d"
       = Ok r'
    /\ total_revenue r' = (total_revenue r + 25)%float.
Proof.
  destruct (appended_transaction_adds_its_amount no_str revenue_store now0
              (Some "s1") "7d" (mk_datetime 2024 3 8 10 30 0 123456)
              (transaction_doc "s1" 25 "succeeded" yesterday_ms))
    as (r & r' & Hr & Hr' & Hrev & _).
  - exact eq_refl.
  - vm_compute. exact eq_refl.
  - repeat first
      [ apply Forall_nil_2
      | apply Forall_cons; split; [eexists; vm_compute; exact eq_refl|] ].
  - eexists. vm_compute. exact eq_refl.
  - exists r, r'. split; [exact Hr|]. split; [exact Hr'|]. exact Hrev.
Defined.

(** ** The fleet metrics *)

Section FleetFacts.

Lemma select_all st name : select st name [] = collection st name.
Proof.
  unfold select. induction (collection st name) as [|d l IH]; [reflexivity|].
  rewrite filter_cons, decide_True by reflexivity. now rewrite IH.
Qed.

Lemma select_trial st name :
  select st name [("status", CEq (VStr "trial"))]
  = filter (fun s => on_trial s = true) (collection st name).
Proof.
  unfold select. apply list_filter_iff. intros d.
  unfold matches, on_trial, get. cbn [forallb fst snd].
  now rewrite cond_eq_str, andb_true_r.
Qed.

Lemma select_created_since st name start :
  select st name [("created_at", CGte (of_datetime start))]
  = filter (fun d => created_since (_datetime_to_millis start) d = true)
      (collection st name).
Proof.
  unfold select. apply list_filter_iff. intros d.
  unfold matches, created_since, of_datetime. cbn [forallb fst snd].
  now rewrite cond_gte_date, andb_true_r.
Qed.

Lemma value_eqb_strings a b : value_eqb (VStr a) (VStr b) = bool_decide (a = b).
Proof.
  rewrite value_eqb_str. cbn [eq_str].
  destruct (String.eqb_spec a b) as [->|Hne].
  - now rewrite bool_decide_eq_true_2.
  - now rewrite bool_decide_eq_false_2.
Qed.

Lemma existsb_strings a (l : list string) :
  existsb (value_eqb (VStr a)) (VStr <$> l) = bool_decide (a ∈ l).
Proof.
  induction l as [|b l IH].
  - cbn. rewrite bool_decide_eq_false_2; [reflexivity|]. apply not_elem_of_nil.
  - rewrite fmap_cons. cbn [existsb]. rewrite IH, value_eqb_strings.
    destruct (decide (a = b)) as [->|Hne].
    + rewrite (bool_decide_eq_true_2 (b = b)) by reflexivity. cbn [orb].
      symmetry. apply bool_decide_eq_true_2. now left.
    + rewrite (bool_decide_eq_false_2 (a = b)) by exact Hne. cbn [orb].
      apply bool_decide_ext. rewrite elem_of_cons. tauto.
Qed.

(** The distinct values of strings: every string once. *)
Lemma distinct_strings (l : list string) :
  exists k,
    distinct_values (VStr <$> l) = VStr <$> k
    /\ NoDup k /\ (forall s, s ∈ k <-> s ∈ l).
Proof.
  induction l as [|a l (k & Hk & Hnd & Hin)].
  - exists []. repeat split; [apply NoDup_nil_2 | auto | auto].
  - rewrite fmap_cons. cbn [distinct_values]. rewrite Hk, existsb_strings.
    destruct (decide (a ∈ k)) as [Ha|Ha].
    + rewrite bool_decide_eq_true_2 by exact Ha.
      exists k. split; [reflexivity|]. split; [exact Hnd|].
      intros s. rewrite elem_of_cons, Hin. split; [auto|].
      intros [->|?]; [now apply Hin | assumption].
    + rewrite bool_decide_eq_false_2 by exact Ha.
      exists (a :: k). split; [reflexivity|].
      split; [now apply NoDup_cons|].
      intros s. rewrite !elem_of_cons, Hin. tauto.
Qed.

Lemma salon_ids_typed (docs : list doc) :
  Forall tenant_typed docs ->
  omap (fun d : doc => d !! "salon_id") docs = VStr <$> omap tenant_of docs.
Proof.
  induction docs as [|d docs IH]; intros H; [reflexivity|].
  apply Forall_cons in H as [Hd H]. cbn [omap list_omap].
  unfold tenant_typed in Hd. unfold tenant_of at 1.
  rewrite (IH H).
  destruct (d !! "salon_id") as [[]|]; (reflexivity || contradiction).
Qed.

Lemma elem_of_tenants s (docs : list doc) :
  s ∈ omap tenant_of docs
  <-> exists b, b ∈ docs /\ b !! "salon_id" = Some (VStr s).
Proof.
  rewrite list_elem_of_omap. split; intros (b & Hb & Ht); exists b;
    (split; [exact Hb|]).
  - unfold tenant_of in Ht.
    destruct (b !! "salon_id") as [[]|]; congruence.
  - unfold tenant_of. now rewrite Ht.
Qed.

(** No subscription is both paid and on trial. *)
Lemma paid_and_trial_bound (l : list doc) :
  Z.of_nat (length (filter (fun s => active_or_past_due s = true) l))
  + Z.of_nat (length (filter (fun s => on_trial s = true) l))
  <= Z.of_nat (length l).
Proof.
  induction l as [|s l IH]; [cbn; lia|].
  rewrite !filter_cons. cbn [length].
  destruct (decide (active_or_past_due s = true)) as [Ha|Ha];
    destruct (decide (on_trial s = true)) as [Ht|Ht]; cbn [length]; try lia.
  exfalso. unfold active_or_past_due, on_trial in *.
  destruct (get s "status") as [| | | |status|]; try discriminate.
  cbn [eq_str] in *. apply String.eqb_eq in Ht. subst status.
  discriminate Ha.
Qed.

End FleetFacts.

Section FleetClaims.
Variable float_of_str : string -> result float.

Lemma numeric_recent st start :
  Forall (numeric "amount")
    (filter (fun t => succeeded t = true) (collection st "transaction")) ->
  Forall (numeric "amount")
    (filter (fun t => in_window "timestamp" start t && succeeded t = true)
       (collection st "transaction")).
Proof.
  rewrite !Forall_forall. intros H t Ht.
  apply list_elem_of_filter in Ht as [Hc Ht].
  apply H, list_elem_of_filter. apply andb_true_iff in Hc. tauto.
Qed.

(** The metrics over a reachable store, field by field. *)
Lemma admin_metrics_fields st now1 now2 last30 last1d :
  Datetime.sub now1 (mk_timedelta 30 0 0) = Ok last30 ->
  Datetime.sub now2 (mk_timedelta 1 0 0) = Ok last1d ->
  Forall (numeric "mrr")
    (filter (fun s => active_or_past_due s = true)
       (collection st "subscription")) ->
  Forall (numeric "amount")
    (filter (fun t => in_window "timestamp" last30 t && succeeded t = true)
       (collection st "transaction")) ->
  admin_metrics float_of_str (connect st) now1 now2
  = Ok (mk_metrics
          (Z.of_nat (length (collection st "salon")))
          (Z.of_nat (length (filter (fun s => active_or_past_due s = true)
                               (collection st "subscription"))))
          (Z.of_nat (length (filter (fun s => on_trial s = true)
                               (collection st "subscription"))))
          (fsum (number "mrr"
                   <$> filter (fun s => active_or_past_due s = true)
                         (collection st "subscription")))
          (fsum (number "mrr"
                   <$> filter (fun s => active_or_past_due s = true)
                         (collection st "subscription")) * 12)%float
          (fsum (number "amount"
                   <$> filter (fun t => in_window "timestamp" last30 t
                                        && succeeded t = true)
                         (collection st "transaction")))
          (Z.of_nat
             (length
                (distinct_values
                   (omap (fun d : doc => d !! "salon_id")
                      (filter
                         (fun d => created_since (_datetime_to_millis last1d) d
                                   = true)
                         (collection st "booking"))))))).
Proof.
  intros H30 H1 Hmrr Hamount. unfold admin_metrics.
  cbn [mbind result_bind connect find count_documents distinct].
  rewrite select_all, select_trial, !select_active.
  rewrite (sum_loop _ _ _ _ Hmrr). cbn [mbind result_bind].
  change (timedelta_new 30 0 0 0 0) with (Ok (mk_timedelta 30 0 0)).
  cbn [mbind result_bind]. rewrite H30. cbn [mbind result_bind].
  rewrite select_recent, (sum_loop _ _ _ _ Hamount). cbn [mbind result_bind].
  change (timedelta_new 1 0 0 0 0) with (Ok (mk_timedelta 1 0 0)).
  cbn [mbind result_bind]. rewrite H1. cbn [mbind result_bind].
  now rewrite select_created_since.
Qed.

(** X7: the salon counts of the fleet metrics: [total_salons] is the
    number of salon documents, [active_paid_salons] the number of
    subscriptions with status "active" or "past_due", [trial_salons] the
    number with status "trial"; no subscription is in both, so the two
    together never exceed the number of subscriptions. *)
Theorem fleet_counts st now1 now2 :
  check_fields now1 = true -> 30 < toordinal now1 ->
  check_fields now2 = true -> 1 < toordinal now2 ->
  Forall (numeric "mrr")
    (filter (fun s => active_or_past_due s = true)
       (collection st "subscription")) ->
  Forall (numeric "amount")
    (filter (fun t => succeeded t = true) (collection st "transaction")) ->
  exists r,
    admin_metrics float_of_str (connect st) now1 now2 = Ok r
    /\ total_salons r = Z.of_nat (length (collection st "salon"))
    /\ active_paid_salons r
       = Z.of_nat (length (filter (fun s => active_or_past_due s = true)
                             (collection st "subscription")))
    /\ trial_salons r
       = Z.of_nat (length (filter (fun s => on_trial s = true)
                             (collection st "subscription")))
    /\ active_paid_salons r + trial_salons r
       <= Z.of_nat (length (collection st "subscription")).
Proof.
  intros Hn1 Ho1 Hn2 Ho2 Hmrr Hamount.
  destruct (sub_days now1 30 Hn1 ltac:(lia) Ho1) as (last30 & H30 & _).
  destruct (sub_days now2 1 Hn2 ltac:(lia) Ho2) as (last1d & H1 & _).
  eexists.
  split; [apply (admin_metrics_fields st now1 now2 last30 last1d H30 H1 Hmrr
                   (numeric_recent _ _ Hamount))|].
  cbn [total_salons active_paid_salons trial_salons].
  repeat split. apply paid_and_trial_bound.
Qed.

(** X8: [daily_active_salons] counts tenants, not bookings: over bookings
    whose [salon_id] is a string when it is there, it is the number of
    distinct tenant ids among the bookings created in the last day (at or
    after [now2] minus one day, in the store's milliseconds), so it never
    exceeds the number of those bookings. *)
Theorem daily_active_salons_are_distinct st now1 now2 :
  check_fields now1 = true -> 30 < toordinal now1 ->
  check_fields now2 = true -> 1 < toordinal now2 ->
  Forall (numeric "mrr")
    (filter (fun s => active_or_past_due s = true)
       (collection st "subscription")) ->
  Forall (numeric "amount")
    (filter (fun t => succeeded t = true) (collection st "transaction")) ->
  Forall tenant_typed (collection st "booking") ->
  exists r tenants,
    admin_metrics float_of_str (connect st) now1 now2 = Ok r
    /\ NoDup tenants
    /\ (forall s,
          s ∈ tenants <->
          exists b,
            b ∈ collection st "booking"
            /\ created_since (_datetime_to_millis now2 - 86400000) b = true
            /\ b !! "salon_id" = Some (VStr s))
    /\ daily_active_salons r = Z.of_nat (length tenants)
    /\ daily_active_salons r
       <= Z.of_nat
            (length (filter
                       (fun b =>
                          created_since (_datetime_to_millis now2 - 86400000) b
                          = true)
                       (collection st "booking"))).
Proof.
  intros Hn1 Ho1 Hn2 Ho2 Hmrr Hamount Htyped.
  destruct (sub_days now1 30 Hn1 ltac:(lia) Ho1) as (last30 & H30 & _).
  destruct (sub_days now2 1 Hn2 ltac:(lia) Ho2)
    as (last1d & H1 & _ & Ho & Hh & Hmi & Hs & Hus).
  pose proof (millis_days last1d now2 1 Ho Hh Hmi Hs Hus) as Hms.
  replace (_datetime_to_millis now2 - 86400000)
    with (_datetime_to_millis last1d) by lia.
  set (recent := filter (fun b => created_since (_datetime_to_millis last1d) b
                                  = true)
                   (collection st "booking")).
  assert (Forall tenant_typed recent) as Hrecent.
  { rewrite Forall_forall in Htyped |- *. intros b Hb.
    apply list_elem_of_filter in Hb as [_ Hb]. now apply Htyped. }
  destruct (distinct_strings (omap tenant_of recent))
    as (tenants & Hd & Hnd & Hin).
  eexists. exists tenants.
  split; [apply (admin_metrics_fields st now1 now2 last30 last1d H30 H1 Hmrr
                   (numeric_recent _ _ Hamount))|].
  cbn [daily_active_salons]. fold recent.
  rewrite (salon_ids_typed _ Hrecent), Hd, length_fmap.
  split; [exact Hnd|]. split; [|split; [reflexivity|]].
  - intros s. rewrite Hin, elem_of_tenants. unfold recent.
    split; intros (b & Hb & Hs').
    + apply list_elem_of_filter in Hb as [Hc Hb]. eauto.
    + destruct Hs' as [Hc Hs']. exists b. split; [|exact Hs'].
      apply list_elem_of_filter. auto.
  - apply inj_le.
    transitivity (length (omap tenant_of recent)).
    + apply submseteq_length, NoDup_submseteq; [exact Hnd|].
      intros s. apply Hin.
    + clear. induction recent as [|b l IH]; [reflexivity|].
      cbn [omap list_omap length]. destruct (tenant_of b); cbn [length]; lia.
Qed.

(** X9: [revenue_30d] of the fleet metrics is the [total_revenue] that the
    summary returns for all tenants and the period 30d at the same
    instant. *)
Theorem revenue_30d_is_the_30d_summary st now now2 :
  check_fields now = true -> 30 < toordinal now ->
  check_fields now2 = true -> 1 < toordinal now2 ->
  Forall (numeric "mrr")
    (filter (fun s => active_or_past_due s = true)
       (collection st "subscription")) ->
  Forall (numeric "amount")
    (filter (fun t => succeeded t = true) (collection st "transaction")) ->
  exists m r,
    admin_metrics float_of_str (connect st) now now2 = Ok m
    /\ analytics_summary float_of_str (connect st) now None "30d" = Ok r
    /\ revenue_30d m = total_revenue r.
Proof.
  intros Hn1 Ho1 Hn2 Ho2 Hmrr Hamount.
  destruct (sub_days now 30 Hn1 ltac:(lia) Ho1) as (last30 & H30 & _).
  destruct (sub_days now2 1 Hn2 ltac:(lia) Ho2) as (last1d & H1 & _).
  assert (window_start now "30d" = Ok last30) as Hw by exact H30.
  do 2 eexists.
  split; [apply (admin_metrics_fields st now now2 last30 last1d H30 H1 Hmrr
                   (numeric_recent _ _ Hamount))|].
  split; [apply (analytics_summary_connect _ st now None "30d" last30 eq_refl Hw
                   (numeric_scoped _ _ _ _ Hamount))|].
  cbn [revenue_30d total_revenue]. f_equal. f_equal.
  unfold scoped. rewrite list_filter_filter. apply list_filter_iff.
  intros t. unfold in_scope, of_tenant. cbn [truthy].
  rewrite andb_true_r, andb_true_iff. tauto.
Qed.

End FleetClaims.

Lemma fleet_counts_witness :
  exists r,
    admin_metrics no_str (connect busy_store) now0 now0 = Ok r
    /\ total_salons r = 3 /\ active_paid_salons r = 2 /\ trial_salons r = 1.
Proof.
  destruct (fleet_counts no_str busy_store now0 now0)
    as (r & Hr & Ht & Ha & Htr & _).
  - exact eq_refl.
  - vm_compute. exact eq_refl.
  - exact eq_refl.
  - vm_compute. exact eq_refl.
  - repeat first
      [ apply Forall_nil_2
      | apply Forall_cons; split; [eexists; vm_compute; exact eq_refl|] ].
  - repeat first
      [ apply Forall_nil_2
      | apply Forall_cons; split; [eexists; vm_compute; exact eq_refl|] ].
  - exists r. split; [exact Hr|]. rewrite Ht, Ha, Htr.
    repeat split; vm_compute; exact eq_refl.
Defined.

Lemma daily_active_salons_are_distinct_witness :
  exists r,
    admin_metrics no_str (connect busy_store) now0 now0 = Ok r
    /\ daily_active_salons r
       <= Z.of_nat
            (length (filter
                       (fun b =>
                          created_since (_datetime_to_millis now0 - 86400000) b
                          = true)
                       (collection busy_store "booking"))).
Proof.
  destruct (daily_active_salons_are_distinct no_str busy_store now0 now0)
    as (r & tenants & Hr & _ & _ & _ & Hle).
  - exact eq_refl.
  - vm_compute. exact eq_refl.
  - exact eq_refl.
  - vm_compute. exact eq_refl.
  - repeat first
      [ apply Forall_nil_2
      | apply Forall_cons; split; [eexists; vm_compute; exact eq_refl|] ].
  - repeat first
      [ apply Forall_nil_2
      | apply Forall_cons; split; [eexists; vm_compute; exact eq_refl|] ].
  - repeat first
      [ apply Forall_nil_2
      | apply Forall_cons; split; [vm_compute; exact I|] ].
  - exists r. split; [exact Hr | exact Hle].
Defined.

Lemma revenue_30d_is_the_30d_summary_witness :
  exists m r,
    admin_metrics no_str (connect busy_store) now0 now0 = Ok m
    /\ analytics_summary no_str (connect busy_store) now0 None "30d" = Ok r
    /\ revenue_30d m = total_revenue r.
Proof.
  refine (revenue_30d_is_the_30d_summary no_str busy_store now0 now0
            _ _ _ _ _ _).
  - exact eq_refl.
  - vm_compute. exact eq_refl.
  - exact eq_refl.
  - vm_compute. exact eq_refl.
  - repeat first
      [ apply Forall_nil_2
      | apply Forall_cons; split; [eexists; vm_compute; exact eq_refl|] ].
  - repeat first
      [ apply Forall_nil_2
      | apply Forall_cons; split; [eexists; vm_compute; exact eq_refl|] ].
Defined.

(** Four bookings of the last day from two tenants: two daily actives. *)
Example busy_store_metrics float_of_str :
  admin_metrics float_of_str (connect busy_store) now0 now0
  = Ok (mk_metrics 3 2 1 1500 18000 140 2).
Proof. vm_compute. exact eq_refl. Qed.

(** ** The write endpoints *)

Section Writes.
Variable float_of_str : string -> result float.
Variable create_document : string -> doc -> result string.

Lemma Transaction_fields salon amount purpose status ts t :
  Transaction salon amount purpose status ts = Ok t ->
  purpose ∈ ["subscription"; "addon"; "pos"]
  /\ status ∈ ["pending"; "succeeded"; "failed"; "refunded"]
  /\ t !! "salon_id" = Some (VStr salon)
  /\ t !! "amount" = Some (VDouble amount)
  /\ t !! "currency" = Some (VStr "INR")
  /\ t !! "status" = Some (VStr status)
  /\ t !! "timestamp" = Some (VDate (_datetime_to_millis ts)).
Proof.
  unfold Transaction.
  destruct (bool_decide (purpose ∈ _)) eqn:Hp; [|discriminate].
  destruct (bool_decide (status ∈ _)) eqn:Hs; [|discriminate].
  cbn [andb]. intros [= <-].
  apply bool_decide_eq_true_1 in Hp, Hs.
  repeat split; try assumption;
    rewrite !lookup_insert; repeat case_decide; (reflexivity || congruence).
Qed.

(** X10: POST /billing/transactions hands a transaction to the store only
    when its purpose and status are literals of [schemas.Transaction]; any
    other value raises before the store is called.  What is handed over
    carries the tenant and the amount as given (any float, whatever its
    sign), the currency INR and the server's time as timestamp, and the
    outcome of the store is the outcome of the endpoint. *)
Theorem create_transaction_validates_and_stamps now body :
  (~ (tc_purpose body ∈ ["subscription"; "addon"; "pos"]
      /\ tc_status body ∈ ["pending"; "succeeded"; "failed"; "refunded"]) ->
   create_transaction create_document now body = Raise ValueError)
  /\ (tc_purpose body ∈ ["subscription"; "addon"; "pos"] ->
      tc_status body ∈ ["pending"; "succeeded"; "failed"; "refunded"] ->
      exists t,
        create_transaction create_document now body
        = create_document "transaction" t
        /\ t !! "salon_id" = Some (VStr (tc_salon_id body))
        /\ t !! "amount" = Some (VDouble (tc_amount body))
        /\ t !! "currency" = Some (VStr "INR")
        /\ t !! "status" = Some (VStr (tc_status body))
        /\ t !! "timestamp" = Some (VDate (_datetime_to_millis now))).
Proof.
  unfold create_transaction. split.
  - intros Hbad. unfold Transaction.
    destruct (bool_decide (tc_purpose body ∈ _)) eqn:Hp;
      [|reflexivity].
    destruct (bool_decide (tc_status body ∈ _)) eqn:Hs;
      [|reflexivity].
    apply bool_decide_eq_true_1 in Hp, Hs.
    exfalso. apply Hbad. split; assumption.
  - intros Hp Hs.
    destruct (Transaction (tc_salon_id body) (tc_amount body)
                (tc_purpose body) (tc_status body) now) as [t|e] eqn:Ht.
    + destruct (Transaction_fields _ _ _ _ _ _ Ht)
        as (_ & _ & H1 & H2 & H3 & H4 & H5).
      exists t. cbn [mbind result_bind].
      split; [destruct (create_document "transaction" t); reflexivity|].
      auto.
    + exfalso. unfold Transaction in Ht.
      rewrite !bool_decide_eq_true_2 in Ht by assumption. discriminate.
Qed.

(** X11: a transaction that POST /billing/transactions builds at [now] is
    read by the summary of its tenant at that instant, for every period:
    once it is written at the end of the collection, [total_revenue] is the
    old value plus its amount when its status is "succeeded", and the old
    value otherwise. *)
Theorem created_transaction_is_counted st now p start body t :
  check_fields now = true ->
  valid_period p = true ->
  window_start now p = Ok start ->
  tc_salon_id body <> "" ->
  Transaction (tc_salon_id body) (tc_amount body) (tc_purpose body)
    (tc_status body) now = Ok t ->
  Forall (numeric "amount")
    (filter (fun t => succeeded t = true)
       (scoped st "transaction" "timestamp" start (Some (tc_salon_id body)))) ->
  exists r r',
    analytics_summary float_of_str (connect st) now
      (Some (tc_salon_id body)) p = Ok r
    /\ analytics_summary float_of_str
         (connect (append_doc st "transaction" t)) now
         (Some (tc_salon_id body)) p = Ok r'
    /\ total_revenue r'
       = (if String.eqb (tc_status body) "succeeded"
          then total_revenue r + tc_amount body
          else total_revenue r)%float.
Proof.
  intros Hnow Hp Hstart Hsalon Ht Hnum.
  destruct (Transaction_fields _ _ _ _ _ _ Ht)
    as (_ & _ & Hs & Ha & _ & Hst & Hts).
  assert (numeric "amount" t) as Hnt.
  { exists (tc_amount body). unfold field_number, get_default. now rewrite Ha. }
  destruct (summary_after_append float_of_str st now
              (Some (tc_salon_id body)) p start t Hp Hstart Hnum Hnt)
    as (r & r' & Hr & Hr' & Hrev & _).
  exists r, r'. split; [exact Hr|]. split; [exact Hr'|].
  rewrite Hrev.
  assert (in_scope "timestamp" start (Some (tc_salon_id body)) t = true) as ->.
  { unfold in_scope, in_window, of_tenant, get.
    rewrite Hts, Hs, (truthy_nonempty _ Hsalon).
    cbn [default from_option id eq_str].
    rewrite String.eqb_refl, andb_true_r. apply Z.leb_le.
    now apply (window_start_not_after now p). }
  cbn [andb]. unfold succeeded, get, number, field_number, get_default.
  rewrite Hst, Ha. cbn [default from_option id eq_str]. reflexivity.
Qed.

Lemma negative_not_nonneg x :
  (x <? 0)%float = true -> (0 <=? x)%float = false.
Proof.
  rewrite ltb_spec, leb_spec.
  change (Prim2SF 0) with (S754_zero false).
  destruct (Prim2SF x) as [[|]|[|]| |[|] m e]; cbn; congruence.
Qed.

(** X12: POST /services hands a service to the store only when its
    duration is between 5 and 600 minutes and its price is not below zero;
    a shorter or longer duration or a negative price raises before the
    store is called, and a service that was stored has its duration and
    price as given. *)
Theorem create_service_keeps_bounds body :
  (sc_duration_min body < 5 \/ 600 < sc_duration_min body
   \/ (sc_price body <? 0)%float = true ->
   create_service create_document body = Raise ValueError)
  /\ (forall id,
        create_service create_document body = Ok id ->
        exists d,
          create_document "service" d = Ok id
          /\ d !! "salon_id" = Some (VStr (sc_salon_id body))
          /\ d !! "duration_min" = Some (VInt (sc_duration_min body))
          /\ d !! "price" = Some (VDouble (sc_price body))
          /\ 5 <= sc_duration_min body <= 600
          /\ (sc_price body <? 0)%float = false).
Proof.
  unfold create_service, Service. split.
  - intros Hbad.
    destruct (Z.leb_spec 5 (sc_duration_min body));
      destruct (Z.leb_spec (sc_duration_min body) 600);
      destruct (0 <=? sc_price body)%float eqn:Hprice;
      try reflexivity.
    exfalso. destruct Hbad as [?|[?|Hneg]]; try lia.
    apply negative_not_nonneg in Hneg. congruence.
  - intros id.
    destruct (Z.leb_spec 5 (sc_duration_min body));
      destruct (Z.leb_spec (sc_duration_min body) 600);
      destruct (0 <=? sc_price body)%float eqn:Hprice;
      cbn [andb mbind result_bind]; try discriminate.
    match goal with
    | |- context [create_document "service" ?d] => set (doc := d)
    end.
    destruct (create_document "service" doc) as [sid|e] eqn:Hcd;
      cbn [mbind result_bind]; [|discriminate].
    intros [= <-]. exists doc. split; [exact Hcd|].
    repeat split; try lia;
      try (unfold doc; rewrite !lookup_insert; repeat case_decide;
           (reflexivity || congruence)).
    destruct (sc_price body <? 0)%float eqn:Hneg; [|reflexivity].
    apply negative_not_nonneg in Hneg. congruence.
Qed.

End Writes.

(** ** Responses *)

Section Responses.
Variables oid other : Type.
Variable str_of_oid : oid -> string.
Variable isoformat : datetime -> string.
Variable bson_importable : bool.
Variable get_documents : string -> query -> result (list (pyobj oid other)).

Local Notation "'convert'" :=
  (oid_str_value oid other str_of_oid isoformat bson_importable).
Local Notation "'to_json'" :=
  (_oid_str oid other str_of_oid isoformat bson_importable).

Lemma oid_str_loop (d : gmap string (pyval oid other)) :
  map_fold (fun k v out => <[ k := convert v ]> out) ∅ d = convert <$> d.
Proof.
  induction d as [|k v d Hk Hfirst IH] using map_first_key_ind.
  - now rewrite map_fold_empty, fmap_empty.
  - rewrite map_fold_insert_first_key by assumption.
    now rewrite IH, fmap_insert.
Qed.

Lemma convert_idempotent v : convert (convert v) = convert v.
Proof.
  unfold oid_str_value.
  destruct v as [o|dt|s|x]; try reflexivity.
  destruct bson_importable; reflexivity.
Qed.

(** X13: [_oid_str] leaves anything that is not a dict alone.  In a dict
    it keeps every key, replaces a datetime by its ISO string and, when
    bson can be imported, an ObjectId by its string, and leaves every other
    value as it is; so no datetime is left in the result (and no ObjectId
    when bson can be imported), and applying it twice is applying it
    once. *)
Theorem oid_str_makes_values_strings (x : pyobj oid other) :
  to_json (to_json x) = to_json x
  /\ match x with
     | NotDict v => to_json x = NotDict v
     | Dict d =>
         exists d',
           to_json x = Dict d'
           /\ dom d' = dom d
           /\ (forall k, d' !! k = convert <$> d !! k)
           /\ (forall k s, d !! k = Some (PyStr s) -> d' !! k = Some (PyStr s))
           /\ (forall k y, d !! k = Some (PyOther y) -> d' !! k = Some (PyOther y))
           /\ (forall k dt, d' !! k <> Some (PyDatetime dt))
           /\ (bson_importable = true ->
               forall k o, d' !! k <> Some (PyObjectId o))
     end.
Proof.
  destruct x as [d|v]; cbn [_oid_str]; [|split; reflexivity].
  rewrite !oid_str_loop. split.
  - f_equal. rewrite <- map_fmap_compose. apply map_fmap_ext.
    intros k v _. apply convert_idempotent.
  - exists (convert <$> d). split; [reflexivity|].
    split; [apply dom_fmap_L|].
    split; [intros k; apply lookup_fmap|].
    split; [intros k s Hk; now rewrite lookup_fmap, Hk|].
    split; [intros k y Hk; now rewrite lookup_fmap, Hk|].
    split.
    + intros k dt. rewrite lookup_fmap. unfold oid_str_value.
      destruct (d !! k) as [[o|dt'|s|y]|]; cbn; try discriminate.
      destruct bson_importable; discriminate.
    + intros Hb k o. rewrite lookup_fmap. unfold oid_str_value. rewrite Hb.
      destruct (d !! k) as [[o'|dt'|s|y]|]; cbn; discriminate.
Qed.

Lemma eq_str_lookup (d : doc) k s :
  eq_str (default VNull (d !! k)) s = true <-> d !! k = Some (VStr s).
Proof.
  destruct (d !! k) as [[| | | |s'|]|]; cbn; try (split; discriminate).
  rewrite String.eqb_eq. split; congruence.
Qed.

(** X14: GET /bookings always scopes to the tenant, also to the empty one:
    the filter it reads with matches a booking exactly when its [salon_id]
    is the requested string and, when a non-empty status is given, its
    status is that string; a missing or empty status filters nothing.
    The documents read are returned through [_oid_str], and a failure of
    the read is the failure of the endpoint. *)
Theorem list_bookings_scopes_to_tenant salon_id status :
  exists q,
    list_bookings oid other str_of_oid isoformat bson_importable
      get_documents salon_id status
    = fmap (M := list) to_json <$> get_documents "booking" q
    /\ forall d : doc,
         matches q d = true <->
         d !! "salon_id" = Some (VStr salon_id)
         /\ match status with
            | Some (String a s) => d !! "status" = Some (VStr (String a s))
            | _ => True
            end.
Proof.
  unfold list_bookings.
  destruct status as [[|a s]|]; cbn [truthy app];
    match goal with
    | |- context [get_documents "booking" ?q0] => exists q0
    end;
    (split; [destruct (get_documents "booking" _); reflexivity|]);
    intros d; unfold matches; cbn [forallb fst snd];
    rewrite !cond_eq_str, ?andb_true_r, ?andb_true_iff, !eq_str_lookup;
    tauto.
Qed.

(** X15: GET /payroll scopes to the tenant in the same way, with the month
    as the optional second condition: a missing or empty month filters
    nothing, any other month must be the document's [month] string. *)
Theorem list_payroll_scopes_to_tenant salon_id month :
  exists q,
    list_payroll oid other str_of_oid isoformat bson_importable
      get_documents salon_id month
    = fmap (M := list) to_json <$> get_documents "payrollentry" q
    /\ forall d : doc,
         matches q d = true <->
         d !! "salon_id" = Some (VStr salon_id)
         /\ match month with
            | Some (String a s) => d !! "month" = Some (VStr (String a s))
            | _ => True
            end.
Proof.
  unfold list_payroll.
  destruct month as [[|a s]|]; cbn [truthy app];
    match goal with
    | |- context [get_documents "payrollentry" ?q0] => exists q0
    end;
    (split; [destruct (get_documents "payrollentry" _); reflexivity|]);
    intros d; unfold matches; cbn [forallb fst snd];
    rewrite !cond_eq_str, ?andb_true_r, ?andb_true_iff, !eq_str_lookup;
    tauto.
Qed.

(** X16: the listings of clients, services, inventory, staff and
    transactions read their collection with one filter, which matches a
    document exactly when its [salon_id] is the requested string, and
    return what was read through [_oid_str], one result per document. *)
Theorem listings_scope_to_tenant salon_id :
  exists q,
    (forall d : doc, matches q d = true <-> d !! "salon_id" = Some (VStr salon_id))
    /\ list_clients oid other str_of_oid isoformat bson_importable
         get_documents salon_id
       = fmap (M := list) to_json <$> get_documents "client" q
    /\ list_services oid other str_of_oid isoformat bson_importable
         get_documents salon_id
       = fmap (M := list) to_json <$> get_documents "service" q
    /\ list_inventory oid other str_of_oid isoformat bson_importable
         get_documents salon_id
       = fmap (M := list) to_json <$> get_documents "inventoryitem" q
    /\ list_staff oid other str_of_oid isoformat bson_importable
         get_documents salon_id
       = fmap (M := list) to_json <$> get_documents "staff" q
    /\ list_transactions oid other str_of_oid isoformat bson_importable
         get_documents salon_id
       = fmap (M := list) to_json <$> get_documents "transaction" q
    /\ forall name docs,
         get_documents name q = Ok docs ->
         length (fmap (M := list) to_json docs) = length docs.
Proof.
  exists [("salon_id", CEq (VStr salon_id))]. split.
  - intros d. unfold matches. cbn [forallb fst snd].
    now rewrite cond_eq_str, andb_true_r, eq_str_lookup.
  - unfold list_clients, list_services, list_inventory, list_staff,
      list_transactions.
    repeat split;
      try (destruct (get_documents _ _); reflexivity).
    intros name docs _. apply length_fmap.
Qed.

End Responses.

Lemma created_transaction_is_counted_witness :
  exists r r',
    analytics_summary no_str (connect revenue_store) now0 (Some "s1") "7d"
    = Ok r
    /\ analytics_summary no_str
         (connect (append_doc revenue_store "transaction"
                     (transaction_doc_of "s1" 25 "pos" "succeeded" now0)))
         now0 (Some "s1") "7d"
       = Ok r'
    /\ total_revenue r' = (total_revenue r + 25)%float.
Proof.
  refine (created_transaction_is_counted no_str revenue_store now0 "7d"
            (mk_datetime 2024 3 8 10 30 0 123456)
            {| tc_salon_id := "s1"; tc_amount := 25; tc_purpose := "pos";
               tc_status := "succeeded" |}
            (transaction_doc_of "s1" 25 "pos" "succeeded" now0) _ _ _ _ _ _).
  - exact eq_refl.
  - exact eq_refl.
  - vm_compute. exact eq_refl.
  - discriminate.
  - vm_compute. exact eq_refl.
  - repeat first
      [ apply Forall_nil_2
      | apply Forall_cons; split; [eexists; vm_compute; exact eq_refl|] ].
Defined.
